(** * Substitute-part validator: a shallow embedding of the TypeScript sources

    The development follows the layout of the repository:
    - [JS]             the JavaScript string methods the sources call;
    - [JSON]           [JSON.parse] and [JSON.stringify] on the values used;
    - [Types]          types.ts;
    - [GeminiService]  services/geminiService.ts;
    - [FileUpload]     components/FileUpload.tsx ([processFile]);
    - [App]            App.tsx (the session state and its transitions);
    - [AnalysisTable]  components/AnalysisTable.tsx ([exportCSV]);
    - [Samples]        the concrete inputs of the examples.

    Definitions come first, the properties of the specification after them.
    What the sources leave to the platform is modelled with them: strings
    are sequences of UTF-16 code units, a thrown error is an outcome, and
    the collaborators outside the repository (the environment, the
    spreadsheet library, the generation service) are a record of oracles
    whose uses are logged as events. *)

From Stdlib Require Import List NArith ZArith QArith String Ascii Bool Lia.
From Stdlib Require Import DecimalString.
Import ListNotations.

Set Implicit Arguments.

(* ================================================================== *)
(** * JavaScript strings *)
(* ================================================================== *)

Module JS.

(** A JavaScript string is a sequence of UTF-16 code units. *)
Definition jsstring := list N.

(** [lit "abc"] is the string literal made of the given ASCII characters. *)
Definition lit (s : string) : jsstring :=
  map N_of_ascii (list_ascii_of_string s).

Definition LF : N := 10.
Definition DQUOTE : N := 34.
Definition BACKTICK : N := 96.

(** [a === b] on strings. *)
Fixpoint eqb (a b : jsstring) : bool :=
  match a, b with
  | [], [] => true
  | c :: a', d :: b' => (c =? d)%N && eqb a' b'
  | _, _ => false
  end.

(** Truthiness of a string value: only the empty string is falsy. *)
Definition truthy (s : jsstring) : bool :=
  match s with [] => false | _ :: _ => true end.

(** [s.startsWith(p)] *)
Fixpoint startsWith (s p : jsstring) {struct p} : bool :=
  match p with
  | [] => true
  | c :: p' =>
      match s with
      | [] => false
      | d :: s' => (c =? d)%N && startsWith s' p'
      end
  end.

(** [s.endsWith(p)] *)
Definition endsWith (s p : jsstring) : bool :=
  startsWith (rev s) (rev p).

(** [s.includes(p)] *)
Fixpoint includes (s p : jsstring) : bool :=
  startsWith s p ||
  match s with
  | [] => false
  | _ :: s' => includes s' p
  end.

(** The code units [String.prototype.trim] removes: WhiteSpace and
    LineTerminator of ECMA-262. *)
Definition isWhiteSpace (c : N) : bool :=
  ((9 <=? c) && (c <=? 13) || (c =? 32) || (c =? 160) || (c =? 5760)
   || (8192 <=? c) && (c <=? 8202) || (c =? 8232) || (c =? 8233)
   || (c =? 8239) || (c =? 8287) || (c =? 12288) || (c =? 65279))%N.

Fixpoint trimStart (s : jsstring) : jsstring :=
  match s with
  | [] => []
  | c :: s' => if isWhiteSpace c then trimStart s' else s
  end.

Definition trimEnd (s : jsstring) : jsstring := rev (trimStart (rev s)).

(** [s.trim()] *)
Definition trim (s : jsstring) : jsstring := trimEnd (trimStart s).

(** [l.join(sep)] on an array of strings. *)
Fixpoint join (sep : jsstring) (l : list jsstring) : jsstring :=
  match l with
  | [] => []
  | [x] => x
  | x :: rest => x ++ sep ++ join sep rest
  end.

(** [s.replace(/DQUOTE/g, DQUOTE DQUOTE)]: every double quote of [s] is
    doubled (the regular expression is global). *)
Definition escapeQuotes (s : jsstring) : jsstring :=
  flat_map (fun c => if (c =? DQUOTE)%N then [DQUOTE; DQUOTE] else [c]) s.

(** [s.replace(/^p/, empty)] for a literal pattern [p]: a leading [p] is
    removed, a string that does not start with [p] is returned as it is. *)
Definition removePrefix (p s : jsstring) : jsstring :=
  if startsWith s p then skipn (List.length p) s else s.

(** [s.replace(/p$/, empty)] for a literal pattern [p]: the regular expression
    has no [m] flag, so [$] is the end of the string and only a trailing
    [p] can match. *)
Definition removeSuffix (p s : jsstring) : jsstring :=
  if endsWith s p then firstn (List.length s - List.length p) s else s.

(** [String.fromCharCode(n)]: the code unit [n] modulo 2^16. *)
Definition fromCharCode (n : N) : jsstring := [(n mod 65536)%N].

(** Conversion of an integral Number to a string (template literals,
    [Array.prototype.join]), for a safe integer: one of magnitude at most
    2^53 - 1, which is a Number exactly and is printed with all its digits. *)
Definition ofInteger (z : Z) : jsstring :=
  lit (NilZero.string_of_int (Z.to_int z)).

End JS.

(* ================================================================== *)
(** * JSON.parse and JSON.stringify *)
(* ================================================================== *)

Module JSON.
Import JS.

(** The values [JSON.parse] builds.  A number keeps its lexeme (the Number
    it denotes is the double nearest to it); an object keeps its members in
    source order, a repeated key included, and [get] reads the last one as
    property lookup does. *)
#[warnings="-register-all"]
Inductive json : Type :=
| JNull
| JBool (b : bool)
| JNumber (lexeme : jsstring)
| JString (s : jsstring)
| JArray (elems : list json)
| JObject (members : list (jsstring * json)).

Inductive token : Type :=
| TLBrace | TRBrace | TLBracket | TRBracket | TColon | TComma
| TString (s : jsstring)
| TNumber (lexeme : jsstring)
| TTrue | TFalse | TNull.

(** ** The lexer: one pass over the code units *)

Inductive mode : Type :=
| Top
| InStr (acc : jsstring)                   (* inside a string; [acc] reversed *)
| InEsc (acc : jsstring)                   (* after a backslash *)
| InHex (k : nat) (v : N) (acc : jsstring) (* [k] hex digits of \u to read *)
| InNum (acc : jsstring)                   (* inside a number; [acc] reversed *)
| InLit (rest : jsstring) (tok : token).   (* inside true, false or null *)

(** JSON white space: space, tab, line feed, carriage return. *)
Definition isJsonSpace (c : N) : bool :=
  ((c =? 32) || (c =? 9) || (c =? 10) || (c =? 13))%N.

Definition isDigit (c : N) : bool := ((48 <=? c) && (c <=? 57))%N.

(** The code units a number is made of: digits, sign, point, exponent. *)
Definition isNumChar (c : N) : bool :=
  (isDigit c || (c =? 43) || (c =? 45) || (c =? 46) || (c =? 101) || (c =? 69))%N.

Definition hexval (c : N) : option N :=
  (if isDigit c then Some (c - 48)
   else if (97 <=? c) && (c <=? 102) then Some (c - 87)
   else if (65 <=? c) && (c <=? 70) then Some (c - 55)
   else None)%N.

(** The single-character escapes: quote, backslash, slash, b, f, n, r, t. *)
Definition unescape (c : N) : option N :=
  (if c =? 34 then Some 34 else if c =? 92 then Some 92
   else if c =? 47 then Some 47 else if c =? 98 then Some 8
   else if c =? 102 then Some 12 else if c =? 110 then Some 10
   else if c =? 114 then Some 13 else if c =? 116 then Some 9
   else None)%N.

Fixpoint dropDigits (s : jsstring) : jsstring :=
  match s with
  | [] => []
  | c :: r => if isDigit c then dropDigits r else s
  end.

(** One digit or more; what follows them. *)
Definition digits1 (s : jsstring) : option jsstring :=
  match s with
  | [] => None
  | c :: r => if isDigit c then Some (dropDigits r) else None
  end.

(** The number grammar: an optional minus; then a zero, or a digit from 1 to
    9 followed by digits; then optionally a point and one digit or more; then
    optionally e or E, an optional sign, and one digit or more. *)
Definition valid_number (s : jsstring) : bool :=
  let s1 := match s with
            | c :: r => if (c =? 45)%N then r else s
            | [] => s
            end in
  let int_part := match s1 with
                  | [] => None
                  | c :: r => if (c =? 48)%N then Some r
                              else if isDigit c then Some (dropDigits r)
                              else None
                  end in
  match int_part with
  | None => false
  | Some s2 =>
      let frac := match s2 with
                  | c :: r => if (c =? 46)%N then digits1 r else Some s2
                  | [] => Some s2
                  end in
      match frac with
      | None => false
      | Some [] => true
      | Some (c :: r) =>
          if ((c =? 101) || (c =? 69))%N then
            let r' := match r with
                      | d :: r2 => if ((d =? 43) || (d =? 45))%N then r2 else r
                      | [] => r
                      end in
            match digits1 r' with
            | Some [] => true
            | _ => false
            end
          else false
      end
  end.

(** What a code unit starts when no token is open. *)
Definition start (c : N) : option (mode * list token) :=
  (if isJsonSpace c then Some (Top, [])
   else if c =? 123 then Some (Top, [TLBrace])
   else if c =? 125 then Some (Top, [TRBrace])
   else if c =? 91 then Some (Top, [TLBracket])
   else if c =? 93 then Some (Top, [TRBracket])
   else if c =? 58 then Some (Top, [TColon])
   else if c =? 44 then Some (Top, [TComma])
   else if c =? 34 then Some (InStr [], [])
   else if (c =? 45) || isDigit c then Some (InNum [c], [])
   else if c =? 116 then Some (InLit (lit "rue") TTrue, [])
   else if c =? 102 then Some (InLit (lit "alse") TFalse, [])
   else if c =? 110 then Some (InLit (lit "ull") TNull, [])
   else None)%N.

Fixpoint lex (m : mode) (s : jsstring) : option (list token) :=
  match s with
  | [] =>
      match m with
      | Top => Some []
      | InNum acc =>
          if valid_number (rev acc) then Some [TNumber (rev acc)] else None
      | _ => None
      end
  | c :: r =>
      match m with
      | Top =>
          match start c with
          | Some (m', ts) => option_map (app ts) (lex m' r)
          | None => None
          end
      | InStr acc =>
          if (c =? 34)%N then option_map (cons (TString (rev acc))) (lex Top r)
          else if (c =? 92)%N then lex (InEsc acc) r
          else if (c <? 32)%N then None
          else lex (InStr (c :: acc)) r
      | InEsc acc =>
          match unescape c with
          | Some d => lex (InStr (d :: acc)) r
          | None => if (c =? 117)%N then lex (InHex 4 0 acc) r else None
          end
      | InHex k v acc =>
          match hexval c with
          | None => None
          | Some d =>
              let v' := (v * 16 + d)%N in
              match k with
              | O => None
              | S O => lex (InStr (v' :: acc)) r
              | S k' => lex (InHex k' v' acc) r
              end
          end
      | InNum acc =>
          if isNumChar c then lex (InNum (c :: acc)) r
          else if valid_number (rev acc) then
            match start c with
            | Some (m', ts) =>
                option_map (fun rest => TNumber (rev acc) :: ts ++ rest) (lex m' r)
            | None => None
            end
          else None
      | InLit expected tok =>
          match expected with
          | [] => None
          | e :: expected' =>
              if (c =? e)%N then
                match expected' with
                | [] => option_map (cons tok) (lex Top r)
                | _ :: _ => lex (InLit expected' tok) r
                end
              else None
          end
      end
  end.

(** The modes the lexer can be in: the letters still expected of a literal
    are no white space. *)
Definition mode_ok (m : mode) : Prop :=
  match m with
  | InLit rest _ => Forall (fun c => isWhiteSpace c = false) rest
  | _ => True
  end.

(** ** The parser: a pushdown automaton over the tokens *)

Inductive frame : Type :=
| FArray (rev_elems : list json)
| FObject (rev_members : list (jsstring * json))
| FMember (rev_members : list (jsstring * json)) (key : jsstring).

Inductive pstate : Type :=
| ExpValue (may_close : bool)  (* a value; [true] right after an opening bracket *)
| ExpKey (may_close : bool)    (* a member name; [true] right after an opening brace *)
| ExpColon (key : jsstring)
| AfterValue
| Done (v : json).

Definition push_value (v : json) (stack : list frame)
  : option (pstate * list frame) :=
  match stack with
  | [] => Some (Done v, [])
  | FArray es :: st => Some (AfterValue, FArray (v :: es) :: st)
  | FMember ms k :: st => Some (AfterValue, FObject ((k, v) :: ms) :: st)
  | FObject _ :: _ => None
  end.

Definition scalar (t : token) : option json :=
  match t with
  | TString s => Some (JString s)
  | TNumber l => Some (JNumber l)
  | TTrue => Some (JBool true)
  | TFalse => Some (JBool false)
  | TNull => Some JNull
  | _ => None
  end.

Definition pstep (ps : pstate) (stack : list frame) (t : token)
  : option (pstate * list frame) :=
  match ps with
  | ExpValue may_close =>
      match t with
      | TLBracket => Some (ExpValue true, FArray [] :: stack)
      | TLBrace => Some (ExpKey true, FObject [] :: stack)
      | TRBracket =>
          match may_close, stack with
          | true, FArray es :: st => push_value (JArray (rev es)) st
          | _, _ => None
          end
      | _ =>
          match scalar t with
          | Some v => push_value v stack
          | None => None
          end
      end
  | ExpKey may_close =>
      match t with
      | TString k => Some (ExpColon k, stack)
      | TRBrace =>
          match may_close, stack with
          | true, FObject ms :: st => push_value (JObject (rev ms)) st
          | _, _ => None
          end
      | _ => None
      end
  | ExpColon k =>
      match t, stack with
      | TColon, FObject ms :: st => Some (ExpValue false, FMember ms k :: st)
      | _, _ => None
      end
  | AfterValue =>
      match t, stack with
      | TComma, FArray _ :: _ => Some (ExpValue false, stack)
      | TRBracket, FArray es :: st => push_value (JArray (rev es)) st
      | TComma, FObject _ :: _ => Some (ExpKey false, stack)
      | TRBrace, FObject ms :: st => push_value (JObject (rev ms)) st
      | _, _ => None
      end
  | Done _ => None
  end.

Fixpoint run (ps : pstate) (stack : list frame) (ts : list token)
  : option json :=
  match ts with
  | [] => match ps with Done v => Some v | _ => None end
  | t :: ts' =>
      match pstep ps stack t with
      | Some (ps', stack') => run ps' stack' ts'
      | None => None
      end
  end.

(** [JSON.parse(s)]; [None] stands for the SyntaxError it throws. *)
Definition parse (s : jsstring) : option json :=
  match lex Top s with
  | Some ts => run (ExpValue false) [] ts
  | None => None
  end.

(** Property lookup [v.k] on a parsed value: the last member named [k]. *)
Fixpoint lookup (k : jsstring) (ms : list (jsstring * json)) : option json :=
  match ms with
  | [] => None
  | (k', v) :: rest =>
      match lookup k rest with
      | Some v' => Some v'
      | None => if eqb k k' then Some v else None
      end
  end.

Definition get (v : json) (k : jsstring) : option json :=
  match v with
  | JObject ms => lookup k ms
  | _ => None
  end.

(** ** JSON.stringify on an array of strings *)

Definition hexDigit (n : N) : N := (if n <? 10 then 48 + n else 87 + n)%N.

(** Four lower-case hexadecimal digits. *)
Definition hex4 (n : N) : jsstring :=
  [hexDigit (n / 4096 mod 16); hexDigit (n / 256 mod 16);
   hexDigit (n / 16 mod 16); hexDigit (n mod 16)]%N.

Definition isHighSurrogate (c : N) : bool := ((55296 <=? c) && (c <=? 56319))%N.
Definition isLowSurrogate (c : N) : bool := ((56320 <=? c) && (c <=? 57343))%N.

Definition BACKSLASH : N := 92.

(** QuoteJSONString without the enclosing quotes. *)
Fixpoint quoteChars (s : jsstring) : jsstring :=
  match s with
  | [] => []
  | c :: r =>
      if (c =? 8)%N then BACKSLASH :: lit "b" ++ quoteChars r
      else if (c =? 9)%N then BACKSLASH :: lit "t" ++ quoteChars r
      else if (c =? 10)%N then BACKSLASH :: lit "n" ++ quoteChars r
      else if (c =? 12)%N then BACKSLASH :: lit "f" ++ quoteChars r
      else if (c =? 13)%N then BACKSLASH :: lit "r" ++ quoteChars r
      else if (c =? 34)%N then BACKSLASH :: DQUOTE :: quoteChars r
      else if (c =? 92)%N then BACKSLASH :: BACKSLASH :: quoteChars r
      else if (c <? 32)%N then BACKSLASH :: lit "u" ++ hex4 c ++ quoteChars r
      else if isHighSurrogate c then
        match r with
        | d :: r' =>
            if isLowSurrogate d then c :: d :: quoteChars r'
            else BACKSLASH :: lit "u" ++ hex4 c ++ quoteChars r
        | [] => BACKSLASH :: lit "u" ++ hex4 c
        end
      else if isLowSurrogate c then BACKSLASH :: lit "u" ++ hex4 c ++ quoteChars r
      else c :: quoteChars r
  end.

Definition quote (s : jsstring) : jsstring :=
  DQUOTE :: quoteChars s ++ [DQUOTE].

(** [JSON.stringify(names)] for an array of strings. *)
Definition stringifyStrings (names : list jsstring) : jsstring :=
  lit "[" ++ join (lit ",") (map quote names) ++ lit "]".

(** ** ToBoolean on a parsed value

    The Number a lexeme denotes is zero when its digits are all zero, or when
    it is so small that the nearest double is zero: at most 2^-1075, half of
    the least positive double (the tie goes to zero, the even neighbour). *)

Fixpoint takeWhile (p : N -> bool) (s : jsstring) : jsstring :=
  match s with
  | [] => []
  | c :: r => if p c then c :: takeWhile p r else []
  end.

Fixpoint dropWhile (p : N -> bool) (s : jsstring) : jsstring :=
  match s with
  | [] => []
  | c :: r => if p c then dropWhile p r else s
  end.

Definition isExponentMark (c : N) : bool := ((c =? 101) || (c =? 69))%N.

(** The natural number a sequence of digits writes. *)
Definition digitsValue (s : jsstring) : Z :=
  fold_left (fun acc c => (acc * 10 + Z.of_N (c - 48))%Z) s 0%Z.

(** The integer an exponent writes: digits behind an optional sign. *)
Definition signedValue (s : jsstring) : Z :=
  match s with
  | [] => 0%Z
  | c :: r =>
      if (c =? 45)%N then (- digitsValue r)%Z
      else if (c =? 43)%N then digitsValue r
      else digitsValue s
  end.

(** A lexeme of the number grammar writes [m * 10 ^ (- k)], [m] the digits
    of its mantissa and [k] the number of fraction digits less the exponent. *)
Definition numberIsZero (lexeme : jsstring) : bool :=
  let unsigned := match lexeme with
                  | c :: r => if (c =? 45)%N then r else lexeme
                  | [] => []
                  end in
  let mantissa := takeWhile (fun c => negb (isExponentMark c)) unsigned in
  let exponent :=
    signedValue (tl (dropWhile (fun c => negb (isExponentMark c)) unsigned)) in
  let whole := takeWhile (fun c => negb (c =? 46)%N) mantissa in
  let fraction := tl (dropWhile (fun c => negb (c =? 46)%N) mantissa) in
  let m := digitsValue (whole ++ fraction) in
  let k := (Z.of_nat (List.length fraction) - exponent)%Z in
  ((m =? 0) || ((0 <? k) && (m * 2 ^ 1075 <=? 10 ^ k)))%Z.

(** [if (v)] on a parsed value: null, false, a zero and the empty string are
    falsy, every array and object is truthy. *)
Definition toBoolean (v : json) : bool :=
  match v with
  | JNull => false
  | JBool b => b
  | JNumber lexeme => negb (numberIsZero lexeme)
  | JString s => truthy s
  | JArray _ => true
  | JObject _ => true
  end.

End JSON.

(* ================================================================== *)
(** * types.ts *)
(* ================================================================== *)

(** The browser's [File] object, as far as the sources read it. *)
Module File.
Record t : Type := mk { name : JS.jsstring; type : JS.jsstring }.
End File.

(** [FileData].  The declared type of [type] is the union of four string
    literals ([Types.FileDataType]); at run time the field is a string, and
    [validateMimeType] tests it as one. *)
Module FileData.
Record t : Type := mk {
  id : JS.jsstring;
  file : File.t;
  base64 : JS.jsstring;
  type : JS.jsstring
}.
End FileData.

Module Types.
Import JS.

Definition PDF : jsstring := lit "application/pdf".
Definition PNG : jsstring := lit "image/png".
Definition JPEG : jsstring := lit "image/jpeg".
Definition SPREADSHEET : jsstring :=
  lit "application/vnd.openxmlformats-officedocument.spreadsheetml.sheet".

(** The four literals [FileData.type] is declared to range over. *)
Definition FileDataType : list jsstring := [PDF; PNG; JPEG; SPREADSHEET].

Inductive ComplianceLevel : Type := FULLY_COMPLIANT | PARTIAL | NON_COMPLIANT.

(** The string each member of the enum stands for. *)
Definition ComplianceLevel_value (l : ComplianceLevel) : jsstring :=
  match l with
  | FULLY_COMPLIANT => lit "Fully Compliant"
  | PARTIAL => lit "Partial / Review Needed"
  | NON_COMPLIANT => lit "Non-Compliant"
  end.

Inductive Recommendation : Type := RecB | RecC | RecNone | RecBoth.

Definition Recommendation_value (r : Recommendation) : jsstring :=
  match r with
  | RecB => lit "B"
  | RecC => lit "C"
  | RecNone => lit "None"
  | RecBoth => lit "Both"
  end.

Inductive Status : Type := Provided | Missing.

End Types.

(** A Number that is a safe integer: an integer of magnitude at most
    2^53 - 1.  The schema asks the service for an integer [id]; the model
    covers the ids that are safe integers, the ones a Number holds exactly
    and prints with all their digits. *)
Module SafeInteger.
Record t : Type := mk {
  value : Z;
  safe : (Z.abs value <=? 9007199254740991)%Z = true
}.
End SafeInteger.

(** The interfaces the export reads.  A field is [None] when the object the
    service returned lacks it or holds null there: the response is cast to
    the interface without a check, and [exportCSV] guards each read. *)
Module SpecItem.
Record t : Type := mk {
  id : option SafeInteger.t;
  parameter : option JS.jsstring;
  unit : option JS.jsstring;
  valueA : option JS.jsstring;
  valueB : option JS.jsstring;
  complianceB : option Types.ComplianceLevel;
  valueC : option JS.jsstring;
  complianceC : option Types.ComplianceLevel;
  comment : option JS.jsstring
}.
End SpecItem.

Module MappedParts.
Record t : Type := mk {
  partA : option JS.jsstring;
  partB : option JS.jsstring;
  partC : option JS.jsstring
}.
End MappedParts.

Module ComparisonGroup.
Record t : Type := mk {
  id : JS.jsstring;
  rowNumber : Z;
  mappedParts : option MappedParts.t;
  summary : option JS.jsstring;
  recommendation : option Types.Recommendation;
  specs : option (list SpecItem.t)
}.
End ComparisonGroup.

Module AnalysisResult.
Record t : Type := mk {
  groups : option (list ComparisonGroup.t);
  missingFiles : list JS.jsstring
}.
End AnalysisResult.

Module CompletenessPart.
Record t : Type := mk {
  partName : JS.jsstring;
  status : Types.Status;
  matchedFilename : option JS.jsstring
}.
End CompletenessPart.

Module CompletenessRow.
Record t : Type := mk {
  original : CompletenessPart.t;
  substitutes : list CompletenessPart.t
}.
End CompletenessRow.

Module CompletenessResult.
Record t : Type := mk {
  groupedRows : list CompletenessRow.t;
  allProvided : bool;
  message : JS.jsstring
}.

(** Every part of every row, the original first. *)
Definition parts (r : t) : list CompletenessPart.t :=
  flat_map (fun row => CompletenessRow.original row :: CompletenessRow.substitutes row)
           (groupedRows r).

(** ** The cast [as CompletenessResult], read on a parsed value

    [ofJson v] is the [CompletenessResult] a parsed value [v] is when it has
    the shape of the interface, and [None] otherwise. *)
Import JS JSON.

Definition statusOfJson (v : json) : option Types.Status :=
  match v with
  | JString s =>
      if eqb s (lit "Provided") then Some Types.Provided
      else if eqb s (lit "Missing") then Some Types.Missing
      else None
  | _ => None
  end.

Definition partOfJson (v : json) : option CompletenessPart.t :=
  match get v (lit "partName"), get v (lit "status") with
  | Some (JString n), Some st =>
      match statusOfJson st with
      | Some s =>
          match get v (lit "matchedFilename") with
          | Some (JString f) => Some (CompletenessPart.mk n s (Some f))
          | Some JNull | None => Some (CompletenessPart.mk n s None)
          | Some _ => None
          end
      | None => None
      end
  | _, _ => None
  end.

(** [mapM] on options: every element must be read. *)
Fixpoint allSome (A B : Type) (f : A -> option B) (l : list A) : option (list B) :=
  match l with
  | [] => Some []
  | x :: rest =>
      match f x, allSome f rest with
      | Some y, Some ys => Some (y :: ys)
      | _, _ => None
      end
  end.

Definition rowOfJson (v : json) : option CompletenessRow.t :=
  match get v (lit "original"), get v (lit "substitutes") with
  | Some o, Some (JArray subs) =>
      match partOfJson o, allSome partOfJson subs with
      | Some o', Some subs' => Some (CompletenessRow.mk o' subs')
      | _, _ => None
      end
  | _, _ => None
  end.

Definition ofJson (v : json) : option t :=
  match get v (lit "groupedRows"), get v (lit "allProvided"), get v (lit "message") with
  | Some (JArray rows), Some (JBool b), Some (JString m) =>
      match allSome rowOfJson rows with
      | Some rows' => Some (mk rows' b m)
      | None => None
      end
  | _, _, _ => None
  end.

End CompletenessResult.

(* ================================================================== *)
(** * services/geminiService.ts *)
(* ================================================================== *)

Module GeminiService.
Import JS JSON.

(** ** The outside world

    A prompt part is [{ text }] or [{ inlineData: { mimeType, data } }]. *)
Inductive Part : Type :=
| PText (text : jsstring)
| PInline (mimeType data : jsstring).

(** The response schemas handed to the service ([Type.OBJECT], ...). *)
#[warnings="-register-all"]
Inductive Schema : Type :=
| SString (enum : list jsstring) (nullable : bool)
| SBoolean
| SInteger
| SArray (items : Schema)
| SObject (properties : list (jsstring * Schema)) (required : list jsstring)
| SDescribed (description : jsstring) (s : Schema).

(** The argument of [ai.models.generateContent]. *)
Record Request : Type := mkRequest {
  model : jsstring;
  role : jsstring;
  parts : list Part;
  responseMimeType : jsstring;
  responseSchema : Schema;
  temperature : Q
}.

(** What a [throw] carries: an [Error] with its message, or another value. *)
Inductive Thrown : Type :=
| ErrorObj (message : jsstring)
| OtherValue.

(** What one call of the generation service does: it throws, or it returns
    a result whose [text] may be undefined. *)
Inductive GenResult : Type :=
| GenThrows (e : Thrown)
| GenReturns (text : option jsstring).

(** The collaborators the module does not define: the environment variable,
    the spreadsheet library ([XLSX.read] of a base64 payload, then
    [sheet_to_csv] of the first sheet; [None] when any of it throws), the
    remote service, and the message of the engine's SyntaxError. *)
Record World : Type := mkWorld {
  API_KEY : option jsstring;
  XLSX_firstSheetCsv : jsstring -> option jsstring;
  generateContent : Request -> GenResult;
  syntaxErrorMessage : jsstring -> jsstring
}.

(** What a run does that can be observed from outside. *)
Inductive Event : Type :=
| EvXlsxRead (fileName : jsstring)
| EvGenerate (req : Request).

Inductive Outcome (A : Type) : Type :=
| Ok (a : A)
| Throw (e : Thrown).
Arguments Ok {A} a.
Arguments Throw {A} e.

(** Computations that read the world, log their events and may throw. *)
Definition M (A : Type) : Type := World -> Outcome A * list Event.

Definition ret {A : Type} (a : A) : M A := fun _ => (Ok a, []).

Definition throwError {A : Type} (message : jsstring) : M A :=
  fun _ => (Throw (ErrorObj message), []).

Definition bind {A B : Type} (m : M A) (k : A -> M B) : M B :=
  fun w =>
    match m w with
    | (Ok a, ev) => let '(r, ev') := k a w in (r, ev ++ ev')
    | (Throw e, ev) => (Throw e, ev)
    end.

(** [try { m } catch (e) { h e }] *)
Definition tryCatch {A : Type} (m : M A) (h : Thrown -> M A) : M A :=
  fun w =>
    match m w with
    | (Ok a, ev) => (Ok a, ev)
    | (Throw e, ev) => let '(r, ev') := h e w in (r, ev ++ ev')
    end.

Definition lift {A : Type} (o : Outcome A) : M A := fun _ => (o, []).

Notation "x <- m ;; k" := (bind m (fun x => k))
  (at level 61, m at next level, right associativity).
Notation "m ;;; k" := (bind m (fun _ => k))
  (at level 61, right associativity).

(** ** validateMimeType *)

Definition supportedTypes : list jsstring :=
  [ lit "application/pdf";
    lit "image/png";
    lit "image/jpeg";
    lit "image/jpg";
    lit "image/webp";
    lit "application/vnd.openxmlformats-officedocument.spreadsheetml.sheet";
    lit "application/vnd.ms-excel" ].

(** [array.includes(x)] on strings. *)
Definition arrayIncludes (l : list jsstring) (x : jsstring) : bool :=
  existsb (eqb x) l.

Definition unsupportedMessage (ty : jsstring) : jsstring :=
  lit "Unsupported file type: " ++ ty
  ++ lit ". Please upload PDF, Images, or Excel files.".

Definition validateMimeType (fileData : FileData.t) : Outcome unit :=
  if negb (arrayIncludes supportedTypes (FileData.type fileData))
  then Throw (ErrorObj (unsupportedMessage (FileData.type fileData)))
  else Ok tt.

(** ** isExcel and getFileContentPart *)

Definition isExcel (fileData : FileData.t) : bool :=
  includes (FileData.type fileData) (lit "spreadsheet")
  || includes (FileData.type fileData) (lit "excel")
  || endsWith (File.name (FileData.file fileData)) (lit ".xlsx")
  || endsWith (File.name (FileData.file fileData)) (lit ".xls").

Definition excelText (label csvText : jsstring) : jsstring :=
  lit "DOCUMENT_CONTENT (" ++ label ++ lit "):" ++ [LF] ++ csvText
  ++ [LF] ++ lit "[End of CSV content]".

Definition excelErrorMessage (name : jsstring) : jsstring :=
  lit "Failed to read Excel file: " ++ name
  ++ lit ". Please ensure it is a valid .xlsx file.".

Definition getFileContentPart (fileData : FileData.t) (label : jsstring) : M Part :=
  if isExcel fileData then
    fun w =>
      match XLSX_firstSheetCsv w (FileData.base64 fileData) with
      | Some csvText =>
          (Ok (PText (excelText label csvText)),
           [EvXlsxRead (File.name (FileData.file fileData))])
      | None =>
          (Throw (ErrorObj (excelErrorMessage (File.name (FileData.file fileData)))),
           [EvXlsxRead (File.name (FileData.file fileData))])
      end
  else
    ret (PInline (FileData.type fileData) (FileData.base64 fileData)).

(** ** Reading the response

    Both phases read the response text with the same four lines: trim, strip
    a code fence when the text starts with one, parse. *)

Definition fenceOpen : jsstring := [BACKTICK; BACKTICK; BACKTICK] ++ lit "json".
Definition fenceOpenLine : jsstring := fenceOpen ++ [LF].
Definition fenceCloseLine : jsstring := [LF; BACKTICK; BACKTICK; BACKTICK].

Definition stripFence (jsonStr : jsstring) : jsstring :=
  if startsWith jsonStr fenceOpen
  then removeSuffix fenceCloseLine (removePrefix fenceOpenLine jsonStr)
  else jsonStr.

(** A text between an opening and a closing fence line. *)
Definition fenced (s : jsstring) : jsstring :=
  fenceOpenLine ++ s ++ fenceCloseLine.

Definition parseResponse (text : jsstring) : option json :=
  JSON.parse (stripFence (trim text)).

(** [JSON.parse] as a computation: a SyntaxError when the text is no JSON. *)
Definition parseResponseM (text : jsstring) : M json :=
  fun w =>
    match parseResponse text with
    | Some v => (Ok v, [])
    | None => (Throw (ErrorObj (syntaxErrorMessage w (stripFence (trim text)))), [])
    end.

Definition callGenerate (req : Request) : M (option jsstring) :=
  fun w =>
    match generateContent w req with
    | GenThrows e => (Throw e, [EvGenerate req])
    | GenReturns text => (Ok text, [EvGenerate req])
    end.

(** The world [w] with a service that answers every request with [text]. *)
Definition replying (w : World) (text : jsstring) : World :=
  mkWorld (API_KEY w) (XLSX_firstSheetCsv w)
          (fun _ => GenReturns (Some text)) (syntaxErrorMessage w).

(** The outbound generation calls among the events of a run. *)
Definition generateCalls (ev : list Event) : list Request :=
  flat_map (fun e => match e with EvGenerate req => [req] | EvXlsxRead _ => [] end) ev.

(** [error instanceof Error ? error.message : UNKNOWN] *)
Definition messageOf (e : Thrown) : jsstring :=
  match e with
  | ErrorObj m => m
  | OtherValue => lit "Unknown error"
  end.

(** [!process.env.API_KEY] *)
Definition apiKeyMissing (w : World) : bool :=
  match API_KEY w with
  | Some k => negb (truthy k)
  | None => true
  end.

(** [if (!process.env.API_KEY) throw new Error(message)] *)
Definition requireApiKey (message : jsstring) : M unit :=
  fun w =>
    if apiKeyMissing w then (Throw (ErrorObj message), []) else (Ok tt, []).

Definition dq (s : jsstring) : jsstring := DQUOTE :: s ++ [DQUOTE].

Definition modelName : jsstring := lit "gemini-2.5-flash".

(** ** Step 3: checkFileCompleteness *)

Definition checkPrompt (filenames : list jsstring) : jsstring :=
  JS.join [LF]
    [ [];
      lit "    Role: Procurement Document Assistant.";
      lit "    ";
      lit "    Task: ";
      lit "    1. Analyze the provided 'Master List' content (CSV/Table) row by row.";
      lit "    2. Each row usually represents a comparison group with:";
      lit "       - One " ++ dq (lit "Original Part") ++ lit " (Component A).";
      lit "       - ONE OR MORE " ++ dq (lit "Substitute Parts") ++ lit " (Component B, Component C, etc.).";
      lit "    3. You MUST identify ALL substitutes listed in the row. Do not stop after finding just one.";
      lit "    4. For every part found (Original and ALL Substitutes), check if a file in the " ++ dq (lit "Uploaded Filenames") ++ lit " list matches it.";
      lit "    ";
      lit "    Uploaded Filenames List:";
      lit "    " ++ JSON.stringifyStrings filenames;
      lit "    ";
      lit "    Rules:";
      lit "    - Loose Matching: If Master List says " ++ dq (lit "NTTFS080N10") ++ lit " and filename is " ++ dq (lit "NTTFS080N10GTAG.pdf") ++ lit ", count it as " ++ dq (lit "Provided") ++ lit ".";
      lit "    - If a part name is found in the Excel but NO file matches, status is " ++ dq (lit "Missing") ++ lit ".";
      lit "    - Output MUST group result by Master List row.";
      lit "  " ].

Definition partSchema : Schema :=
  SObject
    [ (lit "partName", SString [] false);
      (lit "status", SString [lit "Provided"; lit "Missing"] false);
      (lit "matchedFilename", SString [] true) ]
    [ lit "partName"; lit "status" ].

Definition completenessSchema : Schema :=
  SObject
    [ (lit "groupedRows",
       SArray (SObject [ (lit "original", partSchema);
                         (lit "substitutes", SArray partSchema) ]
                       [ lit "original"; lit "substitutes" ]));
      (lit "allProvided", SBoolean);
      (lit "message", SString [] false) ]
    [ lit "groupedRows"; lit "allProvided"; lit "message" ].

Definition checkFileCompleteness (masterList : FileData.t) (filenames : list jsstring)
  : M json :=
  requireApiKey (lit "API Key missing") ;;;
  lift (validateMimeType masterList) ;;;
  let prompt := checkPrompt filenames in
  masterContent <- getFileContentPart masterList (lit "Master List") ;;
  let parts :=
    [PText prompt] ++
    match masterContent with
    | PText text => if truthy text then [PText text] else []
    | PInline _ _ => [PText (lit "DOCUMENT: Master List Image/PDF"); masterContent]
    end in
  tryCatch
    (result_text <- callGenerate
        (mkRequest modelName (lit "user") parts (lit "application/json")
                   completenessSchema (1 # 10)) ;;
     match result_text with
     | Some text =>
         if truthy text then parseResponseM text
         else throwError (lit "No response from AI check.")
     | None => throwError (lit "No response from AI check.")
     end)
    (fun error => throwError (lit "Check Failed: " ++ messageOf error)).

(** ** Step 4: analyzeDatasheets *)

Definition analysisPrompt (filenames : list jsstring) : jsstring :=
  JS.join [LF]
    [ [];
      lit "    Role: Senior Procurement & R&D Validation Assistant.";
      lit "    Goal: Compare electronic components (Original vs Substitutes) for EVERY row in the 'Master List'.";
      [];
      lit "    Uploaded Datasheets:";
      lit "    " ++ JSON.stringifyStrings filenames;
      [];
      lit "    Instructions:";
      lit "    1. **Iterate Master List Rows**: The Master List may contain multiple distinct comparison groups (e.g. Row 1: MOSFET A vs B/C; Row 2: Diode X vs Y).";
      lit "       - You MUST generate a " ++ dq (lit "Comparison Group") ++ lit " for EACH row found in the master list.";
      lit "       - DO NOT combine different component series into one table.";
      lit "    ";
      lit "    2. **Component Identification (Smart Mapping)**:";
      lit "       - For each row, identify Original Part (A) and Substitutes (B, C...).";
      lit "       - Use " ++ dq (lit "Fuzzy Matching") ++ lit " to find the correct datasheet from the Uploaded Datasheets list.";
      lit "       - Example: If Master List says " ++ dq (lit "NTTFS080") ++ lit " and file is " ++ dq (lit "NTTFS080N10GTAG.pdf") ++ lit ", map them together.";
      lit "    ";
      lit "    3. **Comparison Table (1-15 Items)**:";
      lit "       - For EACH group, generate a specific comparison table.";
      lit "       - Items 1-10: Critical Specs (Matches the component type, e.g., Vds, Id, Rds for MOSFET; Vz, Pd for Zener).";
      lit "       - Items 11-13: Secondary Specs.";
      lit "       - Items 14-15: Info/Lifecycle.";
      lit "       - Determine 'compliance' (Fully Compliant/Partial/Non-Compliant).";
      [];
      lit "    4. **Handling Missing Files**:";
      lit "       - If a datasheet is missing for Component C, you must still include " ++ dq (lit "Spec C") ++ lit " column but mark values as " ++ dq (lit "N/A (Missing File)") ++ lit ".";
      lit "       - Do not omit the column.";
      [];
      lit "    Output Format: JSON with an array of groups.";
      lit "  " ].

Definition complianceEnum : list jsstring :=
  [ Types.ComplianceLevel_value Types.FULLY_COMPLIANT;
    Types.ComplianceLevel_value Types.PARTIAL;
    Types.ComplianceLevel_value Types.NON_COMPLIANT ].

Definition specItemSchema : Schema :=
  SObject
    [ (lit "id", SInteger);
      (lit "parameter", SString [] false);
      (lit "unit", SString [] false);
      (lit "valueA", SString [] false);
      (lit "valueB", SString [] false);
      (lit "complianceB", SString complianceEnum false);
      (lit "valueC", SString [] false);
      (lit "complianceC", SString complianceEnum false);
      (lit "comment", SString [] false) ]
    [ lit "id"; lit "parameter"; lit "valueA"; lit "valueB"; lit "complianceB";
      lit "valueC"; lit "complianceC"; lit "comment" ].

Definition analysisSchema : Schema :=
  SObject
    [ (lit "missingFiles",
       SDescribed (lit "List of part numbers that had NO attached PDF.")
                  (SArray (SString [] false)));
      (lit "groups",
       SDescribed (lit "List of comparison groups (one per row in Master List)")
         (SArray
            (SObject
               [ (lit "id", SString [] false);
                 (lit "rowNumber", SInteger);
                 (lit "summary",
                  SDescribed (lit "Executive summary for this specific component group.")
                             (SString [] false));
                 (lit "mappedParts",
                  SObject [ (lit "partA", SString [] false);
                            (lit "partB", SString [] false);
                            (lit "partC", SString [] false) ] []);
                 (lit "recommendation",
                  SString [lit "B"; lit "C"; lit "None"; lit "Both"] false);
                 (lit "specs", SArray specItemSchema) ]
               [ lit "id"; lit "rowNumber"; lit "summary"; lit "mappedParts";
                 lit "recommendation"; lit "specs" ]))) ]
    [ lit "groups"; lit "missingFiles" ].

(** [datasheets.forEach(ds => validateMimeType(ds))]: the first file that
    fails ends the loop with its error. *)
Fixpoint validateAll (datasheets : list FileData.t) : Outcome unit :=
  match datasheets with
  | [] => Ok tt
  | ds :: rest =>
      match validateMimeType ds with
      | Ok _ => validateAll rest
      | Throw e => Throw e
      end
  end.

(** The body of the second [forEach]: the parts one datasheet adds, [index]
    counted from 0. *)
Definition datasheetParts (ds : FileData.t) (index : nat) : M (list Part) :=
  let number := ofInteger (Z.of_nat index + 1) in
  let name := File.name (FileData.file ds) in
  dsContent <- getFileContentPart ds
                 (lit "Datasheet File #" ++ number ++ lit ": " ++ name) ;;
  ret match dsContent with
      | PText text =>
          if truthy text then [PText text]
          else [PText (lit "DOCUMENT (File #" ++ number ++ lit "): Filename: " ++ name);
                dsContent]
      | PInline _ _ =>
          [PText (lit "DOCUMENT (File #" ++ number ++ lit "): Filename: " ++ name);
           dsContent]
      end.

Fixpoint attachDatasheets (datasheets : list FileData.t) (index : nat)
  : M (list Part) :=
  match datasheets with
  | [] => ret []
  | ds :: rest =>
      ps <- datasheetParts ds index ;;
      qs <- attachDatasheets rest (S index) ;;
      ret (ps ++ qs)
  end.

Definition analyzeDatasheets (masterList : FileData.t) (datasheets : list FileData.t)
  : M json :=
  requireApiKey (lit "API Key is missing. Please check your environment configuration.") ;;;
  lift (validateMimeType masterList) ;;;
  lift (validateAll datasheets) ;;;
  let filenames := map (fun d => File.name (FileData.file d)) datasheets in
  let promptText := analysisPrompt filenames in
  masterContent <- getFileContentPart masterList (lit "Master List") ;;
  let masterParts :=
    match masterContent with
    | PText text =>
        if truthy text then [PText text]
        else [PText (lit "DOCUMENT: Master List (Reference)"); masterContent]
    | PInline _ _ => [PText (lit "DOCUMENT: Master List (Reference)"); masterContent]
    end in
  (if (List.length datasheets =? 0)%nat
   then throwError (lit "No datasheets provided for analysis.")
   else ret tt) ;;;
  dsParts <- attachDatasheets datasheets 0 ;;
  let parts := [PText promptText] ++ masterParts ++ dsParts in
  tryCatch
    (result_text <- callGenerate
        (mkRequest modelName (lit "user") parts (lit "application/json")
                   analysisSchema (1 # 10)) ;;
     match result_text with
     | Some text =>
         if truthy text then parseResponseM text
         else throwError (lit "No response from AI.")
     | None => throwError (lit "No response from AI.")
     end)
    (fun error => throwError (lit "AI Analysis Failed: " ++ messageOf error)).

End GeminiService.

(* ================================================================== *)
(** * components/FileUpload.tsx *)
(* ================================================================== *)

Module FileUpload.
Import JS.

(** [processFile].  The two values the function awaits or draws are its
    arguments here: [base64], what [fileToBase64] resolved to, and [id], the
    identifier drawn from [Math.random].  The three tests are separate [if]
    statements, each assigning [mimeType]. *)
Definition processFile (file : File.t) (base64 id : jsstring) : FileData.t :=
  let mimeType := Types.PDF in
  let mimeType :=
    if includes (File.type file) (lit "png") then Types.PNG else mimeType in
  let mimeType :=
    if includes (File.type file) (lit "jpeg") || includes (File.type file) (lit "jpg")
    then Types.JPEG else mimeType in
  let mimeType :=
    if includes (File.type file) (lit "sheet") || endsWith (File.name file) (lit ".xlsx")
    then Types.SPREADSHEET else mimeType in
  FileData.mk id file base64 mimeType.

(** [Promise.all(files.map(processFile))], each file with the payload read
    from it and the identifier drawn for it. *)
Definition processFiles (files : list (File.t * jsstring * jsstring)) : list FileData.t :=
  map (fun x => processFile (fst (fst x)) (snd (fst x)) (snd x)) files.

End FileUpload.

(* ================================================================== *)
(** * App.tsx: the session state and its transitions *)
(* ================================================================== *)

(** [AppState].  [checkResult] and [result] hold the objects the service
    functions returned. *)
Module AppState.
Record t : Type := mk {
  masterList : option FileData.t;
  datasheets : list FileData.t;
  isAnalyzing : bool;
  isChecking : bool;
  checkResult : option JSON.json;
  result : option JSON.json;
  error : option JS.jsstring
}.
End AppState.

Module App.
Import JS AppState.

Definition initialState : AppState.t :=
  AppState.mk None [] false false None None None.

(** The argument of [setState]: a function of the previous state. *)
Definition Updater : Type := AppState.t -> AppState.t.

(** [handleDatasheetSelect]: the updater it enqueues, none for [null]. *)
Definition handleDatasheetSelect (newFiles : option (FileData.t + list FileData.t))
  : list Updater :=
  match newFiles with
  | None => []
  | Some files =>
      let newArray := match files with inl f => [f] | inr l => l end in
      [ fun prev =>
          AppState.mk (masterList prev) (datasheets prev ++ newArray)
                      (isAnalyzing prev) (isChecking prev)
                      None None (error prev) ]
  end.

Definition removeDatasheet (id : jsstring) : Updater :=
  fun prev =>
    AppState.mk (masterList prev)
                (filter (fun f => negb (eqb (FileData.id f) id)) (datasheets prev))
                (isAnalyzing prev) (isChecking prev)
                None (result prev) (error prev).

(** The [onFileSelect] of the master list card; [None] is the null the
    remove button passes. *)
Definition masterListSelect (f : option FileData.t) : Updater :=
  fun prev =>
    AppState.mk f (datasheets prev) (isAnalyzing prev) (isChecking prev)
                None (result prev) (error prev).


Definition reset : Updater := fun _ => initialState.

(** [err.message || fallback] *)
Definition messageOr (err : GeminiService.Thrown) (fallback : jsstring) : jsstring :=
  match err with
  | GeminiService.ErrorObj m => if truthy m then m else fallback
  | GeminiService.OtherValue => fallback
  end.

Definition checkFailedPrefix : jsstring :=
  [27298; 26597; 22833; 25943]%N ++ lit " (Check Failed): ".

(** [handleCheckCompleteness], run in the world [w] from the rendered state
    [state]: the updaters it enqueues, in order, and the events of the call
    it awaits.  The first updater is enqueued before the call, the second
    when the call has settled. *)
Definition handleCheckCompleteness (w : GeminiService.World) (state : AppState.t)
  : list Updater * list GeminiService.Event :=
  match masterList state with
  | None => ([], [])
  | Some master =>
      if (List.length (datasheets state) =? 0)%nat then ([], [])
      else
        let start : Updater := fun prev =>
          AppState.mk (masterList prev) (datasheets prev) (isAnalyzing prev)
                      true (checkResult prev) (result prev) None in
        let filenames := map (fun d => File.name (FileData.file d)) (datasheets state) in
        match GeminiService.checkFileCompleteness master filenames w with
        | (GeminiService.Ok res, ev) =>
            ([ start;
               fun prev =>
                 AppState.mk (masterList prev) (datasheets prev) (isAnalyzing prev)
                             false (Some res) (result prev) (error prev) ], ev)
        | (GeminiService.Throw err, ev) =>
            ([ start;
               fun prev =>
                 AppState.mk (masterList prev) (datasheets prev) (isAnalyzing prev)
                             false (checkResult prev) (result prev)
                             (Some (checkFailedPrefix
                                    ++ messageOr err
                                         (lit "Please check your API Key or File content."))) ],
             ev)
        end
  end.

Definition handleAnalyze (w : GeminiService.World) (state : AppState.t)
  : list Updater * list GeminiService.Event :=
  match masterList state with
  | None => ([], [])
  | Some master =>
      if (List.length (datasheets state) =? 0)%nat then ([], [])
      else
        let start : Updater := fun prev =>
          AppState.mk (masterList prev) (datasheets prev) true
                      (isChecking prev) (checkResult prev) (result prev) None in
        match GeminiService.analyzeDatasheets master (datasheets state) w with
        | (GeminiService.Ok res, ev) =>
            ([ start;
               fun prev =>
                 AppState.mk (masterList prev) (datasheets prev) false
                             (isChecking prev) (checkResult prev) (Some res)
                             (error prev) ], ev)
        | (GeminiService.Throw err, ev) =>
            ([ start;
               fun prev =>
                 AppState.mk (masterList prev) (datasheets prev) false
                             (isChecking prev) (checkResult prev) (result prev)
                             (Some (messageOr err
                                      (lit "Analysis failed. Please try again."))) ],
             ev)
        end
  end.

(** React applies the enqueued updaters in order. *)
Definition applyAll (us : list Updater) (s : AppState.t) : AppState.t :=
  fold_left (fun acc u => u acc) us s.

(** What the component renders: [if (state.result)] shows the result screen
    while the stored result is truthy, and the upload screen otherwise, for
    null as for a falsy value an analysis returned. *)
Inductive Screen : Type := ResultScreen | UploadScreen.

Definition render (state : AppState.t) : Screen :=
  match result state with
  | Some v => if JSON.toBoolean v then ResultScreen else UploadScreen
  | None => UploadScreen
  end.

End App.

(* ================================================================== *)
(** * components/AnalysisTable.tsx: exportCSV *)
(* ================================================================== *)

Module AnalysisTable.
Import JS.

(** [getGroupLabel]: A, B, C, ... by index. *)
Definition getGroupLabel (index : nat) : jsstring :=
  fromCharCode (65 + N.of_nat index).

(** [x || fallback] on a string that may be missing. *)
Definition orElse (x : option jsstring) (fallback : jsstring) : jsstring :=
  match x with
  | Some s => if truthy s then s else fallback
  | None => fallback
  end.

(** A field between double quotes. *)
Definition quoted (s : jsstring) : jsstring := DQUOTE :: s ++ [DQUOTE].

Definition complianceCell (c : option Types.ComplianceLevel) : jsstring :=
  match c with
  | Some l => Types.ComplianceLevel_value l
  | None => []
  end.

(** [s.id || empty], as [join] prints it: a zero is falsy. *)
Definition idCell (id : option SafeInteger.t) : jsstring :=
  match id with
  | Some n =>
      if (SafeInteger.value n =? 0)%Z then [] else ofInteger (SafeInteger.value n)
  | None => []
  end.

(** The nine cells of one specification row. *)
Definition specCells (s : SpecItem.t) : list jsstring :=
  let param := escapeQuotes (orElse (SpecItem.parameter s) []) in
  let unit := escapeQuotes (orElse (SpecItem.unit s) []) in
  let valA := escapeQuotes (orElse (SpecItem.valueA s) []) in
  let valB := escapeQuotes (orElse (SpecItem.valueB s) []) in
  let compB := complianceCell (SpecItem.complianceB s) in
  let valC := escapeQuotes (orElse (SpecItem.valueC s) []) in
  let compC := complianceCell (SpecItem.complianceC s) in
  let comment := escapeQuotes (orElse (SpecItem.comment s) []) in
  [ idCell (SpecItem.id s); quoted param; quoted unit; quoted valA; quoted valB;
    quoted compB; quoted valC; quoted compC; quoted comment ].

Definition partOf (group : ComparisonGroup.t)
  (field : MappedParts.t -> option jsstring) (fallback : jsstring) : jsstring :=
  match ComparisonGroup.mappedParts group with
  | Some mp => orElse (field mp) fallback
  | None => fallback
  end.

(** The nine cells of the header row of a group. *)
Definition headerCells (group : ComparisonGroup.t) (index : nat) : list jsstring :=
  let groupLabel := getGroupLabel index in
  let sub1Label := groupLabel ++ lit "-1" in
  let sub2Label := groupLabel ++ lit "-2" in
  let partA := partOf group MappedParts.partA (lit "Part A") in
  let partB := partOf group MappedParts.partB (lit "Part B") in
  let partC := partOf group MappedParts.partC (lit "Part C") in
  [ lit "ID"; lit "Parameter"; lit "Unit";
    lit "Spec " ++ groupLabel ++ lit " (" ++ escapeQuotes partA ++ lit ")";
    lit "Spec " ++ sub1Label ++ lit " (" ++ escapeQuotes partB ++ lit ")";
    sub1Label ++ lit " Result";
    lit "Spec " ++ sub2Label ++ lit " (" ++ escapeQuotes partC ++ lit ")";
    sub2Label ++ lit " Result";
    lit "Comment" ].

(** The three title rows of a group. *)
Definition titleRows (group : ComparisonGroup.t) (index : nat) : list jsstring :=
  let groupLabel := getGroupLabel index in
  let partA := partOf group MappedParts.partA (lit "Part A") in
  let summary := escapeQuotes (orElse (ComparisonGroup.summary group) []) in
  let recommendation :=
    match ComparisonGroup.recommendation group with
    | Some r => Types.Recommendation_value r
    | None => lit "-"
    end in
  [ quoted (lit "GROUP " ++ groupLabel ++ lit ": " ++ escapeQuotes partA
            ++ lit " vs Substitutes");
    quoted (lit "Summary: " ++ summary);
    quoted (lit "Recommendation: " ++ recommendation) ].

Definition specRows (group : ComparisonGroup.t) : list jsstring :=
  match ComparisonGroup.specs group with
  | Some specs => map (fun s => join (lit ",") (specCells s)) specs
  | None => []
  end.

(** What one turn of [result.groups.forEach] pushes on [csvRows]. *)
Definition groupRows (group : ComparisonGroup.t) (index : nat) : list jsstring :=
  titleRows group index
  ++ [join (lit ",") (headerCells group index)]
  ++ specRows group
  ++ [[]; []].

Fixpoint rowsFrom (groups : list ComparisonGroup.t) (index : nat) : list jsstring :=
  match groups with
  | [] => []
  | g :: rest => groupRows g index ++ rowsFrom rest (S index)
  end.

Definition csvRows (groups : list ComparisonGroup.t) : list jsstring :=
  rowsFrom groups 0.

Definition BOM : jsstring := [65279%N].

Definition csvContent (groups : list ComparisonGroup.t) : jsstring :=
  BOM ++ join [LF] (csvRows groups).

(** The bytes of a [Blob] made from a string: its UTF-8 encoding, an
    unpaired surrogate replaced by U+FFFD. *)
Fixpoint utf8 (s : jsstring) : list N :=
  match s with
  | [] => []
  | c :: r =>
      (if c <? 128 then c :: utf8 r
       else if c <? 2048 then (192 + c / 64) :: (128 + c mod 64) :: utf8 r
       else if JSON.isHighSurrogate c then
         match r with
         | d :: r' =>
             if JSON.isLowSurrogate d then
               let cp := 65536 + (c - 55296) * 1024 + (d - 56320) in
               (240 + cp / 262144) :: (128 + cp / 4096 mod 64)
               :: (128 + cp / 64 mod 64) :: (128 + cp mod 64) :: utf8 r'
             else 239 :: 191 :: 189 :: utf8 r
         | [] => [239; 191; 189]
         end
       else if JSON.isLowSurrogate c then 239 :: 191 :: 189 :: utf8 r
       else (224 + c / 4096) :: (128 + c / 64 mod 64) :: (128 + c mod 64) :: utf8 r)%N
  end.

(** What the user sees of an export: an alert, or a download. *)
Inductive ExportAction : Type :=
| Alert (message : jsstring)
| Download (filename : jsstring) (blobType : jsstring) (bytes : list N).

Definition noDataMessage : jsstring :=
  [27794; 26377; 36039; 26009; 21487; 20197; 21295; 20986]%N
  ++ lit " (No data to export)".

Definition reportFilename : jsstring := lit "Substitution_Analysis_Report.csv".

(** [exportCSV].  No read of the typed result can throw, so the handler of
    its [try] is never entered. *)
Definition exportCSV (result : AnalysisResult.t) : ExportAction :=
  match AnalysisResult.groups result with
  | None => Alert noDataMessage
  | Some groups =>
      if (List.length groups =? 0)%nat then Alert noDataMessage
      else Download reportFilename (lit "text/csv;charset=utf-8;")
                    (utf8 (csvContent groups))
  end.

(** ** Reading the export back *)

Definition COMMA : N := 44.

(** A reader of one CSV record (RFC 4180): fields are separated by commas; a
    field that starts with a quote runs to its closing quote, a doubled quote
    inside it standing for one quote; a quote elsewhere is an error. *)
Inductive csvMode : Type :=
| FieldStart
| Unquoted (acc : jsstring)
| Quoted (acc : jsstring)
| QuoteSeen (acc : jsstring).

Fixpoint readCsv (m : csvMode) (done : list jsstring) (s : jsstring)
  : option (list jsstring) :=
  match s with
  | [] =>
      match m with
      | FieldStart => Some (rev ([] :: done))
      | Unquoted acc => Some (rev (rev acc :: done))
      | Quoted _ => None
      | QuoteSeen acc => Some (rev (rev acc :: done))
      end
  | c :: r =>
      match m with
      | FieldStart =>
          if (c =? DQUOTE)%N then readCsv (Quoted []) done r
          else if (c =? COMMA)%N then readCsv FieldStart ([] :: done) r
          else readCsv (Unquoted [c]) done r
      | Unquoted acc =>
          if (c =? COMMA)%N then readCsv FieldStart (rev acc :: done) r
          else if (c =? DQUOTE)%N then None
          else readCsv (Unquoted (c :: acc)) done r
      | Quoted acc =>
          if (c =? DQUOTE)%N then readCsv (QuoteSeen acc) done r
          else readCsv (Quoted (c :: acc)) done r
      | QuoteSeen acc =>
          if (c =? DQUOTE)%N then readCsv (Quoted (DQUOTE :: acc)) done r
          else if (c =? COMMA)%N then readCsv FieldStart (rev acc :: done) r
          else None
      end
  end.

Definition readCsvRow (row : jsstring) : option (list jsstring) :=
  readCsv FieldStart [] row.

(** A code unit that needs no quoting: neither comma nor quote. *)
Definition plain (c : N) : bool := negb (c =? COMMA)%N && negb (c =? DQUOTE)%N.


End AnalysisTable.

(* ================================================================== *)
(** * Further code of the repository *)
(* ================================================================== *)

(** ** services/geminiService.ts: fileToBase64 *)

Module FileReader.
Import JS.

(** [s.split(sep)] for a separator of one code unit: the segments between
    its occurrences, a single empty segment for the empty string. *)
Fixpoint split (s : jsstring) (sep : N) : list jsstring :=
  match s with
  | [] => [[]]
  | c :: r =>
      if (c =? sep)%N then [] :: split r sep
      else match split r sep with
           | x :: xs => (c :: x) :: xs
           | [] => [[c]]
           end
  end.

(** What the reader reports: [onload] with its result, or [onerror]. *)
Inductive ReadEvent : Type :=
| Loaded (result : jsstring)
| Failed.

(** How the promise settles: resolved with [result.split(',')[1]], which is
    undefined ([None]) when the result holds no comma, or rejected. *)
Inductive Settled : Type :=
| Resolved (base64 : option jsstring)
| Rejected.

Definition fileToBase64 (event : ReadEvent) : Settled :=
  match event with
  | Loaded result => Resolved (nth_error (split result 44) 1)
  | Failed => Rejected
  end.

End FileReader.

(** ** components/FileUpload.tsx: the handlers of the card *)

Module FileUploadCard.
Import JS.

(** The argument of [onFileSelect]: one file, an array of files, or null. *)
Definition Selection : Type := option (FileData.t + list FileData.t).

(** [handleFileChange] and [handleDrop] share their body: the calls of
    [onFileSelect] they make for the files of the event, each file given
    with the payload read from it and the identifier drawn for it. *)
Definition handleFiles (multiple : bool) (files : list (File.t * jsstring * jsstring))
  : list Selection :=
  match files with
  | [] => []
  | first :: _ =>
      if multiple then [Some (inr (FileUpload.processFiles files))]
      else [Some (inl (FileUpload.processFile (fst (fst first)) (snd (fst first))
                                              (snd first)))]
  end.

(** The remove button of the single-file display. *)
Definition removeButton : list Selection := [None].

End FileUploadCard.

(** ** App.tsx: the two cards wired to the state *)

Module AppCards.
Import JS App.

(** The datasheet card: [multiple], with [onFileSelect={handleDatasheetSelect}]. *)
Definition datasheetsCard (files : list (File.t * jsstring * jsstring)) : list Updater :=
  flat_map handleDatasheetSelect (FileUploadCard.handleFiles true files).

(** [f as FileData]: the single-file card passes one file or null. *)
Definition asFileData (f : FileUploadCard.Selection) : option FileData.t :=
  match f with
  | Some (inl x) => Some x
  | _ => None
  end.

(** The master list card: single, its [onFileSelect] the inline updater. *)
Definition masterCard (files : list (File.t * jsstring * jsstring)) : list Updater :=
  map (fun f => masterListSelect (asFileData f)) (FileUploadCard.handleFiles false files).

End AppCards.

(** ** components/CompletenessCheck.tsx *)

Module CompletenessCheck.
Import JS.

(** What [PartStatusChip] computes before it renders. *)
Record Chip : Type := mkChip {
  label : jsstring;
  isProvided : bool;
  bgColor : jsstring;
  borderColor : jsstring;
  textColor : jsstring;
  isSubstitute : bool;
  badgeStyle : jsstring;
  shownName : jsstring;
  shownFile : jsstring
}.

Definition PartStatusChip (part : CompletenessPart.t) (label : jsstring) : Chip :=
  let isProvided :=
    match CompletenessPart.status part with
    | Types.Provided => true
    | Types.Missing => false
    end in
  let bgColor := if isProvided then lit "bg-green-50" else lit "bg-red-50" in
  let borderColor := if isProvided then lit "border-green-200" else lit "border-red-200" in
  let textColor := if isProvided then lit "text-green-800" else lit "text-red-800" in
  let isSubstitute := includes label (lit "-") in
  let badgeStyle :=
    if negb isSubstitute then lit "bg-blue-100 text-blue-700 border-blue-200"
    else lit "bg-purple-100 text-purple-700 border-purple-200" in
  mkChip label isProvided bgColor borderColor textColor isSubstitute badgeStyle
         (if truthy (CompletenessPart.partName part)
          then CompletenessPart.partName part else lit "Unknown")
         (match CompletenessPart.matchedFilename part with
          | Some f => if truthy f then f else lit "No file"
          | None => lit "No file"
          end).

(** [row.substitutes.map((sub, sIdx) => ...)], [sIdx] counted from [from]. *)
Fixpoint substituteChips (groupLetter : jsstring) (subs : list CompletenessPart.t)
         (from : nat) : list Chip :=
  match subs with
  | [] => []
  | sub :: rest =>
      PartStatusChip sub (groupLetter ++ lit "-" ++ ofInteger (Z.of_nat from + 1))
      :: substituteChips groupLetter rest (S from)
  end.

(** One row of the table: the chip of the original, the chips of the
    substitutes, and whether the note for an empty list is shown. *)
Record Row : Type := mkRow {
  originalChip : Chip;
  substitutes : list Chip;
  noSubstitutesNote : bool
}.

Definition renderRow (row : CompletenessRow.t) (idx : nat) : Row :=
  let groupLetter := fromCharCode (65 + N.of_nat idx) in
  mkRow (PartStatusChip (CompletenessRow.original row) groupLetter)
        (substituteChips groupLetter (CompletenessRow.substitutes row) 0)
        (List.length (CompletenessRow.substitutes row) =? 0)%nat.

Fixpoint renderRows (rows : list CompletenessRow.t) (idx : nat) : list Row :=
  match rows with
  | [] => []
  | row :: rest => renderRow row idx :: renderRows rest (S idx)
  end.

(** [data.groupedRows.map((row, idx) => ...)] *)
Definition render (data : CompletenessResult.t) : list Row :=
  renderRows (CompletenessResult.groupedRows data) 0.

End CompletenessCheck.

(** ** What a run leaves behind *)

Module Trace.
Import JS GeminiService.

(** The binary parts of a request, each with its media type and payload. *)
Definition inlineParts (ps : list Part) : list (jsstring * jsstring) :=
  flat_map (fun p => match p with
                     | PInline m d => [(m, d)]
                     | PText _ => []
                     end) ps.

(** The files handed to the spreadsheet library, by name, in order. *)
Definition xlsxReads (ev : list Event) : list jsstring :=
  flat_map (fun e => match e with
                     | EvXlsxRead name => [name]
                     | EvGenerate _ => []
                     end) ev.

End Trace.

(** ** What a phase sends and what it makes of the reply

    Names for parts of the two service functions, to state their properties
    with: the messages thrown before the call, the request each phase builds
    once the files are read, and the result of its [try] block. *)

Module Phase.
Import JS JSON GeminiService.

(** What the [try] block of a phase makes of the service's answer: [prefix]
    is what its handler puts before the message, [missing] the message for
    an answer without text. *)
Definition outcome (prefix missing : jsstring) (w : World) (answer : GenResult)
  : Outcome json :=
  match answer with
  | GenThrows e => Throw (ErrorObj (prefix ++ messageOf e))
  | GenReturns None => Throw (ErrorObj (prefix ++ missing))
  | GenReturns (Some t) =>
      if truthy t then
        match parseResponse t with
        | Some v => Ok v
        | None => Throw (ErrorObj (prefix ++ syntaxErrorMessage w (stripFence (trim t))))
        end
      else Throw (ErrorObj (prefix ++ missing))
  end.

Definition checkKeyMessage : jsstring := lit "API Key missing".
Definition analysisKeyMessage : jsstring :=
  lit "API Key is missing. Please check your environment configuration.".
Definition noDatasheetsMessage : jsstring := lit "No datasheets provided for analysis.".

(** The request of each phase, for the parts it attaches. *)
Definition checkRequest (filenames : list jsstring) (masterContent : Part) : Request :=
  mkRequest modelName (lit "user")
    ([PText (checkPrompt filenames)]
     ++ match masterContent with
        | PText text => if truthy text then [PText text] else []
        | PInline _ _ => [PText (lit "DOCUMENT: Master List Image/PDF"); masterContent]
        end)
    (lit "application/json") completenessSchema (1 # 10).

Definition analysisRequest (filenames : list jsstring) (masterContent : Part)
           (dsParts : list Part) : Request :=
  mkRequest modelName (lit "user")
    ([PText (analysisPrompt filenames)]
     ++ match masterContent with
        | PText text =>
            if truthy text then [PText text]
            else [PText (lit "DOCUMENT: Master List (Reference)"); masterContent]
        | PInline _ _ => [PText (lit "DOCUMENT: Master List (Reference)"); masterContent]
        end
     ++ dsParts)
    (lit "application/json") analysisSchema (1 # 10).

(** A workbook the spreadsheet library cannot read. *)
Definition unreadable (w : World) (fd : FileData.t) : bool :=
  isExcel fd
  && match XLSX_firstSheetCsv w (FileData.base64 fd) with
     | Some _ => false
     | None => true
     end.

Definition supported (fd : FileData.t) : Prop :=
  arrayIncludes supportedTypes (FileData.type fd) = true.

(** What goes to the service as binary, and what goes to the spreadsheet
    library, of a list of files. *)
Definition binaries (files : list FileData.t) : list (jsstring * jsstring) :=
  map (fun fd => (FileData.type fd, FileData.base64 fd))
      (filter (fun fd => negb (isExcel fd)) files).

Definition workbooks (files : list FileData.t) : list jsstring :=
  map (fun fd => File.name (FileData.file fd)) (filter isExcel files).

End Phase.

(** ** Token sequences *)

Module Tokens.
Import JS JSON.

(** The letters a literal still expects are lower-case letters. *)
Definition expects_letters (m : mode) : Prop :=
  match m with
  | InLit rest _ => Forall (fun c => (97 <= c <= 122)%N) rest
  | _ => True
  end.

(** The tokens of an array of strings, between its brackets. *)
Fixpoint nameTokens (names : list jsstring) : list token :=
  match names with
  | [] => []
  | [x] => [TString x]
  | x :: rest => TString x :: TComma :: nameTokens rest
  end.

End Tokens.

(** ** What a reader finds in the report *)

Module Report.
Import JS AnalysisTable.

Definition CR : N := 13.

(** A code unit that can stand in a field written without quotes: no comma,
    no quote, no line break. *)
Definition bare (c : N) : bool :=
  negb (c =? COMMA)%N && negb (c =? DQUOTE)%N && negb (c =? LF)%N && negb (c =? CR)%N.

(** A reader of a whole CSV text (RFC 4180, the records on lines ended by a
    line feed): outside quotes a comma ends the field and a line feed ends
    the record; a quoted field runs to its closing quote, line breaks
    included, a doubled quote standing for one quote; a quote inside an
    unquoted field, a carriage return outside quotes and anything but a
    comma or a line feed behind a closing quote are errors.  [fields] are the
    fields of the open record and [records] the closed records, both latest
    first. *)
Fixpoint readRecords (m : csvMode) (fields : list jsstring)
         (records : list (list jsstring)) (s : jsstring)
  : option (list (list jsstring)) :=
  match s with
  | [] =>
      match m with
      | FieldStart => Some (rev (rev ([] :: fields) :: records))
      | Unquoted acc => Some (rev (rev (rev acc :: fields) :: records))
      | Quoted _ => None
      | QuoteSeen acc => Some (rev (rev (rev acc :: fields) :: records))
      end
  | c :: r =>
      match m with
      | FieldStart =>
          if (c =? DQUOTE)%N then readRecords (Quoted []) fields records r
          else if (c =? COMMA)%N then readRecords FieldStart ([] :: fields) records r
          else if (c =? LF)%N then
            readRecords FieldStart [] (rev ([] :: fields) :: records) r
          else if (c =? CR)%N then None
          else readRecords (Unquoted [c]) fields records r
      | Unquoted acc =>
          if (c =? COMMA)%N then readRecords FieldStart (rev acc :: fields) records r
          else if (c =? LF)%N then
            readRecords FieldStart [] (rev (rev acc :: fields) :: records) r
          else if (c =? DQUOTE)%N then None
          else if (c =? CR)%N then None
          else readRecords (Unquoted (c :: acc)) fields records r
      | Quoted acc =>
          if (c =? DQUOTE)%N then readRecords (QuoteSeen acc) fields records r
          else readRecords (Quoted (c :: acc)) fields records r
      | QuoteSeen acc =>
          if (c =? DQUOTE)%N then readRecords (Quoted (DQUOTE :: acc)) fields records r
          else if (c =? COMMA)%N then readRecords FieldStart (rev acc :: fields) records r
          else if (c =? LF)%N then
            readRecords FieldStart [] (rev (rev acc :: fields) :: records) r
          else None
      end
  end.

(** The records of a text. *)
Definition readReport (text : jsstring) : option (list (list jsstring)) :=
  readRecords FieldStart [] [] text.

(** ** What the report is to hold

    The fields of the rows of a group, as the claim describes the report:
    three title lines, a table of nine columns (its header, then one row for
    each specification), two blank lines. *)

Definition titleFields (group : ComparisonGroup.t) (index : nat) : list jsstring :=
  [ lit "GROUP " ++ getGroupLabel index ++ lit ": "
    ++ partOf group MappedParts.partA (lit "Part A") ++ lit " vs Substitutes";
    lit "Summary: " ++ orElse (ComparisonGroup.summary group) [];
    lit "Recommendation: "
    ++ match ComparisonGroup.recommendation group with
       | Some r => Types.Recommendation_value r
       | None => lit "-"
       end ].

Definition headerFields (group : ComparisonGroup.t) (index : nat) : list jsstring :=
  let groupLabel := getGroupLabel index in
  let sub1Label := groupLabel ++ lit "-1" in
  let sub2Label := groupLabel ++ lit "-2" in
  [ lit "ID"; lit "Parameter"; lit "Unit";
    lit "Spec " ++ groupLabel ++ lit " ("
    ++ partOf group MappedParts.partA (lit "Part A") ++ lit ")";
    lit "Spec " ++ sub1Label ++ lit " ("
    ++ partOf group MappedParts.partB (lit "Part B") ++ lit ")";
    sub1Label ++ lit " Result";
    lit "Spec " ++ sub2Label ++ lit " ("
    ++ partOf group MappedParts.partC (lit "Part C") ++ lit ")";
    sub2Label ++ lit " Result";
    lit "Comment" ].

Definition specFields (s : SpecItem.t) : list jsstring :=
  [ idCell (SpecItem.id s);
    orElse (SpecItem.parameter s) [];
    orElse (SpecItem.unit s) [];
    orElse (SpecItem.valueA s) [];
    orElse (SpecItem.valueB s) [];
    complianceCell (SpecItem.complianceB s);
    orElse (SpecItem.valueC s) [];
    complianceCell (SpecItem.complianceC s);
    orElse (SpecItem.comment s) [] ].

Definition specsOf (group : ComparisonGroup.t) : list SpecItem.t :=
  match ComparisonGroup.specs group with
  | Some specs => specs
  | None => []
  end.

(** The records of the block of one group; a blank line is a record of one
    empty field. *)
Definition groupRecords (group : ComparisonGroup.t) (index : nat)
  : list (list jsstring) :=
  map (fun t => [t]) (titleFields group index)
  ++ [headerFields group index]
  ++ map specFields (specsOf group)
  ++ [[[]]; [[]]].

Fixpoint recordsFrom (groups : list ComparisonGroup.t) (index : nat)
  : list (list jsstring) :=
  match groups with
  | [] => []
  | g :: rest => groupRecords g index ++ recordsFrom rest (S index)
  end.

Definition records (groups : list ComparisonGroup.t) : list (list jsstring) :=
  recordsFrom groups 0.

(** The three part names of a group can stand in the unquoted header. *)
Definition bareNames (group : ComparisonGroup.t) : bool :=
  forallb bare (partOf group MappedParts.partA (lit "Part A"))
  && forallb bare (partOf group MappedParts.partB (lit "Part B"))
  && forallb bare (partOf group MappedParts.partC (lit "Part C")).

(** ** Written fields

    A field with the way it is written: between quotes with its quotes
    doubled, or as it is. *)
Definition Cell : Type := (bool * jsstring)%type.

Definition written (c : Cell) : jsstring :=
  if fst c then quoted (escapeQuotes (snd c)) else snd c.

Definition wellWritten (c : Cell) : bool := fst c || forallb bare (snd c).

Definition rowText (cells : list Cell) : jsstring := join (lit ",") (map written cells).

(** Where the reader goes on behind a field [f] that [tail] ends. *)
Definition afterField (fields : list jsstring) (records : list (list jsstring))
           (f : jsstring) (tail : jsstring) : option (list (list jsstring)) :=
  match tail with
  | [] => Some (rev (rev (f :: fields) :: records))
  | c :: t =>
      if (c =? COMMA)%N then readRecords FieldStart (f :: fields) records t
      else readRecords FieldStart [] (rev (f :: fields) :: records) t
  end.

Definition endsField (tail : jsstring) : Prop :=
  match tail with
  | [] => True
  | c :: _ => c = COMMA \/ c = LF
  end.

Definition endsRecord (tail : jsstring) : Prop :=
  match tail with
  | [] => True
  | c :: _ => c = LF
  end.




End Report.

(* ================================================================== *)
(** * Sample inputs

    The concrete files, worlds and responses the examples and the
    counterexamples below are run on. *)
(* ================================================================== *)

Module Samples.
Import JS JSON GeminiService.

(** A JSON string literal. *)
Definition str (s : string) : jsstring := dq (lit s).

Definition pdfFile (name : string) : File.t :=
  File.mk (lit name) (lit "application/pdf").

(** A master list in PDF, as the upload widget ingests it. *)
Definition masterPdf : FileData.t :=
  FileUpload.processFile (pdfFile "master.pdf") (lit "JVBERi0xLjQ=") (lit "k3j9x0q1z").

Definition datasheetPdf : FileData.t :=
  FileUpload.processFile (pdfFile "M1_datasheet.pdf") (lit "JVBERi0xLjc=") (lit "a8s7d6f5g").

(** The response of the scenario of the specification (M1 provided, M1-SUB
    missing), with [allProvided] set all the same. *)
Definition inconsistentResponse : jsstring :=
  lit "{" ++ str "groupedRows" ++ lit ":[{"
  ++ str "original" ++ lit ":{" ++ str "partName" ++ lit ":" ++ str "M1" ++ lit ","
  ++ str "status" ++ lit ":" ++ str "Provided" ++ lit ","
  ++ str "matchedFilename" ++ lit ":" ++ str "M1_datasheet.pdf" ++ lit "},"
  ++ str "substitutes" ++ lit ":[{" ++ str "partName" ++ lit ":" ++ str "M1-SUB"
  ++ lit "," ++ str "status" ++ lit ":" ++ str "Missing" ++ lit "}]}],"
  ++ str "allProvided" ++ lit ":true,"
  ++ str "message" ++ lit ":" ++ str "All datasheets are provided." ++ lit "}".

Definition inconsistentValue : json :=
  JObject
    [ (lit "groupedRows",
       JArray
         [ JObject
             [ (lit "original",
                JObject [ (lit "partName", JString (lit "M1"));
                          (lit "status", JString (lit "Provided"));
                          (lit "matchedFilename", JString (lit "M1_datasheet.pdf")) ]);
               (lit "substitutes",
                JArray [ JObject [ (lit "partName", JString (lit "M1-SUB"));
                                   (lit "status", JString (lit "Missing")) ] ]) ] ]);
      (lit "allProvided", JBool true);
      (lit "message", JString (lit "All datasheets are provided.")) ].

Definition inconsistentResult : CompletenessResult.t :=
  CompletenessResult.mk
    [ CompletenessRow.mk
        (CompletenessPart.mk (lit "M1") Types.Provided (Some (lit "M1_datasheet.pdf")))
        [ CompletenessPart.mk (lit "M1-SUB") Types.Missing None ] ]
    true
    (lit "All datasheets are provided.").

(** A world whose service answers every request with [text] and whose
    spreadsheet library reads every workbook as [csv]. *)
Definition answering (text : jsstring) (csv : option jsstring) : World :=
  mkWorld (Some (lit "test-key")) (fun _ => csv)
          (fun _ => GenReturns (Some text)) (fun _ => lit "Unexpected token").

(** A legacy workbook: the browser reports the Excel media type, and
    [processFile] tags the file as PDF. *)
Definition legacyWorkbookFile : File.t :=
  File.mk (lit "master.xls") (lit "application/vnd.ms-excel").

Definition legacyWorkbook : FileData.t :=
  FileUpload.processFile legacyWorkbookFile (lit "0M8R4KGxGuE=") (lit "q1w2e3r4t").

Definition sheetCsv : jsstring :=
  lit "Original,Substitute 1,Substitute 2" ++ [LF] ++ lit "M1,M1-SUB,".

(** A workbook of the current format whose payload is no workbook. *)
Definition brokenWorkbook : FileData.t :=
  FileUpload.processFile
    (File.mk (lit "list.xlsx")
             (lit "application/vnd.openxmlformats-officedocument.spreadsheetml.sheet"))
    (lit "bm90IGEgd29ya2Jvb2s=") (lit "z9y8x7w6v").

Definition docxType : jsstring :=
  lit "application/vnd.openxmlformats-officedocument.wordprocessingml.document".

(** A word-processor document, as the browser hands it over. *)
Definition docxFile : File.t := File.mk (lit "report.docx") docxType.

Definition docxIngested : FileData.t :=
  FileUpload.processFile docxFile (lit "UEsDBBQABgAI") (lit "d0cxd0cx1").

(** The same document with its own media type in [type]: a value outside
    the declared union, which only a caller other than the upload widget can
    build. *)
Definition docxUntyped : FileData.t :=
  FileData.mk (lit "d0cxd0cx2") docxFile (lit "UEsDBBQABgAI") docxType.

(** An image the browser reports as PNG under a name that ends in .xlsx. *)
Definition pngNamedXlsx : File.t := File.mk (lit "scan.xlsx") (lit "image/png").

(** A session after a successful analysis. *)
Definition analysisValue : json :=
  JObject [ (lit "groups", JArray []); (lit "missingFiles", JArray []) ].

Definition analyzedState : AppState.t :=
  AppState.mk (Some masterPdf) [datasheetPdf] false false
              (Some inconsistentValue) (Some analysisValue) None.

(** A session ready for its first check: a master list and one datasheet. *)
Definition readyState : AppState.t :=
  AppState.mk (Some masterPdf) [datasheetPdf] false false None None None.

(** The result of the export example of the specification: one group with
    one specification row whose comment contains quotes. *)
Definition quotedComment : jsstring := lit "Contains " ++ dq (lit "quotes").

Definition exportSpec : SpecItem.t :=
  SpecItem.mk (Some (SafeInteger.mk 1 eq_refl)) (Some (lit "Drain-Source Voltage")) (Some (lit "V"))
              (Some (lit "100")) (Some (lit "100")) (Some Types.FULLY_COMPLIANT)
              (Some (lit "80")) (Some Types.NON_COMPLIANT) (Some quotedComment).

Definition exportGroup : ComparisonGroup.t :=
  ComparisonGroup.mk (lit "group-1") 1
    (Some (MappedParts.mk (Some (lit "NTTFS080N10")) (Some (lit "M1-SUB")) None))
    (Some (lit "B matches; C falls short on voltage."))
    (Some Types.RecB) (Some [exportSpec]).


End Samples.

(* ================================================================== *)
(** * More sample inputs *)
(* ================================================================== *)

Module Scenarios.
Import JS JSON GeminiService.

(** A world in which no credential is configured. *)
Definition noCredential : World :=
  mkWorld None (fun _ => None) (fun _ => GenReturns None)
          (fun _ => lit "Unexpected end of JSON input").

(** A world whose service throws a value that is no Error. *)
Definition failing : World :=
  mkWorld (Some (lit "test-key")) (fun _ => Some Samples.sheetCsv)
          (fun _ => GenThrows OtherValue) (fun _ => lit "Unexpected token").

(** Two datasheets, the second a workbook that cannot be read. *)
Definition withBrokenWorkbook : list FileData.t :=
  [Samples.datasheetPdf; Samples.brokenWorkbook].

(** A datasheet and a workbook. *)
Definition mixedDatasheets : list FileData.t :=
  [Samples.datasheetPdf; Samples.legacyWorkbook].




(** A reply of a space and a line feed. *)
Definition blankReply : jsstring := lit " " ++ [LF].

(** A group whose part A is named with a comma. *)
Definition commaGroup : ComparisonGroup.t :=
  ComparisonGroup.mk (lit "group-2") 2
    (Some (MappedParts.mk (Some (lit "BC847,215")) (Some (lit "BC847B")) None))
    None None (Some [Samples.exportSpec]).


(** The head of the data URL of a PDF file, and a payload. *)
Definition dataUrlHeader : jsstring := lit "data:application/pdf;base64".
Definition payload : jsstring := lit "JVBERi0xLjQ=".

End Scenarios.

(* ================================================================== *)
(** * Tactics *)
(* ================================================================== *)

(** Boolean comparisons on code units, decided case by case. *)
Ltac cases_N :=
  repeat (match goal with
          | |- context [(?a =? ?b)%N] => destruct (N.eqb_spec a b)
          | |- context [(?a <=? ?b)%N] => destruct (N.leb_spec a b)
          | |- context [(?a <? ?b)%N] => destruct (N.ltb_spec a b)
          end; try lia); cbn; try reflexivity; try discriminate; try lia.

(* ================================================================== *)
(** * Properties *)
(* ================================================================== *)

(** ** Strings *)

Section StringFacts.
Import JS.

Lemma startsWith_app (p s : jsstring) : startsWith (p ++ s) p = true.
Proof.
  induction p as [|c p IH]; simpl; [reflexivity|].
  now rewrite N.eqb_refl, IH.
Qed.

Lemma startsWith_refl (p : jsstring) : startsWith p p = true.
Proof. induction p as [|c p IH]; simpl; [reflexivity|]. now rewrite N.eqb_refl. Qed.

Lemma startsWith_inv (p s : jsstring) :
  startsWith s p = true -> exists r, s = p ++ r.
Proof.
  revert s; induction p as [|c p IH]; intros s H; simpl in H.
  - now exists s.
  - destruct s as [|d s]; [discriminate|].
    apply andb_true_iff in H as [E H].
    apply N.eqb_eq in E; subst d.
    destruct (IH _ H) as [r ->]. now exists r.
Qed.

Lemma skipn_length_app (p s : jsstring) : skipn (List.length p) (p ++ s) = s.
Proof. induction p; simpl; auto. Qed.

Lemma removePrefix_app (p s : jsstring) : removePrefix p (p ++ s) = s.
Proof.
  unfold removePrefix. now rewrite startsWith_app, skipn_length_app.
Qed.

Lemma endsWith_app (p s : jsstring) : endsWith (s ++ p) p = true.
Proof.
  unfold endsWith. rewrite rev_app_distr. apply startsWith_app.
Qed.

Lemma removeSuffix_app (p s : jsstring) : removeSuffix p (s ++ p) = s.
Proof.
  unfold removeSuffix. rewrite endsWith_app, length_app.
  replace (List.length s + List.length p - List.length p)%nat
    with (List.length s + 0)%nat by lia.
  now rewrite firstn_app_2, app_nil_r.
Qed.

Lemma includes_startsWith (s p : jsstring) :
  startsWith s p = true -> includes s p = true.
Proof.
  intros H. destruct s as [|c s]; cbn [includes]; rewrite H; reflexivity.
Qed.

Lemma includes_app_l (a s p : jsstring) :
  includes s p = true -> includes (a ++ s) p = true.
Proof.
  intros H. induction a as [|c a IH]; simpl; [assumption|].
  rewrite IH. apply orb_true_r.
Qed.

(** A string that contains [p] as a segment includes it. *)
Lemma includes_segment (a p b : jsstring) : includes (a ++ p ++ b) p = true.
Proof. apply includes_app_l, includes_startsWith, startsWith_app. Qed.

Lemma trimStart_head (c : N) (s : jsstring) :
  isWhiteSpace c = false -> trimStart (c :: s) = c :: s.
Proof. intros H. simpl. now rewrite H. Qed.

Lemma trimEnd_snoc (s : jsstring) (c : N) :
  trimEnd (s ++ [c]) = if isWhiteSpace c then trimEnd s else s ++ [c].
Proof.
  unfold trimEnd. rewrite rev_app_distr. simpl.
  destruct (isWhiteSpace c); [reflexivity|].
  simpl. now rewrite rev_involutive.
Qed.

(** [trim] leaves a string alone whose first and last code units are no
    white space. *)
Lemma trim_fixed (c d : N) (s : jsstring) :
  isWhiteSpace c = false -> isWhiteSpace d = false ->
  trim (c :: s ++ [d]) = c :: s ++ [d].
Proof.
  intros Hc Hd. unfold trim. rewrite trimStart_head by assumption.
  change (c :: s ++ [d]) with ((c :: s) ++ [d]).
  now rewrite trimEnd_snoc, Hd.
Qed.

End StringFacts.

(** ** The lexer and white space *)

Section LexerFacts.
Import JS JSON.

(** The code units [trim] removes, as ranges. *)
Lemma isWhiteSpace_ranges (c : N) :
  isWhiteSpace c = true ->
  (9 <= c <= 13 \/ c = 32 \/ c = 160 \/ c = 5760 \/ 8192 <= c <= 8202
   \/ c = 8232 \/ c = 8233 \/ c = 8239 \/ c = 8287 \/ c = 12288 \/ c = 65279)%N.
Proof.
  unfold isWhiteSpace.
  rewrite !orb_true_iff, !andb_true_iff, !N.eqb_eq, !N.leb_le. tauto.
Qed.

Lemma isJsonSpace_isWhiteSpace (c : N) :
  isJsonSpace c = true -> isWhiteSpace c = true.
Proof.
  unfold isJsonSpace. rewrite !orb_true_iff, !N.eqb_eq.
  intros [[[-> | ->] | ->] | ->]; reflexivity.
Qed.

Lemma start_space (c : N) : isJsonSpace c = true -> start c = Some (Top, []).
Proof. intros H. unfold start. now rewrite H. Qed.

(** White space that JSON does not know starts no token. *)
Lemma start_other_space (c : N) :
  isWhiteSpace c = true -> isJsonSpace c = false -> start c = None.
Proof.
  intros H%isWhiteSpace_ranges HJ. unfold start. rewrite HJ.
  unfold isDigit. cases_N.
Qed.

(** No white space is part of a token that is open. *)
Lemma space_in_token (c : N) :
  isWhiteSpace c = true ->
  (c =? 34)%N = false /\ (c =? 92)%N = false /\ (c =? 117)%N = false
  /\ unescape c = None /\ hexval c = None /\ isNumChar c = false.
Proof.
  intros H%isWhiteSpace_ranges.
  unfold unescape, hexval, isNumChar, isDigit.
  repeat split; cases_N.
Qed.

Lemma start_mode_ok (c : N) (m : mode) (ts : list token) :
  start c = Some (m, ts) -> mode_ok m.
Proof.
  unfold start.
  repeat match goal with
         | |- context [if ?b then _ else _] => destruct b
         end; intros [= <- <-]; cbn; repeat constructor.
Qed.

Lemma option_map_app_nil (A : Type) (o : option (list A)) :
  option_map (app []) o = o.
Proof. now destruct o. Qed.

(** A trailing white space changes nothing for a text the lexer accepts. *)
Lemma lex_snoc_space (c : N) :
  isWhiteSpace c = true ->
  forall (s : jsstring) (m : mode) (ts : list token),
    mode_ok m -> lex m (s ++ [c]) = Some ts -> lex m s = Some ts.
Proof.
  intros Hc.
  destruct (space_in_token c Hc) as (Hq & Hb & Hu & Hesc & Hhex & Hnum).
  induction s as [|d r IH]; intros m ts Hm H.
  - cbn [app lex] in H. destruct m; cbn [lex].
    + destruct (isJsonSpace c) eqn:HJ.
      * rewrite (start_space c HJ) in H. exact H.
      * now rewrite (start_other_space c Hc HJ) in H.
    + rewrite Hq, Hb in H. destruct (c <? 32)%N; discriminate.
    + rewrite Hesc, Hu in H. discriminate.
    + rewrite Hhex in H. discriminate.
    + rewrite Hnum in H.
      destruct (valid_number (rev acc)); [|discriminate].
      destruct (isJsonSpace c) eqn:HJ.
      * rewrite (start_space c HJ) in H. exact H.
      * now rewrite (start_other_space c Hc HJ) in H.
    + destruct rest as [|e rest]; [discriminate|].
      inversion Hm as [|? ? He _]; subst.
      destruct (N.eqb_spec c e) as [->|]; [congruence|discriminate].
  - cbn [app lex] in H |- *. destruct m.
    + destruct (start d) as [[m' tk]|] eqn:Hs; [|discriminate].
      destruct (lex m' (r ++ [c])) as [rest|] eqn:E; [|discriminate].
      now rewrite (IH _ _ (start_mode_ok _ Hs) E).
    + destruct (d =? 34)%N.
      * destruct (lex Top (r ++ [c])) as [rest|] eqn:E; [|discriminate].
        now rewrite (IH Top _ I E).
      * destruct (d =? 92)%N; [now apply IH|].
        destruct (d <? 32)%N; [discriminate|now apply IH].
    + destruct (unescape d); [now apply IH|].
      destruct (d =? 117)%N; [now apply IH|discriminate].
    + destruct (hexval d); [|discriminate].
      destruct k as [|[|k]]; [discriminate| |]; now apply IH.
    + destruct (isNumChar d); [now apply IH|].
      destruct (valid_number (rev acc)); [|discriminate].
      destruct (start d) as [[m' tk]|] eqn:Hs; [|discriminate].
      destruct (lex m' (r ++ [c])) as [rest|] eqn:E; [|discriminate].
      now rewrite (IH _ _ (start_mode_ok _ Hs) E).
    + destruct rest as [|e rest]; [discriminate|].
      destruct (d =? e)%N; [|discriminate].
      inversion Hm as [|? ? _ Hrest]; subst.
      destruct rest as [|e' rest].
      * destruct (lex Top (r ++ [c])) as [rest'|] eqn:E; [|discriminate].
        now rewrite (IH Top _ I E).
      * now apply IH.
Qed.

Lemma lex_trimEnd (s : jsstring) (m : mode) (ts : list token) :
  mode_ok m -> lex m s = Some ts -> lex m (trimEnd s) = Some ts.
Proof.
  intros Hm. induction s as [|c s IH] using rev_ind; intros H.
  - exact H.
  - rewrite trimEnd_snoc. destruct (isWhiteSpace c) eqn:Hc; [|exact H].
    apply IH. now apply (lex_snoc_space c Hc).
Qed.

Lemma lex_trimStart (s : jsstring) (ts : list token) :
  lex Top s = Some ts -> lex Top (trimStart s) = Some ts.
Proof.
  induction s as [|c s IH]; intros H; [exact H|].
  cbn [trimStart]. destruct (isWhiteSpace c) eqn:Hc; [|exact H].
  apply IH. cbn [lex] in H.
  destruct (isJsonSpace c) eqn:HJ.
  - rewrite (start_space c HJ), option_map_app_nil in H. exact H.
  - now rewrite (start_other_space c Hc HJ) in H.
Qed.

(** [JSON.parse] reads a text it accepts the same with and without the
    white space around it. *)
Lemma parse_trim (s : jsstring) (v : json) :
  parse s = Some v -> parse (trim s) = Some v.
Proof.
  unfold parse, trim. intros H.
  destruct (lex Top s) as [ts|] eqn:E; [|discriminate].
  now rewrite (@lex_trimEnd (trimStart s) Top ts I (@lex_trimStart s ts E)).
Qed.

(** No JSON text starts with a backtick. *)
Lemma parse_backtick (s : jsstring) : parse (BACKTICK :: s) = None.
Proof. reflexivity. Qed.

End LexerFacts.

(** ** Reading a fenced response *)

Section ResponseFacts.
Import JS JSON GeminiService.

Lemma fenced_unfold (s : jsstring) :
  fenced s = fenceOpen ++ [LF] ++ s ++ fenceCloseLine.
Proof. unfold fenced, fenceOpenLine. now rewrite <- app_assoc. Qed.

Lemma fenced_ends (s : jsstring) :
  fenced s
  = BACKTICK :: ([BACKTICK; BACKTICK] ++ lit "json" ++ [LF] ++ s
                 ++ [LF; BACKTICK; BACKTICK]) ++ [BACKTICK].
Proof.
  unfold fenced, fenceOpenLine, fenceOpen, fenceCloseLine. cbn.
  rewrite <- (app_assoc s). reflexivity.
Qed.

Lemma trim_fenced (s : jsstring) : trim (fenced s) = fenced s.
Proof. rewrite fenced_ends. now apply trim_fixed. Qed.

Lemma stripFence_fenced (s : jsstring) : stripFence (fenced s) = s.
Proof.
  unfold stripFence. rewrite fenced_unfold at 1. rewrite startsWith_app.
  unfold fenced. now rewrite removePrefix_app, removeSuffix_app.
Qed.

(** A text [JSON.parse] accepts opens no fence. *)
Lemma parse_no_fence (t : jsstring) (v : json) :
  parse t = Some v -> startsWith t fenceOpen = false.
Proof.
  intros H. destruct (startsWith t fenceOpen) eqn:E; [|reflexivity].
  apply startsWith_inv in E as [r ->].
  change (fenceOpen ++ r) with (BACKTICK :: ([BACKTICK; BACKTICK] ++ lit "json") ++ r) in H.
  now rewrite parse_backtick in H.
Qed.

End ResponseFacts.

(** ** Computations of the service module *)

Section ServiceFacts.
Import JS JSON GeminiService.

Lemma bind_ok (A B : Type) (m : M A) (k : A -> M B) (w : World)
      (b : B) (ev : list Event) :
  bind m k w = (Ok b, ev) ->
  exists a ev1 ev2, m w = (Ok a, ev1) /\ k a w = (Ok b, ev2) /\ ev = ev1 ++ ev2.
Proof.
  unfold bind. destruct (m w) as [[a|e] ev1]; [|discriminate].
  destruct (k a w) as [r ev2] eqn:E. intros [= -> <-].
  now exists a, ev1, ev2.
Qed.

Lemma bind_run_ok (A B : Type) (m : M A) (k : A -> M B) (w : World)
      (a : A) (ev : list Event) :
  m w = (Ok a, ev) -> bind m k w = (fst (k a w), ev ++ snd (k a w)).
Proof. unfold bind. intros ->. now destruct (k a w). Qed.

Lemma bind_run_throw (A B : Type) (m : M A) (k : A -> M B) (w : World)
      (e : Thrown) (ev : list Event) :
  m w = (Throw e, ev) -> bind m k w = (Throw e, ev).
Proof. unfold bind. now intros ->. Qed.

(** A handler that throws again lets only the results of the body through. *)
Lemma tryCatch_rethrow_ok (A : Type) (m : M A) (f : Thrown -> jsstring)
      (w : World) (a : A) (ev : list Event) :
  tryCatch m (fun e => throwError (f e)) w = (Ok a, ev) -> m w = (Ok a, ev).
Proof.
  unfold tryCatch, throwError. destruct (m w) as [[a'|e] ev1]; [auto|discriminate].
Qed.

Lemma generateCalls_app (ev1 ev2 : list Event) :
  generateCalls (ev1 ++ ev2) = generateCalls ev1 ++ generateCalls ev2.
Proof. apply flat_map_app. Qed.

Lemma requireApiKey_run (message : jsstring) (w : World) :
  requireApiKey message w
  = (if apiKeyMissing w then Throw (ErrorObj message) else Ok tt, []).
Proof. unfold requireApiKey. now destruct (apiKeyMissing w). Qed.

(** Reading a file makes no outbound call. *)
Lemma getFileContentPart_calls (fd : FileData.t) (label : jsstring) (w : World) :
  generateCalls (snd (getFileContentPart fd label w)) = [].
Proof.
  unfold getFileContentPart. destruct (isExcel fd); [|reflexivity].
  now destruct (XLSX_firstSheetCsv w (FileData.base64 fd)).
Qed.

Lemma callGenerate_ok (req : Request) (w : World) (rt : option jsstring)
      (ev : list Event) :
  callGenerate req w = (Ok rt, ev) ->
  generateContent w req = GenReturns rt /\ ev = [EvGenerate req].
Proof.
  unfold callGenerate. destruct (generateContent w req); intros [= <- <-]; auto.
Qed.

Lemma parseResponseM_ok (text : jsstring) (w : World) (v : json)
      (ev : list Event) :
  parseResponseM text w = (Ok v, ev) -> parseResponse text = Some v /\ ev = [].
Proof.
  unfold parseResponseM. destruct (parseResponse text); intros [= <- <-]; auto.
Qed.

(** What both phases do with the text of the response. *)
Lemma read_response_ok (message text_missing : jsstring) (rt : option jsstring)
      (w : World) (v : json) (ev : list Event) :
  match rt with
  | Some text => if truthy text then parseResponseM text else throwError message
  | None => throwError text_missing
  end w = (Ok v, ev) ->
  exists text, rt = Some text /\ parseResponse text = Some v /\ ev = [].
Proof.
  destruct rt as [text|]; [|discriminate].
  destruct (truthy text); [|discriminate].
  intros [H ->]%parseResponseM_ok. now exists text.
Qed.

(** The member [allProvided] of a value read as a [CompletenessResult]. *)
Lemma ofJson_allProvided (v : json) (r : CompletenessResult.t) :
  CompletenessResult.ofJson v = Some r ->
  JSON.get v (lit "allProvided") = Some (JBool (CompletenessResult.allProvided r)).
Proof.
  unfold CompletenessResult.ofJson.
  destruct (get v (lit "groupedRows")) as [[| | | |rows|]|]; try discriminate.
  destruct (get v (lit "allProvided")) as [[|b| | | |]|]; try discriminate.
  destruct (get v (lit "message")) as [[| | |m| |]|]; try discriminate.
  destruct (CompletenessResult.allSome _ rows); [|discriminate].
  now intros [= <-].
Qed.

(** C1, as the code has it.  The object [checkFileCompleteness] returns is
    the service's response, parsed: exactly one outbound call was made, it
    returned a text, and the result is that text read by [parseResponse].
    Its [allProvided] is therefore the member of that name in the response,
    whatever the statuses in [groupedRows] are; nothing is computed from
    them locally. *)
Theorem completeness_result_is_the_parsed_response
        (w : World) (master : FileData.t) (filenames : list jsstring)
        (v : json) (ev : list Event) :
  checkFileCompleteness master filenames w = (Ok v, ev) ->
  exists req text,
    generateCalls ev = [req]
    /\ generateContent w req = GenReturns (Some text)
    /\ parseResponse text = Some v
    /\ forall r, CompletenessResult.ofJson v = Some r ->
                 JSON.get v (lit "allProvided")
                 = Some (JBool (CompletenessResult.allProvided r)).
Proof.
  unfold checkFileCompleteness. intros H.
  apply bind_ok in H as (? & ev1 & eva & H1 & H & ->).
  apply bind_ok in H as (? & ev2 & evb & H2 & H & ->).
  apply bind_ok in H as (mc & ev3 & evc & H3 & H & ->).
  apply tryCatch_rethrow_ok in H.
  apply bind_ok in H as (rt & ev4 & ev5 & H4 & H & ->).
  apply callGenerate_ok in H4 as [Hgen ->].
  apply read_response_ok in H as (text & -> & Hparse & ->).
  rewrite requireApiKey_run in H1. injection H1 as _ <-.
  unfold lift in H2. injection H2 as _ <-.
  eexists _, text. repeat split.
  - rewrite !generateCalls_app.
    pose proof (getFileContentPart_calls master (lit "Master List") w) as Hc.
    rewrite H3 in Hc. cbn [snd] in Hc. rewrite Hc. reflexivity.
  - exact Hgen.
  - exact Hparse.
  - intros r. apply ofJson_allProvided.
Qed.

(** C1 fails as stated: the service answers the scenario of the
    specification (M1 provided, M1-SUB missing) with [allProvided] true, and
    [checkFileCompleteness] returns that object as it is. *)
Lemma allProvided_with_a_missing_part :
  fst (checkFileCompleteness Samples.masterPdf [lit "M1_datasheet.pdf"]
         (Samples.answering Samples.inconsistentResponse None))
  = Ok Samples.inconsistentValue
  /\ CompletenessResult.ofJson Samples.inconsistentValue
     = Some Samples.inconsistentResult
  /\ CompletenessResult.allProvided Samples.inconsistentResult = true
  /\ ~ Forall (fun p => CompletenessPart.status p = Types.Provided)
              (CompletenessResult.parts Samples.inconsistentResult).
Proof.
  repeat split; try (vm_compute; reflexivity).
  intros H. inversion H as [|? ? _ H']. inversion H' as [|? ? Hs _].
  discriminate Hs.
Qed.

Lemma completeness_result_witness :
  exists req text,
    generateCalls
      (snd (checkFileCompleteness Samples.masterPdf [lit "M1_datasheet.pdf"]
              (Samples.answering Samples.inconsistentResponse None))) = [req]
    /\ generateContent (Samples.answering Samples.inconsistentResponse None) req
       = GenReturns (Some text)
    /\ parseResponse text = Some Samples.inconsistentValue
    /\ forall r, CompletenessResult.ofJson Samples.inconsistentValue = Some r ->
                 JSON.get Samples.inconsistentValue (lit "allProvided")
                 = Some (JBool (CompletenessResult.allProvided r)).
Proof.
  apply (@completeness_result_is_the_parsed_response
           (Samples.answering Samples.inconsistentResponse None)
           Samples.masterPdf [lit "M1_datasheet.pdf"]).
  vm_compute. reflexivity.
Defined.

(** Without datasheets the analysis ends in an error before the service is
    reached, whatever the world and the master list are. *)
Lemma analysis_without_datasheets_always_throws (w : World) (master : FileData.t) :
  exists e, fst (analyzeDatasheets master [] w) = Throw e
            /\ generateCalls (snd (analyzeDatasheets master [] w)) = [].
Proof.
  unfold analyzeDatasheets, bind, lift. rewrite requireApiKey_run.
  destruct (apiKeyMissing w); [eexists; split; reflexivity|].
  destruct (validateMimeType master) as [u|e]; [|eexists; split; reflexivity].
  cbn [validateAll].
  pose proof (getFileContentPart_calls master (lit "Master List") w) as Hc.
  destruct (getFileContentPart master (lit "Master List") w) as [[p|e] ev0];
    cbn [snd] in Hc.
  - cbn [List.length Nat.eqb throwError app fst snd].
    eexists. split; [reflexivity|]. now rewrite app_nil_r.
  - eexists. split; [reflexivity|exact Hc].
Qed.

(** C2.  With the credential configured and a master list that passes
    validation and can be read, [analyzeDatasheets] on an empty list of
    datasheets throws the input error, unwrapped, and no generation call is
    among its events.  Whatever the world and the master list are, the call
    on an empty list throws, and no generation call is among its events. *)
Theorem analysis_without_datasheets_makes_no_call
        (w : World) (master : FileData.t) (p : Part) (ev0 : list Event) :
  apiKeyMissing w = false ->
  validateMimeType master = Ok tt ->
  getFileContentPart master (lit "Master List") w = (Ok p, ev0) ->
  fst (analyzeDatasheets master [] w)
  = Throw (ErrorObj (lit "No datasheets provided for analysis."))
  /\ generateCalls (snd (analyzeDatasheets master [] w)) = []
  /\ (forall (w' : World) (master' : FileData.t),
        exists e, fst (analyzeDatasheets master' [] w') = Throw e
                  /\ generateCalls (snd (analyzeDatasheets master' [] w')) = []).
Proof.
  intros Hkey Hvalid Hread.
  assert (E : analyzeDatasheets master [] w
              = (Throw (ErrorObj (lit "No datasheets provided for analysis.")), ev0)).
  { unfold analyzeDatasheets, bind, lift.
    rewrite requireApiKey_run, Hkey, Hvalid. cbn [validateAll].
    rewrite Hread. cbn [List.length Nat.eqb throwError app].
    now rewrite app_nil_r. }
  rewrite E. cbn [fst snd]. split; [reflexivity|].
  split.
  - pose proof (getFileContentPart_calls master (lit "Master List") w) as Hc.
    now rewrite Hread in Hc.
  - apply analysis_without_datasheets_always_throws.
Qed.

Lemma analysis_without_datasheets_witness :
  fst (analyzeDatasheets Samples.masterPdf []
         (Samples.answering Samples.inconsistentResponse None))
  = Throw (ErrorObj (lit "No datasheets provided for analysis."))
  /\ generateCalls (snd (analyzeDatasheets Samples.masterPdf []
                           (Samples.answering Samples.inconsistentResponse None)))
     = [].
Proof.
  destruct (@analysis_without_datasheets_makes_no_call
              (Samples.answering Samples.inconsistentResponse None) Samples.masterPdf
              (PInline Types.PDF (lit "JVBERi0xLjQ=")) [] eq_refl eq_refl eq_refl)
    as (Hthrow & Hcalls & _).
  split; [exact Hthrow|exact Hcalls].
Defined.

End ServiceFacts.

(** ** A fenced response, end to end *)

Section FencedResponseFacts.
Import JS JSON GeminiService.

(** Two worlds on which every stage of a computation agrees. *)
Lemma bind_worlds (A B : Type) (m : M A) (k : A -> M B) (w1 w2 : World) :
  m w1 = m w2 -> (forall a, k a w1 = k a w2) -> bind m k w1 = bind m k w2.
Proof.
  intros Hm Hk. unfold bind. rewrite Hm.
  destruct (m w2) as [[a|e] ev]; [|reflexivity]. now rewrite Hk.
Qed.

Lemma getFileContentPart_replying (fd : FileData.t) (label : jsstring)
      (w : World) (t1 t2 : jsstring) :
  getFileContentPart fd label (replying w t1)
  = getFileContentPart fd label (replying w t2).
Proof. unfold getFileContentPart. now destruct (isExcel fd). Qed.

Lemma attachDatasheets_replying (datasheets : list FileData.t) (index : nat)
      (w : World) (t1 t2 : jsstring) :
  attachDatasheets datasheets index (replying w t1)
  = attachDatasheets datasheets index (replying w t2).
Proof.
  revert index. induction datasheets as [|ds rest IH]; intros index; [reflexivity|].
  cbn [attachDatasheets]. apply bind_worlds.
  - unfold datasheetParts.
    apply bind_worlds; [apply getFileContentPart_replying|reflexivity].
  - intros ps. apply bind_worlds; [apply IH|reflexivity].
Qed.

(** What the [try] block of either phase makes of a text the service
    returned. *)
Lemma reply_is_read (req : Request) (message : jsstring) (h : Thrown -> M json)
      (w : World) (text : jsstring) (v : json) :
  truthy text = true ->
  parseResponse text = Some v ->
  tryCatch
    (bind (callGenerate req)
          (fun result_text =>
             match result_text with
             | Some t => if truthy t then parseResponseM t else throwError message
             | None => throwError message
             end))
    h (replying w text)
  = (Ok v, [EvGenerate req]).
Proof.
  intros Ht Hp. unfold tryCatch, bind, callGenerate.
  cbn [generateContent replying]. rewrite Ht.
  unfold parseResponseM. now rewrite Hp.
Qed.

Lemma parse_nonempty (s : jsstring) (v : json) : parse s = Some v -> truthy s = true.
Proof. destruct s; [discriminate|reflexivity]. Qed.

(** C4.  For every valid JSON text [s]: the response that wraps [s] in a
    json code fence (an opening fence line, a closing fence line) is read as
    the same object as [s] itself, which is the object [JSON.parse] gives for
    [s]; stripping the fence changes no text that does not open one, the
    trimmed [s] among them; and either phase, run against a service that
    answers with the fenced text, ends as it does against a service that
    answers with [s]. *)
Theorem fence_stripping_preserves_parse (s t : jsstring) (v : json) :
  JSON.parse s = Some v ->
  parseResponse (fenced s) = Some v
  /\ parseResponse s = Some v
  /\ stripFence (trim s) = trim s
  /\ (startsWith t fenceOpen = false -> stripFence t = t)
  /\ (forall (w : World) (master : FileData.t) (filenames : list jsstring),
        checkFileCompleteness master filenames (replying w (fenced s))
        = checkFileCompleteness master filenames (replying w s))
  /\ (forall (w : World) (master : FileData.t) (datasheets : list FileData.t),
        analyzeDatasheets master datasheets (replying w (fenced s))
        = analyzeDatasheets master datasheets (replying w s)).
Proof.
  intros H.
  assert (Htrim : parse (trim s) = Some v) by now apply parse_trim.
  assert (Hno : stripFence (trim s) = trim s).
  { unfold stripFence. now rewrite (parse_no_fence _ Htrim). }
  assert (Hfenced : parseResponse (fenced s) = Some v).
  { unfold parseResponse. now rewrite trim_fenced, stripFence_fenced. }
  assert (Hplain : parseResponse s = Some v).
  { unfold parseResponse. now rewrite Hno. }
  assert (Hs : truthy s = true) by now apply (parse_nonempty s H).
  assert (Hf : truthy (fenced s) = true) by reflexivity.
  split; [exact Hfenced|]. split; [exact Hplain|]. split; [exact Hno|].
  split; [intros E; unfold stripFence; now rewrite E|].
  split.
  - intros w master filenames. unfold checkFileCompleteness.
    apply bind_worlds; [reflexivity|intros _].
    apply bind_worlds; [reflexivity|intros _].
    apply bind_worlds; [apply getFileContentPart_replying|intros masterContent].
    now rewrite (@reply_is_read _ _ _ w (fenced s) v Hf Hfenced),
      (@reply_is_read _ _ _ w s v Hs Hplain).
  - intros w master datasheets. unfold analyzeDatasheets.
    apply bind_worlds; [reflexivity|intros _].
    apply bind_worlds; [reflexivity|intros _].
    apply bind_worlds; [reflexivity|intros _].
    apply bind_worlds; [apply getFileContentPart_replying|intros masterContent].
    apply bind_worlds;
      [now destruct (List.length datasheets =? 0)%nat|intros _].
    apply bind_worlds; [apply attachDatasheets_replying|intros dsParts].
    now rewrite (@reply_is_read _ _ _ w (fenced s) v Hf Hfenced),
      (@reply_is_read _ _ _ w s v Hs Hplain).
Qed.

Lemma fence_stripping_witness :
  JSON.parse Samples.inconsistentResponse = Some Samples.inconsistentValue
  /\ parseResponse (fenced Samples.inconsistentResponse) = Some Samples.inconsistentValue
  /\ parseResponse Samples.inconsistentResponse = Some Samples.inconsistentValue
  /\ stripFence (lit "not fenced") = lit "not fenced".
Proof.
  assert (H : JSON.parse Samples.inconsistentResponse = Some Samples.inconsistentValue)
    by (vm_compute; reflexivity).
  split; [exact H|].
  destruct (@fence_stripping_preserves_parse Samples.inconsistentResponse
              (lit "not fenced") Samples.inconsistentValue H)
    as (Hfenced & Hplain & _ & Hnoop & _).
  split; [exact Hfenced|]. split; [exact Hplain|].
  apply Hnoop. reflexivity.
Defined.

End FencedResponseFacts.

(** ** Ingestion, validation and normalization *)

Section IngestionFacts.
Import JS JSON GeminiService.

(** The three assignments of [processFile], read from the last to the
    first. *)
Lemma processFile_type_cases (file : File.t) (base64 id : jsstring) :
  FileData.type (FileUpload.processFile file base64 id)
  = if includes (File.type file) (lit "sheet") || endsWith (File.name file) (lit ".xlsx")
    then Types.SPREADSHEET
    else if includes (File.type file) (lit "jpeg") || includes (File.type file) (lit "jpg")
    then Types.JPEG
    else if includes (File.type file) (lit "png") then Types.PNG
    else Types.PDF.
Proof.
  unfold FileUpload.processFile. cbn [FileData.type].
  destruct (includes (File.type file) (lit "sheet") || endsWith (File.name file) (lit ".xlsx"));
    [reflexivity|].
  destruct (includes (File.type file) (lit "jpeg") || includes (File.type file) (lit "jpg"));
    reflexivity.
Qed.

Lemma processFile_type_declared (file : File.t) (base64 id : jsstring) :
  In (FileData.type (FileUpload.processFile file base64 id)) Types.FileDataType.
Proof.
  rewrite processFile_type_cases. unfold Types.FileDataType.
  repeat match goal with
         | |- context [if ?b then _ else _] => destruct b
         end; cbn; tauto.
Qed.

Lemma declared_type_supported (fd : FileData.t) :
  In (FileData.type fd) Types.FileDataType -> validateMimeType fd = Ok tt.
Proof.
  unfold validateMimeType, Types.FileDataType.
  intros [<- | [<- | [<- | [<- | []]]]]; reflexivity.
Qed.

(** C6, as the code has it.  The three tests of [processFile] are separate
    statements that each overwrite the kind, so the last test that holds
    decides: a type containing sheet or a name ending in .xlsx gives
    SPREADSHEET; else a type containing jpeg or jpg gives JPEG; else a type
    containing png gives PNG; else the kind is PDF.  A type containing png
    gives PNG exactly when neither later test holds. *)
Theorem processFile_kind_last_match_wins (file : File.t) (base64 id : jsstring) :
  let ty := FileData.type (FileUpload.processFile file base64 id) in
  let sheet := includes (File.type file) (lit "sheet")
               || endsWith (File.name file) (lit ".xlsx") in
  let jpeg := includes (File.type file) (lit "jpeg")
              || includes (File.type file) (lit "jpg") in
  let png := includes (File.type file) (lit "png") in
  ty = (if sheet then Types.SPREADSHEET
        else if jpeg then Types.JPEG
        else if png then Types.PNG
        else Types.PDF)
  /\ (png = true -> (ty = Types.PNG <-> sheet = false /\ jpeg = false)).
Proof.
  cbv zeta. rewrite processFile_type_cases.
  split; [reflexivity|]. intros ->.
  destruct (includes (File.type file) (lit "sheet") || endsWith (File.name file) (lit ".xlsx"));
    destruct (includes (File.type file) (lit "jpeg") || includes (File.type file) (lit "jpg"));
    split; try tauto; try discriminate; intros [? ?]; discriminate.
Qed.

(** C6 fails as stated: a file whose media type contains png and whose name
    ends in .xlsx is classified SPREADSHEET, not PNG. *)
Lemma png_type_with_xlsx_name_is_spreadsheet :
  includes (File.type Samples.pngNamedXlsx) (lit "png") = true
  /\ FileData.type (FileUpload.processFile Samples.pngNamedXlsx (lit "iVBORw0KGgo=") (lit "p0n1g2x3l"))
     = Types.SPREADSHEET
  /\ Types.SPREADSHEET <> Types.PNG.
Proof. repeat split; try reflexivity. discriminate. Qed.

(** C10.  Whatever the browser file is, the [FileData] that [processFile]
    builds has one of the four declared values in [type], and
    [validateMimeType] accepts it, alone and in the loop over a list of
    ingested datasheets; a word-processor document and a WebP image are
    ingested as PDF. *)
Theorem ingested_files_always_pass_validation
        (file : File.t) (base64 id : jsstring)
        (files : list (File.t * jsstring * jsstring)) :
  In (FileData.type (FileUpload.processFile file base64 id))
     [Types.PDF; Types.PNG; Types.JPEG; Types.SPREADSHEET]
  /\ validateMimeType (FileUpload.processFile file base64 id) = Ok tt
  /\ validateAll (FileUpload.processFiles files) = Ok tt
  /\ FileData.type (FileUpload.processFile Samples.docxFile base64 id) = Types.PDF
  /\ FileData.type
       (FileUpload.processFile (File.mk (lit "photo.webp") (lit "image/webp")) base64 id)
     = Types.PDF.
Proof.
  split; [apply processFile_type_declared|].
  split; [apply declared_type_supported, processFile_type_declared|].
  split; [|split; reflexivity].
  induction files as [|[[f b] i] rest IH]; [reflexivity|].
  cbn [FileUpload.processFiles map validateAll fst snd].
  now rewrite (declared_type_supported _ (processFile_type_declared f b i)).
Qed.

Lemma validateAll_first_unsupported (before after : list FileData.t) (fd : FileData.t) :
  validateAll before = Ok tt ->
  validateAll (before ++ fd :: after) = validateMimeType fd \/
  exists u, validateMimeType fd = Ok u /\ validateAll (before ++ fd :: after) = validateAll after.
Proof.
  induction before as [|b before IH]; cbn [validateAll app]; intros H.
  - destruct (validateMimeType fd) as [u|e]; [right; now exists u|now left].
  - destruct (validateMimeType b); [now apply IH|discriminate].
Qed.

Lemma unsupportedMessage_names_type (ty : jsstring) :
  includes (unsupportedMessage ty) ty = true.
Proof. apply includes_segment. Qed.

(** C5, as the code has it.  A [FileData] whose [type] is none of the seven
    supported media types makes [validateMimeType] throw an error whose
    message names that type (the file name is not part of it).  Both phases
    validate before they read any file: with the credential configured they
    throw this error with no event at all, so nothing of the file is
    normalized and nothing is sent, whether the file is the master list or
    the first unsupported datasheet.  No file that [processFile] built is
    such a file: each of them passes validation.  A file whose browser type
    mentions none of png, jpeg, jpg and sheet and whose name does not end in
    .xlsx is tagged application/pdf, whatever it is; it is a workbook for
    the service exactly when its name ends in .xls, and otherwise it is
    normalized as a binary part of type application/pdf with its payload. *)
Theorem unsupported_type_rejected_before_normalization (fd : FileData.t) :
  arrayIncludes supportedTypes (FileData.type fd) = false ->
  let rejected := ErrorObj (unsupportedMessage (FileData.type fd)) in
  validateMimeType fd = Throw rejected
  /\ includes (unsupportedMessage (FileData.type fd)) (FileData.type fd) = true
  /\ (forall (w : World) (filenames : list jsstring),
        apiKeyMissing w = false ->
        checkFileCompleteness fd filenames w = (Throw rejected, []))
  /\ (forall (w : World) (datasheets : list FileData.t),
        apiKeyMissing w = false ->
        analyzeDatasheets fd datasheets w = (Throw rejected, []))
  /\ (forall (w : World) (master : FileData.t) (before after : list FileData.t),
        apiKeyMissing w = false ->
        validateMimeType master = Ok tt ->
        validateAll before = Ok tt ->
        analyzeDatasheets master (before ++ fd :: after) w = (Throw rejected, []))
  /\ (forall (file : File.t) (base64 id : jsstring),
        validateMimeType (FileUpload.processFile file base64 id) = Ok tt
        /\ FileUpload.processFile file base64 id <> fd)
  /\ (forall (file : File.t) (base64 id : jsstring),
        includes (File.type file) (lit "png") = false ->
        includes (File.type file) (lit "jpeg") = false ->
        includes (File.type file) (lit "jpg") = false ->
        includes (File.type file) (lit "sheet") = false ->
        endsWith (File.name file) (lit ".xlsx") = false ->
        FileData.type (FileUpload.processFile file base64 id) = Types.PDF
        /\ validateMimeType (FileUpload.processFile file base64 id) = Ok tt
        /\ isExcel (FileUpload.processFile file base64 id)
           = endsWith (File.name file) (lit ".xls")
        /\ (endsWith (File.name file) (lit ".xls") = false ->
            forall (label : jsstring) (w : World),
              getFileContentPart (FileUpload.processFile file base64 id) label w
              = (Ok (PInline Types.PDF base64), [])))
  /\ FileData.type Samples.docxIngested = Types.PDF
  /\ (forall (label : jsstring) (w : World),
        getFileContentPart Samples.docxIngested label w
        = (Ok (PInline Types.PDF (lit "UEsDBBQABgAI")), [])).
Proof.
  intros Hty rejected.
  assert (Hv : validateMimeType fd = Throw rejected).
  { unfold validateMimeType. now rewrite Hty. }
  split; [exact Hv|]. split; [apply unsupportedMessage_names_type|].
  split; [|split; [|split; [|split; [|split; [|split]]]]].
  - intros w filenames Hkey. unfold checkFileCompleteness, bind, lift.
    now rewrite requireApiKey_run, Hkey, Hv.
  - intros w datasheets Hkey. unfold analyzeDatasheets, bind, lift.
    now rewrite requireApiKey_run, Hkey, Hv.
  - intros w master before after Hkey Hm Hb.
    unfold analyzeDatasheets, bind, lift.
    rewrite requireApiKey_run, Hkey, Hm.
    destruct (@validateAll_first_unsupported before after fd Hb) as [E | (u & E & _)].
    + now rewrite E, Hv.
    + unfold rejected in Hv. congruence.
  - intros file base64 id.
    assert (Hok : validateMimeType (FileUpload.processFile file base64 id) = Ok tt)
      by apply declared_type_supported, processFile_type_declared.
    split; [exact Hok|]. intros E. rewrite E in Hok.
    unfold rejected in Hv. congruence.
  - intros file base64 id Hpng Hjpeg Hjpg Hsheet Hxlsx.
    assert (Hp : FileUpload.processFile file base64 id
                 = FileData.mk id file base64 Types.PDF).
    { unfold FileUpload.processFile. now rewrite Hpng, Hjpeg, Hjpg, Hsheet, Hxlsx. }
    rewrite Hp. split; [reflexivity|]. split; [reflexivity|].
    assert (Hx : isExcel (FileData.mk id file base64 Types.PDF)
                 = endsWith (File.name file) (lit ".xls")).
    { unfold isExcel. cbn [FileData.type FileData.file]. now rewrite Hxlsx. }
    split; [exact Hx|].
    intros Hxls label w. unfold getFileContentPart. now rewrite Hx, Hxls.
  - reflexivity.
  - reflexivity.
Qed.

Lemma unsupported_type_witness :
  let rejected := ErrorObj (unsupportedMessage Samples.docxType) in
  validateMimeType Samples.docxUntyped = Throw rejected
  /\ includes (unsupportedMessage Samples.docxType) Samples.docxType = true
  /\ (forall (w : World) (filenames : list jsstring),
        apiKeyMissing w = false ->
        checkFileCompleteness Samples.docxUntyped filenames w = (Throw rejected, []))
  /\ (forall (w : World) (datasheets : list FileData.t),
        apiKeyMissing w = false ->
        analyzeDatasheets Samples.docxUntyped datasheets w = (Throw rejected, []))
  /\ (forall (w : World) (master : FileData.t) (before after : list FileData.t),
        apiKeyMissing w = false ->
        validateMimeType master = Ok tt ->
        validateAll before = Ok tt ->
        analyzeDatasheets master (before ++ Samples.docxUntyped :: after) w
        = (Throw rejected, []))
  /\ (forall (file : File.t) (base64 id : jsstring),
        validateMimeType (FileUpload.processFile file base64 id) = Ok tt
        /\ FileUpload.processFile file base64 id <> Samples.docxUntyped)
  /\ FileData.type Samples.docxIngested = Types.PDF
  /\ (forall (label : jsstring) (w : World),
        getFileContentPart Samples.docxIngested label w
        = (Ok (PInline Types.PDF (lit "UEsDBBQABgAI")), [])).
Proof.
  intros rejected.
  destruct (@unsupported_type_rejected_before_normalization Samples.docxUntyped eq_refl)
    as (H1 & H2 & H3 & H4 & H5 & H6 & _ & H8 & H9).
  split; [exact H1|]. split; [exact H2|]. split; [exact H3|]. split; [exact H4|].
  split; [exact H5|]. split; [exact H6|]. split; [exact H8|exact H9].
Defined.

(** C5 fails as stated, twice.  The message of the rejection names the media
    type and not the file; and a .docx file that comes through the upload
    widget is not rejected at all: it is tagged PDF, passes validation, and
    the completeness check attaches its payload and sends it. *)
Lemma docx_is_not_rejected_by_name :
  validateMimeType Samples.docxUntyped
  = Throw (ErrorObj (unsupportedMessage Samples.docxType))
  /\ includes (unsupportedMessage Samples.docxType) (lit "report.docx") = false
  /\ arrayIncludes supportedTypes (File.type Samples.docxFile) = false
  /\ validateMimeType Samples.docxIngested = Ok tt
  /\ map parts
         (generateCalls
            (snd (checkFileCompleteness Samples.docxIngested [lit "M1_datasheet.pdf"]
                    (Samples.answering Samples.inconsistentResponse None))))
     = [[ PText (checkPrompt [lit "M1_datasheet.pdf"]);
          PText (lit "DOCUMENT: Master List Image/PDF");
          PInline Types.PDF (lit "UEsDBBQABgAI") ]].
Proof. repeat split; vm_compute; reflexivity. Qed.

End IngestionFacts.

(** ** Normalization of one file *)

Section NormalizationFacts.
Import JS JSON GeminiService.

Lemma excelText_markers (label csv : jsstring) :
  startsWith (excelText label csv) (lit "DOCUMENT_CONTENT (") = true
  /\ endsWith (excelText label csv) (lit "[End of CSV content]") = true
  /\ includes (excelText label csv) (lit "DOCUMENT_CONTENT (") = true
  /\ includes (excelText label csv) (lit "[End of CSV content]") = true
  /\ includes (excelText label csv) ([LF] ++ csv ++ [LF]) = true.
Proof.
  assert (E : excelText label csv
              = (lit "DOCUMENT_CONTENT (" ++ label ++ lit "):" ++ [LF] ++ csv ++ [LF])
                ++ lit "[End of CSV content]").
  { unfold excelText. now rewrite <- !app_assoc. }
  split; [|split; [|split; [|split]]].
  - apply startsWith_app.
  - rewrite E. apply endsWith_app.
  - apply includes_startsWith, startsWith_app.
  - rewrite E. apply includes_app_l, includes_startsWith, startsWith_refl.
  - unfold excelText.
    replace (lit "DOCUMENT_CONTENT (" ++ label ++ lit "):" ++ [LF] ++ csv ++ [LF]
             ++ lit "[End of CSV content]")
      with ((lit "DOCUMENT_CONTENT (" ++ label ++ lit "):")
            ++ ([LF] ++ csv ++ [LF]) ++ lit "[End of CSV content]")
      by now rewrite <- !app_assoc.
    apply includes_segment.
Qed.

(** C3, as the code has it.  The branch is chosen by [isExcel], which looks
    at the media type and at the file name: it holds for every file of the
    spreadsheet kind, and for a file of the PDF, PNG or JPEG kind exactly
    when its name ends in .xlsx or .xls.  When it holds and the workbook
    decodes, the result is the text part that wraps the first sheet's CSV
    between the two markers; when the workbook does not decode, the call
    throws an error that names the file.  When it does not hold, the result
    is the binary part with the file's own media type and payload. *)
Theorem getFileContentPart_follows_isExcel
        (w : World) (fd : FileData.t) (label : jsstring) :
  let name := File.name (FileData.file fd) in
  (FileData.type fd = Types.SPREADSHEET -> isExcel fd = true)
  /\ (In (FileData.type fd) [Types.PDF; Types.PNG; Types.JPEG] ->
      isExcel fd = endsWith name (lit ".xlsx") || endsWith name (lit ".xls"))
  /\ (isExcel fd = true ->
      forall csv, XLSX_firstSheetCsv w (FileData.base64 fd) = Some csv ->
        fst (getFileContentPart fd label w) = Ok (PText (excelText label csv))
        /\ startsWith (excelText label csv) (lit "DOCUMENT_CONTENT (") = true
        /\ endsWith (excelText label csv) (lit "[End of CSV content]") = true
        /\ includes (excelText label csv) (lit "DOCUMENT_CONTENT (") = true
        /\ includes (excelText label csv) (lit "[End of CSV content]") = true
        /\ includes (excelText label csv) ([LF] ++ csv ++ [LF]) = true)
  /\ (isExcel fd = true ->
      XLSX_firstSheetCsv w (FileData.base64 fd) = None ->
        fst (getFileContentPart fd label w) = Throw (ErrorObj (excelErrorMessage name))
        /\ includes (excelErrorMessage name) name = true)
  /\ (isExcel fd = false ->
      getFileContentPart fd label w
      = (Ok (PInline (FileData.type fd) (FileData.base64 fd)), [])).
Proof.
  intros name. repeat apply conj.
  - intros H. unfold isExcel. rewrite H.
    assert (E : includes Types.SPREADSHEET (lit "spreadsheet") = true) by reflexivity.
    now rewrite E.
  - unfold isExcel. fold name.
    intros [<- | [<- | [<- | []]]];
      match goal with
      | |- includes ?t ?a || includes ?t ?b || _ || _ = _ =>
          assert (Ea : includes t a = false) by reflexivity;
          assert (Eb : includes t b = false) by reflexivity;
          rewrite Ea, Eb; reflexivity
      end.
  - intros H csv Hcsv. unfold getFileContentPart. rewrite H, Hcsv.
    split; [reflexivity|apply excelText_markers].
  - intros H Hcsv. unfold getFileContentPart. rewrite H, Hcsv.
    split; [reflexivity|apply includes_segment].
  - intros H. unfold getFileContentPart. now rewrite H.
Qed.

Lemma getFileContentPart_witness :
  isExcel Samples.legacyWorkbook = true
  /\ fst (getFileContentPart Samples.legacyWorkbook (lit "Master List")
            (Samples.answering Samples.inconsistentResponse (Some Samples.sheetCsv)))
     = Ok (PText (excelText (lit "Master List") Samples.sheetCsv))
  /\ isExcel Samples.masterPdf = false
  /\ getFileContentPart Samples.masterPdf (lit "Master List")
       (Samples.answering Samples.inconsistentResponse None)
     = (Ok (PInline Types.PDF (lit "JVBERi0xLjQ=")), []).
Proof.
  split; [reflexivity|]. split.
  - apply (getFileContentPart_follows_isExcel
             (Samples.answering Samples.inconsistentResponse (Some Samples.sheetCsv))
             Samples.legacyWorkbook (lit "Master List")); reflexivity.
  - split; [reflexivity|].
    apply (getFileContentPart_follows_isExcel
             (Samples.answering Samples.inconsistentResponse None)
             Samples.masterPdf (lit "Master List")); reflexivity.
Defined.

(** C3 fails as stated, on both kinds.  A legacy workbook (.xls) is ingested
    with the PDF kind and is still normalized as text, not as a binary part;
    and a file of the spreadsheet kind whose payload is no workbook yields no
    part at all: the call throws. *)
Lemma pdf_kind_workbook_is_normalized_as_text :
  FileData.type Samples.legacyWorkbook = Types.PDF
  /\ getFileContentPart Samples.legacyWorkbook (lit "Master List")
       (Samples.answering Samples.inconsistentResponse (Some Samples.sheetCsv))
     = (Ok (PText (excelText (lit "Master List") Samples.sheetCsv)),
        [EvXlsxRead (lit "master.xls")])
  /\ FileData.type Samples.brokenWorkbook = Types.SPREADSHEET
  /\ fst (getFileContentPart Samples.brokenWorkbook (lit "Master List")
            (Samples.answering Samples.inconsistentResponse None))
     = Throw (ErrorObj (excelErrorMessage (lit "list.xlsx"))).
Proof. repeat split; vm_compute; reflexivity. Qed.

End NormalizationFacts.

(** ** The session state *)

Section SessionFacts.
Import JS JSON GeminiService App AppState.



(** What a run of a phase handler enqueues: nothing when the guard returns,
    otherwise the updater that raises the flag and the one that ends the
    phase. *)
Lemma handleCheckCompleteness_shape (w : World) (state : AppState.t) :
  (fst (handleCheckCompleteness w state) = []
   /\ (masterList state = None \/ datasheets state = []))
  \/ exists master start finish,
       masterList state = Some master
       /\ fst (handleCheckCompleteness w state) = [start; finish]
       /\ (forall prev, isChecking (start prev) = true)
       /\ (forall mid, isChecking (finish mid) = false)
       /\ ((exists res,
              fst (checkFileCompleteness master
                     (map (fun d => File.name (FileData.file d)) (datasheets state)) w)
              = Ok res
              /\ forall mid, checkResult (finish mid) = Some res)
           \/ (exists err,
                 fst (checkFileCompleteness master
                        (map (fun d => File.name (FileData.file d)) (datasheets state)) w)
                 = Throw err
                 /\ forall mid, exists m, error (finish mid) = Some m)).
Proof.
  unfold handleCheckCompleteness.
  destruct (masterList state) as [master|]; [|left; auto].
  destruct (datasheets state) as [|d ds] eqn:Hd; [left; auto|].
  right. cbn [List.length Nat.eqb].
  destruct (checkFileCompleteness master _ w) as [[res|err] ev] eqn:E;
    eexists master, _, _; (split; [reflexivity|]); (split; [reflexivity|]);
    (split; [reflexivity|]); (split; [reflexivity|]); rewrite E.
  - left. exists res. split; reflexivity.
  - right. exists err. split; [reflexivity|]. intros mid. eexists. reflexivity.
Qed.

Lemma handleAnalyze_shape (w : World) (state : AppState.t) :
  (fst (handleAnalyze w state) = []
   /\ (masterList state = None \/ datasheets state = []))
  \/ exists master start finish,
       masterList state = Some master
       /\ fst (handleAnalyze w state) = [start; finish]
       /\ (forall prev, isAnalyzing (start prev) = true)
       /\ (forall mid, isAnalyzing (finish mid) = false)
       /\ ((exists res,
              fst (analyzeDatasheets master (datasheets state) w) = Ok res
              /\ forall mid, result (finish mid) = Some res)
           \/ (exists err,
                 fst (analyzeDatasheets master (datasheets state) w) = Throw err
                 /\ forall mid, exists m, error (finish mid) = Some m)).
Proof.
  unfold handleAnalyze.
  destruct (masterList state) as [master|]; [|left; auto].
  destruct (datasheets state) as [|d ds] eqn:Hd; [left; auto|].
  right. cbn [List.length Nat.eqb].
  destruct (analyzeDatasheets master _ w) as [[res|err] ev] eqn:E;
    eexists master, _, _; (split; [reflexivity|]); (split; [reflexivity|]);
    (split; [reflexivity|]); (split; [reflexivity|]); rewrite E.
  - left. exists res. split; reflexivity.
  - right. exists err. split; [reflexivity|]. intros mid. eexists. reflexivity.
Qed.

(** C9.  Whenever a phase is run (the handler passes its guard: a master
    list and at least one datasheet), it enqueues two updaters: the first
    raises the loading flag, the last clears it whatever the state is by
    then.  After the run the flag is false, on the path that stores the
    result and on the path that stores the error. *)
Theorem loading_flags_are_cleared
        (w : World) (state s : AppState.t) (master : FileData.t) :
  masterList state = Some master ->
  datasheets state <> [] ->
  let filenames := map (fun d => File.name (FileData.file d)) (datasheets state) in
  let checked := applyAll (fst (handleCheckCompleteness w state)) s in
  let analyzed := applyAll (fst (handleAnalyze w state)) s in
  (exists start finish,
     fst (handleCheckCompleteness w state) = [start; finish]
     /\ isChecking (start s) = true
     /\ forall mid, isChecking (finish mid) = false)
  /\ isChecking checked = false
  /\ match fst (checkFileCompleteness master filenames w) with
     | Ok res => checkResult checked = Some res
     | Throw _ => exists m, error checked = Some m
     end
  /\ (exists start finish,
        fst (handleAnalyze w state) = [start; finish]
        /\ isAnalyzing (start s) = true
        /\ forall mid, isAnalyzing (finish mid) = false)
  /\ isAnalyzing analyzed = false
  /\ match fst (analyzeDatasheets master (datasheets state) w) with
     | Ok res => result analyzed = Some res
     | Throw _ => exists m, error analyzed = Some m
     end.
Proof.
  intros Hm Hd filenames checked analyzed. subst filenames checked analyzed.
  destruct (handleCheckCompleteness_shape w state)
    as [[_ [E | E]] | (m1 & start & finish & Hm1 & -> & Hs & Hf & Hpath)];
    [congruence | contradiction |].
  destruct (handleAnalyze_shape w state)
    as [[_ [E | E]] | (m2 & start' & finish' & Hm2 & -> & Hs' & Hf' & Hpath')];
    [congruence | contradiction |].
  assert (m1 = master) by congruence. assert (m2 = master) by congruence.
  subst m1 m2. cbn [applyAll fold_left].
  split; [exists start, finish; auto|]. split; [apply Hf|].
  split.
  { destruct Hpath as [(res & -> & H) | (err & -> & H)]; apply H. }
  split; [exists start', finish'; auto|]. split; [apply Hf'|].
  destruct Hpath' as [(res & -> & H) | (err & -> & H)]; apply H.
Qed.

Lemma loading_flags_witness :
  let w := Samples.answering Samples.inconsistentResponse None in
  let state := Samples.readyState in
  let s := Samples.readyState in
  let master := Samples.masterPdf in
  let filenames := map (fun d => File.name (FileData.file d)) (datasheets state) in
  let checked := applyAll (fst (handleCheckCompleteness w state)) s in
  let analyzed := applyAll (fst (handleAnalyze w state)) s in
  (exists start finish,
     fst (handleCheckCompleteness w state) = [start; finish]
     /\ isChecking (start s) = true
     /\ forall mid, isChecking (finish mid) = false)
  /\ isChecking checked = false
  /\ match fst (checkFileCompleteness master filenames w) with
     | Ok res => checkResult checked = Some res
     | Throw _ => exists m, error checked = Some m
     end
  /\ (exists start finish,
        fst (handleAnalyze w state) = [start; finish]
        /\ isAnalyzing (start s) = true
        /\ forall mid, isAnalyzing (finish mid) = false)
  /\ isAnalyzing analyzed = false
  /\ match fst (analyzeDatasheets master (datasheets state) w) with
     | Ok res => result analyzed = Some res
     | Throw _ => exists m, error analyzed = Some m
     end.
Proof.
  intros w state s master.
  apply (@loading_flags_are_cleared w state s master); [reflexivity|discriminate].
Defined.

End SessionFacts.

(** ** The CSV export *)

Section ExportFacts.
Import JS AnalysisTable Report.

Lemma specRows_length (group : ComparisonGroup.t) :
  List.length (specRows group)
  = match ComparisonGroup.specs group with
    | Some specs => List.length specs
    | None => 0%nat
    end.
Proof.
  unfold specRows. destruct (ComparisonGroup.specs group); [apply length_map|reflexivity].
Qed.

(** Reading back what the export wrote. *)
Lemma quoted_body (f acc : jsstring) (done : list jsstring) (tail : jsstring) :
  readCsv (Quoted acc) done (escapeQuotes f ++ tail)
  = readCsv (Quoted (rev f ++ acc)) done tail.
Proof.
  revert acc. induction f as [|c f IH]; intros acc; [reflexivity|].
  unfold escapeQuotes in *. cbn [flat_map rev].
  destruct (N.eqb_spec c DQUOTE) as [->|Hc].
  - cbn [app readCsv]. rewrite !N.eqb_refl.
    rewrite IH, <- app_assoc. reflexivity.
  - cbn [app readCsv]. destruct (N.eqb_spec c DQUOTE); [contradiction|].
    rewrite IH, <- app_assoc. reflexivity.
Qed.

Lemma read_quoted_last (f : jsstring) (done : list jsstring) :
  readCsv FieldStart done (quoted (escapeQuotes f)) = Some (rev (f :: done)).
Proof.
  unfold quoted. cbn [app readCsv]. rewrite N.eqb_refl.
  rewrite quoted_body. cbn [app readCsv]. rewrite !N.eqb_refl.
  now rewrite app_nil_r, rev_involutive.
Qed.


Lemma bare_spec (c : N) :
  bare c = true ->
  (c =? COMMA)%N = false /\ (c =? DQUOTE)%N = false /\ (c =? LF)%N = false
  /\ (c =? CR)%N = false.
Proof.
  unfold bare. rewrite !andb_true_iff, !negb_true_iff. tauto.
Qed.

Lemma quoted_field_body (f acc : jsstring) (fs : list jsstring)
      (rs : list (list jsstring)) (tail : jsstring) :
  readRecords (Quoted acc) fs rs (escapeQuotes f ++ tail)
  = readRecords (Quoted (rev f ++ acc)) fs rs tail.
Proof.
  revert acc. induction f as [|c f IH]; intros acc; [reflexivity|].
  unfold escapeQuotes in *. cbn [flat_map rev].
  destruct (N.eqb_spec c DQUOTE) as [->|Hc].
  - cbn [app readRecords]. rewrite !N.eqb_refl.
    rewrite IH, <- app_assoc. reflexivity.
  - cbn [app readRecords]. destruct (N.eqb_spec c DQUOTE); [contradiction|].
    rewrite IH, <- app_assoc. reflexivity.
Qed.

Lemma bare_field_body (f acc : jsstring) (fs : list jsstring)
      (rs : list (list jsstring)) (tail : jsstring) :
  forallb bare f = true ->
  readRecords (Unquoted acc) fs rs (f ++ tail)
  = readRecords (Unquoted (rev f ++ acc)) fs rs tail.
Proof.
  revert acc. induction f as [|c f IH]; intros acc H; [reflexivity|].
  cbn [forallb] in H. apply andb_true_iff in H as [Hc H].
  destruct (@bare_spec c Hc) as (H1 & H2 & H3 & H4).
  cbn [app readRecords rev]. rewrite H1, H2, H3, H4, IH by assumption.
  now rewrite <- app_assoc.
Qed.

Lemma read_cell (c : Cell) (fs : list jsstring) (rs : list (list jsstring))
      (tail : jsstring) :
  wellWritten c = true ->
  endsField tail ->
  readRecords FieldStart fs rs (written c ++ tail) = afterField fs rs (snd c) tail.
Proof.
  destruct c as [[|] f]; unfold wellWritten, written; cbn [fst snd orb]; intros Hw Ht.
  - unfold quoted. cbn [app readRecords]. rewrite N.eqb_refl.
    rewrite <- app_assoc, quoted_field_body, app_nil_r. cbn [app readRecords].
    rewrite N.eqb_refl.
    destruct tail as [|d t]; cbn [readRecords afterField];
      [now rewrite rev_involutive|].
    destruct Ht as [-> | ->].
    + change (COMMA =? DQUOTE)%N with false. rewrite N.eqb_refl.
      now rewrite rev_involutive.
    + change (LF =? DQUOTE)%N with false. change (LF =? COMMA)%N with false.
      rewrite N.eqb_refl. now rewrite rev_involutive.
  - destruct f as [|c f].
    + destruct tail as [|d t]; cbn [app readRecords afterField]; [reflexivity|].
      destruct Ht as [-> | ->].
      * change (COMMA =? DQUOTE)%N with false. now rewrite N.eqb_refl.
      * change (LF =? DQUOTE)%N with false. change (LF =? COMMA)%N with false.
        now rewrite N.eqb_refl.
    + cbn [forallb] in Hw. apply andb_true_iff in Hw as [Hc Hf].
      destruct (@bare_spec c Hc) as (H1 & H2 & H3 & H4).
      cbn [app readRecords]. rewrite H1, H2, H3, H4.
      rewrite bare_field_body by assumption.
      destruct tail as [|d t]; cbn [readRecords afterField].
      * now rewrite rev_app_distr, rev_involutive.
      * destruct Ht as [-> | ->].
        -- rewrite N.eqb_refl. now rewrite rev_app_distr, rev_involutive.
        -- change (LF =? COMMA)%N with false. rewrite N.eqb_refl.
           now rewrite rev_app_distr, rev_involutive.
Qed.

(** The reader behind a row of well-written cells. *)
Lemma read_row (cells : list Cell) (fs : list jsstring) (rs : list (list jsstring))
      (tail : jsstring) :
  cells <> [] ->
  forallb wellWritten cells = true ->
  endsRecord tail ->
  readRecords FieldStart fs rs (rowText cells ++ tail)
  = match tail with
    | [] => Some (rev (rev (rev (map snd cells) ++ fs) :: rs))
    | _ :: t => readRecords FieldStart [] (rev (rev (map snd cells) ++ fs) :: rs) t
    end.
Proof.
  unfold rowText. change (lit ",") with [COMMA].
  revert fs. induction cells as [|c cells IH]; intros fs Hne Hall Ht; [contradiction|].
  cbn [forallb] in Hall. apply andb_true_iff in Hall as [Hc Hall].
  destruct cells as [|d rest].
  - cbn [map join]. rewrite read_cell; [|assumption|].
    + destruct tail as [|e t]; cbn [afterField rev app]; [reflexivity|].
      cbn [endsRecord] in Ht. subst e. change (LF =? COMMA)%N with false.
      reflexivity.
    + destruct tail; [exact I|right; exact Ht].
  - change (join [COMMA] (map written (c :: d :: rest)))
      with (written c ++ [COMMA] ++ join [COMMA] (map written (d :: rest))).
    rewrite <- !app_assoc. rewrite read_cell; [|assumption|left; reflexivity].
    cbn [app afterField]. rewrite N.eqb_refl.
    rewrite IH by (assumption || discriminate).
    cbn [map rev]. rewrite <- !app_assoc. reflexivity.
Qed.


Lemma escapeQuotes_bare (s : jsstring) : forallb bare s = true -> escapeQuotes s = s.
Proof.
  induction s as [|c s IH]; [reflexivity|]. cbn [forallb]. intros H.
  apply andb_true_iff in H as [Hc H].
  destruct (@bare_spec c Hc) as (_ & Hq & _).
  unfold escapeQuotes in *. cbn [flat_map]. rewrite Hq. cbn [app]. now rewrite IH.
Qed.

Lemma escapeQuotes_append (a b : jsstring) :
  escapeQuotes (a ++ b) = escapeQuotes a ++ escapeQuotes b.
Proof. apply flat_map_app. Qed.

Lemma getGroupLabel_bare (index : nat) :
  (N.of_nat index < 65481)%N -> forallb bare (getGroupLabel index) = true.
Proof.
  intros H. unfold getGroupLabel, fromCharCode. cbn [forallb]. rewrite andb_true_r.
  assert (Hc : ((65 + N.of_nat index) mod 65536
                = if N.of_nat index <? 65471 then 65 + N.of_nat index
                  else 65 + N.of_nat index - 65536)%N).
  { destruct (N.ltb_spec (N.of_nat index) 65471).
    - apply N.mod_small. lia.
    - symmetry. apply (N.mod_unique _ _ 1); lia. }
  rewrite Hc. unfold bare, COMMA, DQUOTE, LF, CR.
  destruct (N.ltb_spec (N.of_nat index) 65471);
    rewrite !andb_true_iff, !negb_true_iff, !N.eqb_neq; lia.
Qed.








Lemma headerCells_fields (group : ComparisonGroup.t) (index : nat) :
  forallb bare (getGroupLabel index) = true ->
  bareNames group = true ->
  headerCells group index = headerFields group index
  /\ forallb (forallb bare) (headerFields group index) = true.
Proof.
  intros Hl Hn. unfold bareNames in Hn.
  apply andb_true_iff in Hn as [Hn HC]. apply andb_true_iff in Hn as [HA HB].
  unfold headerCells, headerFields.
  rewrite !escapeQuotes_bare by assumption. split; [reflexivity|].
  cbn [forallb]. rewrite !forallb_app, Hl, HA, HB, HC. reflexivity.
Qed.











End ExportFacts.

(** ** The two phases, from the first check to the reply *)

Section PhaseFacts.
Import JS JSON GeminiService Trace Phase.

Lemma bind_inv (A B : Type) (m : M A) (k : A -> M B) (w : World)
      (r : Outcome B) (ev : list Event) :
  bind m k w = (r, ev) ->
  (exists e, m w = (Throw e, ev) /\ r = Throw e)
  \/ (exists a ev1 ev2, m w = (Ok a, ev1) /\ k a w = (r, ev2) /\ ev = ev1 ++ ev2).
Proof.
  unfold bind. destruct (m w) as [[a|e] ev1].
  - destruct (k a w) as [r' ev2] eqn:E. intros [= <- <-].
    right. now exists a, ev1, ev2.
  - intros [= <- <-]. left. now exists e.
Qed.

(** What the [try] block of either phase does with the service's answer. *)
Lemma tryBlock_run (req : Request) (prefix message : jsstring) (w : World) :
  tryCatch
    (bind (callGenerate req)
          (fun result_text =>
             match result_text with
             | Some t => if truthy t then parseResponseM t else throwError message
             | None => throwError message
             end))
    (fun e => throwError (prefix ++ messageOf e)) w
  = (outcome prefix message w (generateContent w req), [EvGenerate req]).
Proof.
  unfold tryCatch, bind, callGenerate, throwError, parseResponseM, outcome.
  destruct (generateContent w req) as [e|[t|]]; try reflexivity.
  destruct (truthy t); [|reflexivity].
  destruct (parseResponse t); reflexivity.
Qed.

Lemma outcome_throw (prefix missing : jsstring) (w : World) (answer : GenResult)
      (e : Thrown) :
  outcome prefix missing w answer = Throw e -> exists m, e = ErrorObj (prefix ++ m).
Proof.
  unfold outcome. destruct answer as [e'|[t|]].
  - intros [= <-]. now eexists.
  - destruct (truthy t); [destruct (parseResponse t); [discriminate|]|];
      intros [= <-]; now eexists.
  - intros [= <-]. now eexists.
Qed.

Lemma getFileContentPart_cases (fd : FileData.t) (label : jsstring) (w : World) :
  (isExcel fd = true
   /\ snd (getFileContentPart fd label w) = [EvXlsxRead (File.name (FileData.file fd))]
   /\ ((exists csv, XLSX_firstSheetCsv w (FileData.base64 fd) = Some csv
                    /\ fst (getFileContentPart fd label w) = Ok (PText (excelText label csv)))
       \/ (XLSX_firstSheetCsv w (FileData.base64 fd) = None
           /\ fst (getFileContentPart fd label w)
              = Throw (ErrorObj (excelErrorMessage (File.name (FileData.file fd)))))))
  \/ (isExcel fd = false
      /\ getFileContentPart fd label w
         = (Ok (PInline (FileData.type fd) (FileData.base64 fd)), [])).
Proof.
  unfold getFileContentPart. destruct (isExcel fd); [left|right; auto].
  split; [reflexivity|].
  destruct (XLSX_firstSheetCsv w (FileData.base64 fd)) as [csv|]; split; try reflexivity.
  - left. now exists csv.
  - right. auto.
Qed.

Lemma excelText_truthy (label csv : jsstring) : truthy (excelText label csv) = true.
Proof. reflexivity. Qed.

Lemma generateCalls_getFileContentPart (fd : FileData.t) (label : jsstring) (w : World)
      (r : Outcome Part) (ev : list Event) :
  getFileContentPart fd label w = (r, ev) -> generateCalls ev = [].
Proof.
  intros H. pose proof (getFileContentPart_calls fd label w) as Hc.
  now rewrite H in Hc.
Qed.

(** The parts one datasheet adds. *)
Lemma datasheetParts_cases (ds : FileData.t) (index : nat) (w : World) :
  let name := File.name (FileData.file ds) in
  (isExcel ds = true
   /\ ((exists csv, XLSX_firstSheetCsv w (FileData.base64 ds) = Some csv
                    /\ exists text, datasheetParts ds index w
                                    = (Ok [PText text], [EvXlsxRead name]))
       \/ (XLSX_firstSheetCsv w (FileData.base64 ds) = None
           /\ datasheetParts ds index w
              = (Throw (ErrorObj (excelErrorMessage name)), [EvXlsxRead name]))))
  \/ (isExcel ds = false
      /\ exists label, datasheetParts ds index w
                       = (Ok [PText label; PInline (FileData.type ds) (FileData.base64 ds)], [])).
Proof.
  intros name. unfold datasheetParts, bind, getFileContentPart. fold name.
  destruct (isExcel ds); [left|right]; (split; [reflexivity|]).
  - destruct (XLSX_firstSheetCsv w (FileData.base64 ds)) as [csv|]; [left|right].
    + exists csv. split; [reflexivity|]. eexists. reflexivity.
    + split; reflexivity.
  - eexists. reflexivity.
Qed.

Lemma attachDatasheets_run (datasheets : list FileData.t) (index : nat) (w : World) :
  generateCalls (snd (attachDatasheets datasheets index w)) = []
  /\ match fst (attachDatasheets datasheets index w) with
     | Ok ps =>
         inlineParts ps
         = map (fun fd => (FileData.type fd, FileData.base64 fd))
               (filter (fun fd => negb (isExcel fd)) datasheets)
         /\ xlsxReads (snd (attachDatasheets datasheets index w))
            = map (fun fd => File.name (FileData.file fd)) (filter isExcel datasheets)
         /\ Forall (fun fd => isExcel fd = true ->
                              XLSX_firstSheetCsv w (FileData.base64 fd) <> None) datasheets
     | Throw e =>
         exists fd, In fd datasheets /\ isExcel fd = true
                    /\ XLSX_firstSheetCsv w (FileData.base64 fd) = None
                    /\ e = ErrorObj (excelErrorMessage (File.name (FileData.file fd)))
     end.
Proof.
  revert index. induction datasheets as [|ds rest IH]; intros index.
  - cbn. repeat split; constructor.
  - cbn [attachDatasheets]. specialize (IH (S index)).
    unfold bind.
    destruct (datasheetParts_cases ds index w)
      as [[Hx [(csv & Hcsv & text & ->) | [Hnone ->]]] | [Hx (label & ->)]].
    + destruct (attachDatasheets rest (S index) w) as [[qs|e] ev2].
      * cbn [fst snd ret app] in *. destruct IH as (Hc & Hin & Hr & Hall).
        cbn [filter]. rewrite Hx. cbn [negb map flat_map app inlineParts generateCalls xlsxReads].
        rewrite app_nil_r. fold (generateCalls ev2). fold (xlsxReads ev2).
        repeat split; try assumption.
        -- now rewrite Hr.
        -- constructor; [congruence|assumption].
      * cbn [fst snd app] in *. destruct IH as (Hc & fd & Hin & Hfx & Hn & ->).
        split; [exact Hc|]. exists fd. repeat split; auto. now right.
    + cbn [fst snd]. split; [reflexivity|].
      exists ds. repeat split; auto. now left.
    + destruct (attachDatasheets rest (S index) w) as [[qs|e] ev2].
      * cbn [fst snd ret app] in *. destruct IH as (Hc & Hin & Hr & Hall).
        cbn [filter]. rewrite Hx. cbn [negb map flat_map app inlineParts].
        rewrite app_nil_r.
        repeat split; try assumption.
        -- unfold inlineParts in Hin. now rewrite Hin.
        -- constructor; [congruence|assumption].
      * cbn [fst snd app] in *. destruct IH as (Hc & fd & Hin & Hfx & Hn & ->).
        split; [exact Hc|]. exists fd. repeat split; auto. now right.
Qed.

Lemma validateMimeType_throw (fd : FileData.t) (e : Thrown) :
  validateMimeType fd = Throw e ->
  arrayIncludes supportedTypes (FileData.type fd) = false
  /\ e = ErrorObj (unsupportedMessage (FileData.type fd)).
Proof.
  unfold validateMimeType.
  destruct (arrayIncludes supportedTypes (FileData.type fd)); [discriminate|].
  now intros [= <-].
Qed.

Lemma validateAll_throw (datasheets : list FileData.t) (e : Thrown) :
  validateAll datasheets = Throw e ->
  exists fd, In fd datasheets
             /\ arrayIncludes supportedTypes (FileData.type fd) = false
             /\ e = ErrorObj (unsupportedMessage (FileData.type fd)).
Proof.
  induction datasheets as [|ds rest IH]; [discriminate|].
  cbn [validateAll]. destruct (validateMimeType ds) as [u|e'] eqn:E.
  - intros H. destruct (IH H) as (fd & Hin & Hfd). exists fd. split; [now right|exact Hfd].
  - intros [= <-]. apply validateMimeType_throw in E. exists ds. split; [now left|exact E].
Qed.

(** Where a run of the analysis can end. *)
Lemma analyzeDatasheets_inv (w : World) (master : FileData.t)
      (datasheets : list FileData.t) (r : Outcome json) (ev : list Event) :
  analyzeDatasheets master datasheets w = (r, ev) ->
  (generateCalls ev = []
   /\ exists m, r = Throw (ErrorObj m)
      /\ ((m = analysisKeyMessage /\ apiKeyMissing w = true)
          \/ (exists fd, In fd (master :: datasheets)
                         /\ arrayIncludes supportedTypes (FileData.type fd) = false
                         /\ m = unsupportedMessage (FileData.type fd))
          \/ (exists fd, In fd (master :: datasheets) /\ isExcel fd = true
                         /\ XLSX_firstSheetCsv w (FileData.base64 fd) = None
                         /\ m = excelErrorMessage (File.name (FileData.file fd)))
          \/ (m = noDatasheetsMessage /\ datasheets = [])))
  \/ (apiKeyMissing w = false /\ datasheets <> []
      /\ exists mc ev0 ps ev1 req,
           getFileContentPart master (lit "Master List") w = (Ok mc, ev0)
           /\ attachDatasheets datasheets 0 w = (Ok ps, ev1)
           /\ ev = ev0 ++ ev1 ++ [EvGenerate req]
           /\ req = analysisRequest (map (fun d => File.name (FileData.file d)) datasheets)
                                    mc ps
           /\ r = outcome (lit "AI Analysis Failed: ") (lit "No response from AI.") w
                         (generateContent w req)).
Proof.
  unfold analyzeDatasheets. intros H.
  apply bind_inv in H as [(e & H1 & ->) | (u1 & ev1 & eva & H1 & H & ->)];
    rewrite requireApiKey_run in H1;
    destruct (apiKeyMissing w) eqn:Hkey; try discriminate.
  { injection H1 as <- <-. left. split; [reflexivity|].
    eexists. split; [reflexivity|]. left. auto. }
  injection H1 as _ <-.
  apply bind_inv in H as [(e & H2 & ->) | (u2 & ev2 & evb & H2 & H & ->)];
    unfold lift in H2.
  { injection H2 as H2 <-. apply validateMimeType_throw in H2 as [Hty ->].
    left. split; [reflexivity|]. eexists. split; [reflexivity|].
    right. left. exists master. split; [now left|auto]. }
  injection H2 as Hvm <-.
  apply bind_inv in H as [(e & H3 & ->) | (u3 & ev3 & evc & H3 & H & ->)];
    unfold lift in H3.
  { injection H3 as H3 <-. apply validateAll_throw in H3 as (fd & Hin & Hty & ->).
    left. split; [reflexivity|]. eexists. split; [reflexivity|].
    right. left. exists fd. split; [now right|auto]. }
  injection H3 as Hva <-.
  apply bind_inv in H as [(e & H4 & ->) | (mc & ev0 & evd & H4 & H & ->)].
  { left. split; [cbn [app]; exact (@generateCalls_getFileContentPart _ _ _ _ _ H4)|].
    destruct (getFileContentPart_cases master (lit "Master List") w)
      as [(Hx & _ & [(csv & _ & Hf) | (Hn & Hf)]) | (_ & Hf)];
      rewrite H4 in Hf; cbn [fst] in Hf; try discriminate.
    injection Hf as ->. eexists. split; [reflexivity|].
    right. right. left. exists master. split; [now left|auto]. }
  pose proof (@generateCalls_getFileContentPart _ _ _ _ _ H4) as Hc0.
  apply bind_inv in H as [(e & H5 & ->) | (u5 & ev5 & eve & H5 & H & ->)].
  { destruct datasheets as [|d rest]; [|discriminate].
    cbn in H5. injection H5 as <- <-.
    left. split; [cbn [app]; now rewrite app_nil_r|].
    eexists. split; [reflexivity|]. right. right. right. auto. }
  assert (Hne : datasheets <> []).
  { destruct datasheets; [discriminate|discriminate]. }
  assert (ev5 = []) as ->.
  { destruct datasheets; [discriminate|]. cbn in H5. now injection H5. }
  pose proof (attachDatasheets_run datasheets 0 w) as [Hca Hrun].
  apply bind_inv in H as [(e & H6 & ->) | (ps & ev6 & evf & H6 & H & ->)].
  { rewrite H6 in Hca, Hrun. cbn [fst snd] in Hca, Hrun.
    destruct Hrun as (fd & Hin & Hx & Hn & ->).
    left. split.
    - cbn [app]. now rewrite generateCalls_app, Hc0, Hca.
    - eexists. split; [reflexivity|]. right. right. left.
      exists fd. split; [now right|auto]. }
  right. split; [reflexivity|]. split; [exact Hne|].
  rewrite tryBlock_run in H. injection H as <- <-.
  eexists mc, ev0, ps, ev6, _. split; [exact H4|]. split; [exact H6|].
  split; [reflexivity|]. split; [reflexivity|]. reflexivity.
Qed.

(** Where a run of the completeness check can end. *)
Lemma checkFileCompleteness_inv (w : World) (master : FileData.t)
      (filenames : list jsstring) (r : Outcome json) (ev : list Event) :
  checkFileCompleteness master filenames w = (r, ev) ->
  (generateCalls ev = []
   /\ exists m, r = Throw (ErrorObj m)
      /\ ((m = checkKeyMessage /\ apiKeyMissing w = true)
          \/ (arrayIncludes supportedTypes (FileData.type master) = false
              /\ m = unsupportedMessage (FileData.type master))
          \/ (isExcel master = true
              /\ XLSX_firstSheetCsv w (FileData.base64 master) = None
              /\ m = excelErrorMessage (File.name (FileData.file master)))))
  \/ (apiKeyMissing w = false
      /\ exists mc ev0 req,
           getFileContentPart master (lit "Master List") w = (Ok mc, ev0)
           /\ ev = ev0 ++ [EvGenerate req]
           /\ req = checkRequest filenames mc
           /\ r = outcome (lit "Check Failed: ") (lit "No response from AI check.") w
                         (generateContent w req)).
Proof.
  unfold checkFileCompleteness. intros H.
  apply bind_inv in H as [(e & H1 & ->) | (u1 & ev1 & eva & H1 & H & ->)];
    rewrite requireApiKey_run in H1;
    destruct (apiKeyMissing w) eqn:Hkey; try discriminate.
  { injection H1 as <- <-. left. split; [reflexivity|].
    eexists. split; [reflexivity|]. left. auto. }
  injection H1 as _ <-.
  apply bind_inv in H as [(e & H2 & ->) | (u2 & ev2 & evb & H2 & H & ->)];
    unfold lift in H2.
  { injection H2 as H2 <-. apply validateMimeType_throw in H2 as [Hty ->].
    left. split; [reflexivity|]. eexists. split; [reflexivity|]. right. left. auto. }
  injection H2 as Hvm <-.
  apply bind_inv in H as [(e & H4 & ->) | (mc & ev0 & evd & H4 & H & ->)].
  { left. split; [cbn [app]; exact (@generateCalls_getFileContentPart _ _ _ _ _ H4)|].
    destruct (getFileContentPart_cases master (lit "Master List") w)
      as [(Hx & _ & [(csv & _ & Hf) | (Hn & Hf)]) | (_ & Hf)];
      rewrite H4 in Hf; cbn [fst] in Hf; try discriminate.
    injection Hf as ->. eexists. split; [reflexivity|]. right. right. auto. }
  right. split; [reflexivity|].
  rewrite tryBlock_run in H. injection H as <- <-.
  eexists mc, ev0, _. split; [exact H4|].
  split; [reflexivity|]. split; reflexivity.
Qed.

Lemma generateCalls_snoc (ev : list Event) (req : Request) :
  generateCalls ev = [] -> generateCalls (ev ++ [EvGenerate req]) = [req].
Proof. intros H. now rewrite generateCalls_app, H. Qed.

Lemma check_calls (w : World) (master : FileData.t) (filenames : list jsstring)
      (r : Outcome json) (ev : list Event) :
  checkFileCompleteness master filenames w = (r, ev) ->
  (generateCalls ev = [] /\ exists m, r = Throw (ErrorObj m))
  \/ exists req, generateCalls ev = [req].
Proof.
  intros E. apply checkFileCompleteness_inv in E
    as [(Hc & m & -> & _) | (_ & mc & ev0 & req & Hread & -> & _ & Hr)].
  - left. split; [exact Hc|now exists m].
  - right. exists req. apply generateCalls_snoc.
    exact (@generateCalls_getFileContentPart _ _ _ _ _ Hread).
Qed.

Lemma analysis_calls (w : World) (master : FileData.t) (datasheets : list FileData.t)
      (r : Outcome json) (ev : list Event) :
  analyzeDatasheets master datasheets w = (r, ev) ->
  (generateCalls ev = [] /\ exists m, r = Throw (ErrorObj m))
  \/ exists req, generateCalls ev = [req].
Proof.
  intros E. apply analyzeDatasheets_inv in E
    as [(Hc & m & -> & _)
       | (_ & _ & mc & ev0 & ps & ev1 & req & Hread & Hatt & -> & _ & Hr)].
  - left. split; [exact Hc|now exists m].
  - right. exists req. rewrite app_assoc. apply generateCalls_snoc.
    rewrite generateCalls_app, (@generateCalls_getFileContentPart _ _ _ _ _ Hread).
    pose proof (attachDatasheets_run datasheets 0 w) as [Hca _].
    now rewrite Hatt in Hca.
Qed.

(** X1.  Neither phase calls the generation service more than once in a run, and a
    run that returns a result has called it exactly once: there is no retry
    and no second request. *)
Theorem at_most_one_generation_call
        (w : World) (master : FileData.t) (filenames : list jsstring)
        (datasheets : list FileData.t) :
  let check := checkFileCompleteness master filenames w in
  let analysis := analyzeDatasheets master datasheets w in
  (List.length (generateCalls (snd check)) <= 1)%nat
  /\ (List.length (generateCalls (snd analysis)) <= 1)%nat
  /\ (forall v, fst check = Ok v -> List.length (generateCalls (snd check)) = 1%nat)
  /\ (forall v, fst analysis = Ok v -> List.length (generateCalls (snd analysis)) = 1%nat).
Proof.
  intros check analysis. subst check analysis.
  destruct (checkFileCompleteness master filenames w) as [r ev] eqn:E.
  destruct (analyzeDatasheets master datasheets w) as [r' ev'] eqn:E'.
  cbn [fst snd].
  apply check_calls in E as [(Hc & m & ->) | (req & Hc)];
    apply analysis_calls in E' as [(Hc' & m' & ->) | (req' & Hc')];
    rewrite Hc, Hc'; cbn [List.length];
    repeat split; try lia; intros v Hv; discriminate.
Qed.

(** X2.  Without a credential (the variable unset or empty) both phases stop at
    their first statement: each throws its own message, no workbook is read
    and nothing is sent, whatever the files are. *)
Theorem missing_api_key_stops_both_phases
        (w : World) (master : FileData.t) (filenames : list jsstring)
        (datasheets : list FileData.t) :
  API_KEY w = None \/ API_KEY w = Some [] ->
  checkFileCompleteness master filenames w
  = (Throw (ErrorObj (lit "API Key missing")), [])
  /\ analyzeDatasheets master datasheets w
     = (Throw (ErrorObj (lit "API Key is missing. Please check your environment configuration.")),
        []).
Proof.
  intros H.
  assert (Hkey : apiKeyMissing w = true).
  { unfold apiKeyMissing. destruct H as [-> | ->]; reflexivity. }
  unfold checkFileCompleteness, analyzeDatasheets, bind.
  now rewrite !requireApiKey_run, Hkey.
Qed.

Lemma missing_api_key_witness :
  checkFileCompleteness Samples.masterPdf [] Scenarios.noCredential
  = (Throw (ErrorObj (lit "API Key missing")), [])
  /\ analyzeDatasheets Samples.masterPdf [Samples.datasheetPdf] Scenarios.noCredential
     = (Throw (ErrorObj (lit "API Key is missing. Please check your environment configuration.")),
        []).
Proof.
  apply (@missing_api_key_stops_both_phases Scenarios.noCredential Samples.masterPdf []
           [Samples.datasheetPdf]).
  left. reflexivity.
Defined.

(** X3.  Whatever a phase throws is an Error with a message, and the message
    starts with the prefix of the phase (Check Failed or AI Analysis Failed)
    exactly when the service was called: the errors raised before the call
    leave the function as they are, every error raised after it is rewrapped
    by the handler. *)
Theorem failures_carry_an_error_message
        (w : World) (master : FileData.t) (filenames : list jsstring)
        (datasheets : list FileData.t) (e : Thrown) :
  let check := checkFileCompleteness master filenames w in
  let analysis := analyzeDatasheets master datasheets w in
  (fst check = Throw e ->
   exists m, e = ErrorObj m
             /\ (startsWith m (lit "Check Failed: ") = true
                 <-> generateCalls (snd check) <> []))
  /\ (fst analysis = Throw e ->
      exists m, e = ErrorObj m
                /\ (startsWith m (lit "AI Analysis Failed: ") = true
                    <-> generateCalls (snd analysis) <> [])).
Proof.
  intros check analysis. subst check analysis. split.
  - destruct (checkFileCompleteness master filenames w) as [r ev] eqn:E.
    cbn [fst snd]. intros ->.
    pose proof E as Hcalls. apply check_calls in Hcalls.
    apply checkFileCompleteness_inv in E
      as [(Hc & m & [= ->] & Hm) | (_ & mc & ev0 & req & Hread & -> & _ & Hr)].
    + exists m. split; [reflexivity|]. rewrite Hc.
      split; [|congruence]. intros Hs. exfalso.
      destruct Hm as [[-> _] | [[_ ->] | (_ & _ & ->)]]; discriminate Hs.
    + symmetry in Hr. apply outcome_throw in Hr as [m ->].
      eexists. split; [reflexivity|].
      split; [intros _|intros _; apply startsWith_app].
      destruct Hcalls as [(Hc & _) | (req' & ->)]; [|discriminate].
      rewrite generateCalls_app in Hc. destruct (generateCalls ev0); discriminate.
  - destruct (analyzeDatasheets master datasheets w) as [r ev] eqn:E.
    cbn [fst snd]. intros ->.
    pose proof E as Hcalls. apply analysis_calls in Hcalls.
    apply analyzeDatasheets_inv in E
      as [(Hc & m & [= ->] & Hm)
         | (_ & _ & mc & ev0 & ps & ev1 & req & Hread & Hatt & -> & _ & Hr)].
    + exists m. split; [reflexivity|]. rewrite Hc.
      split; [|congruence]. intros Hs. exfalso.
      destruct Hm as [[-> _] | [(fd & _ & _ & ->) | [(fd & _ & _ & _ & ->) | [-> _]]]];
        discriminate Hs.
    + symmetry in Hr. apply outcome_throw in Hr as [m ->].
      eexists. split; [reflexivity|].
      split; [intros _|intros _; apply startsWith_app].
      destruct Hcalls as [(Hc & _) | (req' & ->)]; [|discriminate].
      rewrite !generateCalls_app in Hc.
      destruct (generateCalls ev0); [|discriminate].
      destruct (generateCalls ev1); discriminate.
Qed.

Lemma truthy_nonempty (t : jsstring) : truthy t = true <-> t <> [].
Proof. destruct t; cbn; split; congruence. Qed.

Lemma outcome_ok (prefix missing : jsstring) (w : World) (answer : GenResult) (v : json) :
  outcome prefix missing w answer = Ok v
  <-> exists t, answer = GenReturns (Some t) /\ t <> [] /\ parseResponse t = Some v.
Proof.
  unfold outcome. split.
  - destruct answer as [e|[t|]]; try discriminate.
    destruct (truthy t) eqn:Ht; [|discriminate].
    destruct (parseResponse t) as [v'|] eqn:Hp; [|discriminate].
    intros [= ->]. exists t. split; [reflexivity|]. split; [|exact Hp].
    now apply truthy_nonempty.
  - intros (t & -> & Ht & Hp). apply truthy_nonempty in Ht. now rewrite Ht, Hp.
Qed.

Lemma outcome_cases (prefix missing : jsstring) (w : World) (answer : GenResult)
      (e : Thrown) :
  outcome prefix missing w answer = Throw e ->
  exists m, e = ErrorObj (prefix ++ m)
            /\ ((exists e', answer = GenThrows e' /\ m = messageOf e')
                \/ ((answer = GenReturns None \/ answer = GenReturns (Some []))
                    /\ m = missing)
                \/ (exists t, answer = GenReturns (Some t) /\ parseResponse t = None
                              /\ m = syntaxErrorMessage w (stripFence (trim t)))).
Proof.
  unfold outcome. destruct answer as [e'|[t|]].
  - intros [= <-]. eexists. split; [reflexivity|]. left. now exists e'.
  - destruct t as [|c t]; cbn [truthy].
    + intros [= <-]. eexists. split; [reflexivity|]. right. left. auto.
    + destruct (parseResponse (c :: t)) eqn:Hp; [discriminate|].
      intros [= <-]. eexists. split; [reflexivity|]. right. right.
      exists (c :: t). auto.
  - intros [= <-]. eexists. split; [reflexivity|]. right. left. auto.
Qed.

(** After the master list has been read, the check makes its one call. *)
Lemma check_after_call (w : World) (master : FileData.t) (filenames : list jsstring)
      (req : Request) :
  generateCalls (snd (checkFileCompleteness master filenames w)) = [req] ->
  fst (checkFileCompleteness master filenames w)
  = outcome (lit "Check Failed: ") (lit "No response from AI check.") w
            (generateContent w req).
Proof.
  destruct (checkFileCompleteness master filenames w) as [r ev] eqn:E. cbn [fst snd].
  intros Hc.
  apply checkFileCompleteness_inv in E
    as [(Hc' & _) | (_ & mc & ev0 & req' & Hread & -> & _ & ->)].
  - rewrite Hc' in Hc. discriminate.
  - rewrite (@generateCalls_snoc ev0 req'
               (@generateCalls_getFileContentPart _ _ _ _ _ Hread)) in Hc.
    now injection Hc as ->.
Qed.

Lemma analysis_after_call (w : World) (master : FileData.t)
      (datasheets : list FileData.t) (req : Request) :
  generateCalls (snd (analyzeDatasheets master datasheets w)) = [req] ->
  fst (analyzeDatasheets master datasheets w)
  = outcome (lit "AI Analysis Failed: ") (lit "No response from AI.") w
            (generateContent w req).
Proof.
  destruct (analyzeDatasheets master datasheets w) as [r ev] eqn:E. cbn [fst snd].
  intros Hc.
  apply analyzeDatasheets_inv in E
    as [(Hc' & _)
       | (_ & _ & mc & ev0 & ps & ev1 & req' & Hread & Hatt & -> & _ & ->)].
  - rewrite Hc' in Hc. discriminate.
  - rewrite app_assoc in Hc.
    rewrite (@generateCalls_snoc (ev0 ++ ev1) req') in Hc.
    + now injection Hc as ->.
    + rewrite generateCalls_app, (@generateCalls_getFileContentPart _ _ _ _ _ Hread).
      pose proof (attachDatasheets_run datasheets 0 w) as [Hca _].
      now rewrite Hatt in Hca.
Qed.

(** X4.  A phase returns a value only as the parse of the reply to its one call: it
    returns [v] exactly when it made a call and the service answered it with
    a non-empty text that reads, fence stripped, as [v]. *)
Theorem a_result_needs_a_parsable_reply
        (w : World) (master : FileData.t) (filenames : list jsstring)
        (datasheets : list FileData.t) (v : json) :
  let check := checkFileCompleteness master filenames w in
  let analysis := analyzeDatasheets master datasheets w in
  (fst check = Ok v
   <-> exists req t, generateCalls (snd check) = [req]
                     /\ generateContent w req = GenReturns (Some t)
                     /\ t <> [] /\ parseResponse t = Some v)
  /\ (fst analysis = Ok v
      <-> exists req t, generateCalls (snd analysis) = [req]
                        /\ generateContent w req = GenReturns (Some t)
                        /\ t <> [] /\ parseResponse t = Some v).
Proof.
  intros check analysis. subst check analysis. split; split.
  - intros Hv.
    destruct (checkFileCompleteness master filenames w) as [r ev] eqn:E.
    cbn [fst snd] in *. subst r.
    pose proof E as Hcalls. apply check_calls in Hcalls.
    destruct Hcalls as [(_ & m & [=]) | (req & Hc)].
    pose proof (@check_after_call w master filenames req) as H.
    rewrite E in H. cbn [fst snd] in H. specialize (H Hc). symmetry in H.
    apply outcome_ok in H as (t & Ht). exists req, t. split; [exact Hc|exact Ht].
  - intros (req & t & Hc & Hg & Ht & Hp).
    rewrite (@check_after_call w master filenames req Hc).
    apply outcome_ok. now exists t.
  - intros Hv.
    destruct (analyzeDatasheets master datasheets w) as [r ev] eqn:E.
    cbn [fst snd] in *. subst r.
    pose proof E as Hcalls. apply analysis_calls in Hcalls.
    destruct Hcalls as [(_ & m & [=]) | (req & Hc)].
    pose proof (@analysis_after_call w master datasheets req) as H.
    rewrite E in H. cbn [fst snd] in H. specialize (H Hc). symmetry in H.
    apply outcome_ok in H as (t & Ht). exists req, t. split; [exact Hc|exact Ht].
  - intros (req & t & Hc & Hg & Ht & Hp).
    rewrite (@analysis_after_call w master datasheets req Hc).
    apply outcome_ok. now exists t.
Qed.

(** X5.  A failure after the call names its cause behind the prefix: the message of
    what the service threw (Unknown error for a value that is no Error), the
    no-response message of the phase for a reply without text or with an
    empty one, or the message of the SyntaxError for a text that does not
    parse. *)
Theorem failure_after_the_call_names_its_cause
        (w : World) (master : FileData.t) (filenames : list jsstring)
        (datasheets : list FileData.t) (req : Request) (e : Thrown) :
  let check := checkFileCompleteness master filenames w in
  let analysis := analyzeDatasheets master datasheets w in
  let cause (missing m : jsstring) :=
    (exists e', generateContent w req = GenThrows e' /\ m = messageOf e')
    \/ ((generateContent w req = GenReturns None
         \/ generateContent w req = GenReturns (Some []))
        /\ m = missing)
    \/ (exists t, generateContent w req = GenReturns (Some t)
                  /\ parseResponse t = None
                  /\ m = syntaxErrorMessage w (stripFence (trim t))) in
  (generateCalls (snd check) = [req] -> fst check = Throw e ->
   exists m, e = ErrorObj (lit "Check Failed: " ++ m)
             /\ cause (lit "No response from AI check.") m)
  /\ (generateCalls (snd analysis) = [req] -> fst analysis = Throw e ->
      exists m, e = ErrorObj (lit "AI Analysis Failed: " ++ m)
                /\ cause (lit "No response from AI.") m).
Proof.
  intros check analysis cause. subst check analysis cause. cbv beta. split.
  - intros Hc He. rewrite (@check_after_call w master filenames req Hc) in He.
    exact (@outcome_cases _ _ _ _ _ He).
  - intros Hc He. rewrite (@analysis_after_call w master datasheets req Hc) in He.
    exact (@outcome_cases _ _ _ _ _ He).
Qed.

Lemma failure_after_the_call_witness :
  let w := Scenarios.failing in
  let req := analysisRequest [lit "M1_datasheet.pdf"]
               (PInline (lit "application/pdf") (lit "JVBERi0xLjQ="))
               [PText (lit "DOCUMENT (File #1): Filename: M1_datasheet.pdf");
                PInline (lit "application/pdf") (lit "JVBERi0xLjc=")] in
  generateCalls (snd (analyzeDatasheets Samples.masterPdf [Samples.datasheetPdf] w)) = [req]
  /\ fst (analyzeDatasheets Samples.masterPdf [Samples.datasheetPdf] w)
     = Throw (ErrorObj (lit "AI Analysis Failed: Unknown error"))
  /\ exists m,
       ErrorObj (lit "AI Analysis Failed: Unknown error")
       = ErrorObj (lit "AI Analysis Failed: " ++ m)
       /\ ((exists e', generateContent w req = GenThrows e' /\ m = messageOf e')
           \/ ((generateContent w req = GenReturns None
                \/ generateContent w req = GenReturns (Some []))
               /\ m = lit "No response from AI.")
           \/ (exists t, generateContent w req = GenReturns (Some t)
                         /\ parseResponse t = None
                         /\ m = syntaxErrorMessage w (stripFence (trim t)))).
Proof.
  intros w req.
  assert (Hc : generateCalls (snd (analyzeDatasheets Samples.masterPdf
                                     [Samples.datasheetPdf] w)) = [req])
    by (vm_compute; reflexivity).
  assert (He : fst (analyzeDatasheets Samples.masterPdf [Samples.datasheetPdf] w)
               = Throw (ErrorObj (lit "AI Analysis Failed: Unknown error")))
    by (vm_compute; reflexivity).
  split; [exact Hc|]. split; [exact He|].
  exact (proj2 (@failure_after_the_call_names_its_cause w Samples.masterPdf []
                  [Samples.datasheetPdf] req
                  (ErrorObj (lit "AI Analysis Failed: Unknown error"))) Hc He).
Defined.

Lemma inlineParts_app (a b : list Part) :
  inlineParts (a ++ b) = inlineParts a ++ inlineParts b.
Proof. apply flat_map_app. Qed.

Lemma xlsxReads_app (a b : list Event) : xlsxReads (a ++ b) = xlsxReads a ++ xlsxReads b.
Proof. apply flat_map_app. Qed.

(** What reading the master list contributes. *)
Lemma master_read (master : FileData.t) (label : jsstring) (w : World)
      (mc : Part) (ev0 : list Event) :
  getFileContentPart master label w = (Ok mc, ev0) ->
  xlsxReads ev0 = workbooks [master]
  /\ inlineParts [mc] = binaries [master]
  /\ match mc with PText t => truthy t = true | PInline _ _ => True end.
Proof.
  intros H. unfold workbooks, binaries. cbn [filter map].
  destruct (getFileContentPart_cases master label w)
    as [(Hx & Hev & [(csv & _ & Hf) | (_ & Hf)]) | (Hx & Hf)];
    rewrite H in *; cbn [fst snd] in *; rewrite Hx; cbn [negb map].
  - injection Hf as ->. subst ev0. repeat split.
  - discriminate.
  - injection Hf as -> ->. repeat split.
Qed.

(** X6.  In a run that reaches the call, the request of a phase starts with its
    prompt, carries as binary parts
    exactly the files that are no workbooks, in the order master list then
    datasheets, each with its own media type and payload, and the run has
    handed exactly the workbooks to the spreadsheet library, each once, in
    the same order. *)
Theorem requests_carry_every_file_in_order
        (w : World) (master : FileData.t) (filenames : list jsstring)
        (datasheets : list FileData.t) (req : Request) :
  let check := checkFileCompleteness master filenames w in
  let analysis := analyzeDatasheets master datasheets w in
  (generateCalls (snd check) = [req] ->
   hd_error (parts req) = Some (PText (checkPrompt filenames))
   /\ inlineParts (parts req) = binaries [master]
   /\ xlsxReads (snd check) = workbooks [master])
  /\ (generateCalls (snd analysis) = [req] ->
      hd_error (parts req)
      = Some (PText (analysisPrompt
                       (map (fun d => File.name (FileData.file d)) datasheets)))
      /\ inlineParts (parts req) = binaries (master :: datasheets)
      /\ xlsxReads (snd analysis) = workbooks (master :: datasheets)).
Proof.
  intros check analysis. subst check analysis. split.
  - destruct (checkFileCompleteness master filenames w) as [r ev] eqn:E. cbn [fst snd].
    intros Hc.
    apply checkFileCompleteness_inv in E
      as [(Hc' & _) | (_ & mc & ev0 & req' & Hread & -> & -> & _)].
    { rewrite Hc' in Hc. discriminate. }
    rewrite (@generateCalls_snoc ev0 _
               (@generateCalls_getFileContentPart _ _ _ _ _ Hread)) in Hc.
    injection Hc as <-.
    destruct (@master_read _ _ _ _ _ Hread) as (Hx & Hi & Ht).
    split; [reflexivity|]. rewrite xlsxReads_app, Hx, <- Hi.
    split; [|cbn; now rewrite app_nil_r].
    unfold checkRequest. cbn [parts app inlineParts flat_map].
    destruct mc as [t|m d]; [rewrite Ht|]; reflexivity.
  - destruct (analyzeDatasheets master datasheets w) as [r ev] eqn:E. cbn [fst snd].
    intros Hc.
    apply analyzeDatasheets_inv in E
      as [(Hc' & _)
         | (_ & _ & mc & ev0 & ps & ev1 & req' & Hread & Hatt & -> & -> & _)].
    { rewrite Hc' in Hc. discriminate. }
    pose proof (attachDatasheets_run datasheets 0 w) as [Hca Hps].
    rewrite Hatt in Hca, Hps. cbn [fst snd] in Hca, Hps.
    destruct Hps as (Hin & Hrd & _).
    rewrite app_assoc in Hc.
    rewrite (@generateCalls_snoc (ev0 ++ ev1)) in Hc;
      [|now rewrite generateCalls_app,
           (@generateCalls_getFileContentPart _ _ _ _ _ Hread)].
    injection Hc as <-.
    destruct (@master_read _ _ _ _ _ Hread) as (Hx & Hi & Ht).
    split; [reflexivity|].
    rewrite !xlsxReads_app, Hx, Hrd. cbn [xlsxReads flat_map]. rewrite app_nil_r.
    unfold analysisRequest. cbn [parts]. rewrite !inlineParts_app, Hin.
    change (inlineParts [PText (analysisPrompt
              (map (fun d => File.name (FileData.file d)) datasheets))]) with
      (@nil (jsstring * jsstring)).
    cbn [app].
    assert (Hm : inlineParts match mc with
                   | PText text =>
                       if truthy text then [PText text]
                       else [PText (lit "DOCUMENT: Master List (Reference)"); mc]
                   | PInline _ _ => [PText (lit "DOCUMENT: Master List (Reference)"); mc]
                   end = binaries [master]).
    { rewrite <- Hi. destruct mc as [t|m d]; [rewrite Ht|]; reflexivity. }
    rewrite Hm. unfold binaries, workbooks. cbn [filter].
    destruct (isExcel master); cbn [negb map app]; split; reflexivity.
Qed.

Lemma requests_carry_every_file_witness :
  let w := Samples.answering Samples.inconsistentResponse (Some Samples.sheetCsv) in
  let analysis := analyzeDatasheets Samples.legacyWorkbook Scenarios.mixedDatasheets w in
  exists req,
    generateCalls (snd analysis) = [req]
    /\ inlineParts (parts req) = [(lit "application/pdf", lit "JVBERi0xLjc=")]
    /\ xlsxReads (snd analysis) = [lit "master.xls"; lit "master.xls"].
Proof.
  intros w analysis.
  assert (Hc : exists req, generateCalls (snd analysis) = [req])
    by (vm_compute; eexists; reflexivity).
  destruct Hc as [req Hc]. exists req. split; [exact Hc|].
  destruct (@requests_carry_every_file_in_order w Samples.legacyWorkbook []
              Scenarios.mixedDatasheets req) as [_ H].
  destruct (H Hc) as (_ & Hi & Hx). split; [exact Hi|exact Hx].
Defined.

Lemma unreadable_throws (w : World) (fd : FileData.t) (label : jsstring) :
  unreadable w fd = true ->
  fst (getFileContentPart fd label w)
  = Throw (ErrorObj (excelErrorMessage (File.name (FileData.file fd)))).
Proof.
  unfold unreadable, getFileContentPart. destruct (isExcel fd); [|discriminate].
  cbn [andb]. now destruct (XLSX_firstSheetCsv w (FileData.base64 fd)).
Qed.

Lemma readable_ok (w : World) (fd : FileData.t) (label : jsstring) :
  unreadable w fd = false -> exists p, fst (getFileContentPart fd label w) = Ok p.
Proof.
  unfold unreadable, getFileContentPart. destruct (isExcel fd); [|now eexists].
  cbn [andb]. destruct (XLSX_firstSheetCsv w (FileData.base64 fd)); [now eexists|discriminate].
Qed.

Lemma attachDatasheets_first_unreadable (w : World) (datasheets : list FileData.t)
      (index : nat) (fd : FileData.t) :
  find (unreadable w) datasheets = Some fd ->
  fst (attachDatasheets datasheets index w)
  = Throw (ErrorObj (excelErrorMessage (File.name (FileData.file fd)))).
Proof.
  revert index. induction datasheets as [|ds rest IH]; intros index; [discriminate|].
  cbn [find attachDatasheets]. unfold datasheetParts, bind at 1 2.
  destruct (unreadable w ds) eqn:Hu.
  - intros [= <-].
    pose proof (@unreadable_throws w ds
                  (lit "Datasheet File #" ++ ofInteger (Z.of_nat index + 1) ++ lit ": "
                   ++ File.name (FileData.file ds)) Hu) as Ht.
    destruct (getFileContentPart ds _ w) as [r ev]. cbn [fst] in Ht. now subst r.
  - intros Hf. specialize (IH (S index) Hf).
    destruct (@readable_ok w ds
                (lit "Datasheet File #" ++ ofInteger (Z.of_nat index + 1) ++ lit ": "
                 ++ File.name (FileData.file ds)) Hu) as [p Hp].
    destruct (getFileContentPart ds _ w) as [r ev]. cbn [fst] in Hp. subst r.
    unfold ret. cbn [app]. unfold bind.
    destruct (attachDatasheets rest (S index) w) as [r' ev']. cbn [fst] in IH.
    now subst r'.
Qed.

Lemma validateAll_supported (datasheets : list FileData.t) :
  Forall supported datasheets -> validateAll datasheets = Ok tt.
Proof.
  induction 1 as [|ds rest Hs _ IH]; [reflexivity|].
  cbn [validateAll]. unfold validateMimeType. unfold supported in Hs. now rewrite Hs.
Qed.

(** X7.  With the credential present and every type supported, the analysis reports
    the first workbook that cannot be read, the master list counted first,
    under its file name, and sends nothing. *)
Theorem first_unreadable_workbook_is_reported
        (w : World) (master : FileData.t) (datasheets : list FileData.t)
        (fd : FileData.t) :
  apiKeyMissing w = false ->
  Forall supported (master :: datasheets) ->
  find (unreadable w) (master :: datasheets) = Some fd ->
  fst (analyzeDatasheets master datasheets w)
  = Throw (ErrorObj (excelErrorMessage (File.name (FileData.file fd))))
  /\ generateCalls (snd (analyzeDatasheets master datasheets w)) = [].
Proof.
  intros Hkey Hsup Hfind.
  assert (Hfst : fst (analyzeDatasheets master datasheets w)
                 = Throw (ErrorObj (excelErrorMessage (File.name (FileData.file fd))))).
  { inversion Hsup as [|? ? Hm Hds]; subst.
    unfold analyzeDatasheets, bind.
    rewrite requireApiKey_run, Hkey. unfold lift, validateMimeType.
    unfold supported in Hm. rewrite Hm, (validateAll_supported Hds). cbn [negb app].
    cbn [find] in Hfind. destruct (unreadable w master) eqn:Hu.
    - injection Hfind as <-.
      pose proof (@unreadable_throws w master (lit "Master List") Hu) as Ht.
      destruct (getFileContentPart master (lit "Master List") w) as [r ev].
      cbn [fst] in Ht. now subst r.
    - destruct (@readable_ok w master (lit "Master List") Hu) as [p Hp].
      destruct (getFileContentPart master (lit "Master List") w) as [r ev].
      cbn [fst] in Hp. subst r.
      destruct datasheets as [|d ds]; [discriminate|].
      cbn [List.length Nat.eqb]. unfold ret at 1.
      pose proof (@attachDatasheets_first_unreadable w (d :: ds) 0 fd Hfind) as Ha.
      destruct (attachDatasheets (d :: ds) 0 w) as [r' ev']. cbn [fst] in Ha.
      now subst r'. }
  split; [exact Hfst|].
  destruct (analyzeDatasheets master datasheets w) as [r ev] eqn:E.
  cbn [fst snd] in *. subst r.
  pose proof E as Hcalls. apply analysis_calls in Hcalls.
  destruct Hcalls as [(Hc & _) | (req & Hc)]; [exact Hc|].
  pose proof (@analysis_after_call w master datasheets req) as H.
  rewrite E in H. cbn [fst snd] in H. specialize (H Hc). symmetry in H.
  apply outcome_throw in H as [m Hm]. discriminate Hm.
Qed.

Lemma first_unreadable_workbook_witness :
  let w := Samples.answering Samples.inconsistentResponse None in
  fst (analyzeDatasheets Samples.masterPdf Scenarios.withBrokenWorkbook w)
  = Throw (ErrorObj (excelErrorMessage (lit "list.xlsx")))
  /\ generateCalls (snd (analyzeDatasheets Samples.masterPdf Scenarios.withBrokenWorkbook w))
     = [].
Proof.
  intros w.
  apply (@first_unreadable_workbook_is_reported w Samples.masterPdf
           Scenarios.withBrokenWorkbook Samples.brokenWorkbook).
  - reflexivity.
  - repeat constructor.
  - reflexivity.
Defined.

End PhaseFacts.

(** ** What a run leaves in the session *)

Section RunFacts.
Import JS JSON GeminiService App AppState Phase.

Lemma check_throws (w : World) (master : FileData.t) (filenames : list jsstring)
      (e : Thrown) :
  fst (checkFileCompleteness master filenames w) = Throw e ->
  exists m, e = ErrorObj m /\ truthy m = true.
Proof.
  destruct (checkFileCompleteness master filenames w) as [r ev] eqn:E. cbn [fst].
  intros ->.
  apply checkFileCompleteness_inv in E
    as [(_ & m & [= ->] & Hm) | (_ & mc & ev0 & req & _ & _ & _ & Hr)].
  - exists m. split; [reflexivity|].
    destruct Hm as [[-> _] | [[_ ->] | (_ & _ & ->)]]; reflexivity.
  - symmetry in Hr. apply outcome_throw in Hr as [m ->]. eexists. split; reflexivity.
Qed.

Lemma analysis_throws (w : World) (master : FileData.t) (datasheets : list FileData.t)
      (e : Thrown) :
  fst (analyzeDatasheets master datasheets w) = Throw e ->
  exists m, e = ErrorObj m /\ truthy m = true
            /\ (datasheets <> [] -> m <> noDatasheetsMessage).
Proof.
  destruct (analyzeDatasheets master datasheets w) as [r ev] eqn:E. cbn [fst].
  intros ->.
  apply analyzeDatasheets_inv in E
    as [(_ & m & [= ->] & Hm)
       | (_ & _ & mc & ev0 & ps & ev1 & req & _ & _ & _ & _ & Hr)].
  - exists m. split; [reflexivity|].
    destruct Hm as [[-> _] | [(fd & _ & _ & ->) | [(fd & _ & _ & _ & ->) | [-> ->]]]];
      (split; [reflexivity|]); try (intros _; discriminate).
    intros H. now contradiction H.
  - symmetry in Hr. apply outcome_throw in Hr as [m ->]. eexists.
    split; [reflexivity|]. split; [reflexivity|]. intros _. discriminate.
Qed.

(** X8.  A run of a handler changes only the fields of its own phase: the files
    stay as they are, the check leaves the analysis result and its flag
    alone, the analysis leaves the check result and its flag alone; and a
    handler whose guard returns (no master list, or no datasheet) enqueues
    nothing and calls nothing. *)
Theorem a_run_changes_only_its_own_fields (w : World) (state s : AppState.t) :
  let checked := applyAll (fst (handleCheckCompleteness w state)) s in
  let analyzed := applyAll (fst (handleAnalyze w state)) s in
  (masterList checked = masterList s /\ datasheets checked = datasheets s
   /\ result checked = result s /\ isAnalyzing checked = isAnalyzing s)
  /\ (masterList analyzed = masterList s /\ datasheets analyzed = datasheets s
      /\ checkResult analyzed = checkResult s /\ isChecking analyzed = isChecking s)
  /\ (masterList state = None \/ datasheets state = [] ->
      handleCheckCompleteness w state = ([], [])
      /\ handleAnalyze w state = ([], [])
      /\ checked = s /\ analyzed = s).
Proof.
  intros checked analyzed. subst checked analyzed.
  unfold handleCheckCompleteness, handleAnalyze.
  destruct (masterList state) as [master|].
  - destruct (datasheets state) as [|d ds].
    + cbn. repeat split.
    + cbn [List.length Nat.eqb].
      destruct (checkFileCompleteness master _ w) as [[res|err] ev];
        destruct (analyzeDatasheets master _ w) as [[res'|err'] ev'];
        cbn; (split; [repeat split|]); (split; [repeat split|]);
        intros [H|H]; discriminate H.
  - cbn. repeat split.
Qed.

(** X9.  What the session shows after a run.  A successful run leaves no error
    behind; a successful analysis stores what the service function returned
    and switches to the result screen exactly when that value is truthy.  A
    failed run stores the message of the service function itself (the check
    behind its own prefix): the fallback texts of the handlers are never
    shown, and neither is the message for an empty datasheet list, which the
    guard rules out; the previous result of the phase stays. *)
Theorem what_a_run_reports (w : World) (state s : AppState.t) (master : FileData.t) :
  masterList state = Some master ->
  datasheets state <> [] ->
  let filenames := map (fun d => File.name (FileData.file d)) (datasheets state) in
  let checked := applyAll (fst (handleCheckCompleteness w state)) s in
  let analyzed := applyAll (fst (handleAnalyze w state)) s in
  (forall v, fst (checkFileCompleteness master filenames w) = Ok v ->
             error checked = None)
  /\ (forall e, fst (checkFileCompleteness master filenames w) = Throw e ->
                exists m, e = ErrorObj m
                          /\ error checked = Some (checkFailedPrefix ++ m)
                          /\ checkResult checked = checkResult s)
  /\ (forall v, fst (analyzeDatasheets master (datasheets state) w) = Ok v ->
                error analyzed = None
                /\ result analyzed = Some v
                /\ render analyzed
                   = if toBoolean v then ResultScreen else UploadScreen)
  /\ (forall e, fst (analyzeDatasheets master (datasheets state) w) = Throw e ->
                exists m, e = ErrorObj m
                          /\ error analyzed = Some m
                          /\ m <> lit "No datasheets provided for analysis."
                          /\ result analyzed = result s
                          /\ render analyzed = render s).
Proof.
  intros Hm Hd filenames checked analyzed. subst filenames checked analyzed.
  unfold handleCheckCompleteness, handleAnalyze. rewrite Hm.
  assert (Hlen : (List.length (datasheets state) =? 0)%nat = false).
  { destruct (datasheets state); [contradiction|reflexivity]. }
  rewrite Hlen. split; [|split; [|split]].
  - intros v Hv.
    destruct (checkFileCompleteness master _ w) as [r ev]. cbn [fst] in Hv. subst r.
    reflexivity.
  - intros e He. destruct (@check_throws _ _ _ _ He) as (m & -> & Ht).
    destruct (checkFileCompleteness master _ w) as [r ev]. cbn [fst] in He. subst r.
    exists m. split; [reflexivity|]. cbn. rewrite Ht. split; reflexivity.
  - intros v Hv.
    destruct (analyzeDatasheets master _ w) as [r ev]. cbn [fst] in Hv. subst r.
    split; [reflexivity|]. split; reflexivity.
  - intros e He. destruct (@analysis_throws _ _ _ _ He) as (m & -> & Ht & Hn).
    destruct (analyzeDatasheets master _ w) as [r ev]. cbn [fst] in He. subst r.
    exists m. split; [reflexivity|]. cbn. rewrite Ht.
    split; [reflexivity|]. split; [exact (Hn Hd)|]. split; reflexivity.
Qed.

Lemma what_a_run_reports_witness :
  let w := Scenarios.failing in
  let state := Samples.readyState in
  let s := Samples.analyzedState in
  let analyzed := applyAll (fst (handleAnalyze w state)) s in
  error analyzed = Some (lit "AI Analysis Failed: Unknown error")
  /\ result analyzed = Some Samples.analysisValue.
Proof.
  intros w state s analyzed.
  destruct (@what_a_run_reports w state s Samples.masterPdf eq_refl ltac:(discriminate))
    as (_ & _ & _ & H).
  destruct (H (ErrorObj (lit "AI Analysis Failed: Unknown error")) eq_refl)
    as (m & Hm & He & _ & Hr & _).
  injection Hm as <-. split; [exact He|exact Hr].
Defined.

End RunFacts.

(** ** Adding and removing files *)

Section InputFacts.
Import JS App AppState AppCards.

Lemma jsstring_eqb_eq (a b : jsstring) : eqb a b = true <-> a = b.
Proof.
  revert b. induction a as [|c a IH]; intros [|d b]; cbn [eqb];
    try (split; [discriminate|discriminate]); [split; reflexivity|].
  rewrite andb_true_iff, N.eqb_eq, IH. split.
  - now intros [-> ->].
  - now intros [= -> ->].
Qed.

Lemma jsstring_eqb_refl (a : jsstring) : eqb a a = true.
Proof. now apply jsstring_eqb_eq. Qed.

Lemma keep_others (id : jsstring) (l : list FileData.t) :
  (forall f, In f l -> FileData.id f <> id) ->
  filter (fun f => negb (eqb (FileData.id f) id)) l = l.
Proof.
  induction l as [|x l IH]; intros H; [reflexivity|]. cbn [filter].
  destruct (eqb (FileData.id x) id) eqn:E.
  - apply jsstring_eqb_eq in E. exfalso. apply (H x); [now left|exact E].
  - cbn [negb]. f_equal. apply IH. intros f Hf. apply H. now right.
Qed.

(** X10.  [removeDatasheet] keeps exactly the files whose id is another one; an id no file has leaves the list as it is; removing twice
    is removing once; and removing a file that was just added under a fresh
    id gives the list back, but not the analysis result that adding it
    discarded. *)
Theorem removeDatasheet_removes_exactly_the_id (id : jsstring) (prev : AppState.t) :
  (forall f, In f (datasheets (removeDatasheet id prev))
             <-> In f (datasheets prev) /\ FileData.id f <> id)
  /\ ((forall f, In f (datasheets prev) -> FileData.id f <> id) ->
      datasheets (removeDatasheet id prev) = datasheets prev)
  /\ removeDatasheet id (removeDatasheet id prev) = removeDatasheet id prev
  /\ (forall x : FileData.t,
        (forall f, In f (datasheets prev) -> FileData.id f <> FileData.id x) ->
        forall u, handleDatasheetSelect (Some (inl x)) = [u] ->
        datasheets (removeDatasheet (FileData.id x) (u prev)) = datasheets prev
        /\ result (removeDatasheet (FileData.id x) (u prev)) = None).
Proof.
  split; [|split; [|split]].
  - intros f. cbn [removeDatasheet datasheets]. rewrite filter_In, negb_true_iff.
    split; intros [Hin H]; (split; [exact Hin|]).
    + intros E. apply jsstring_eqb_eq in E. congruence.
    + destruct (eqb (FileData.id f) id) eqn:E; [|reflexivity].
      apply jsstring_eqb_eq in E. contradiction.
  - intros H. cbn [removeDatasheet datasheets]. now apply keep_others.
  - unfold removeDatasheet. cbn [masterList datasheets isAnalyzing isChecking
                                 result error].
    f_equal. apply keep_others. intros f Hf. apply filter_In in Hf as [_ Hf].
    apply negb_true_iff in Hf. intros E. apply jsstring_eqb_eq in E. congruence.
  - intros x Hfresh u [= <-]. cbn [removeDatasheet datasheets result].
    split; [|reflexivity].
    rewrite filter_app. cbn [filter]. rewrite jsstring_eqb_refl. cbn [negb].
    rewrite app_nil_r. now apply keep_others.
Qed.

(** X11.  The two cards wired to the session.  Files dropped on the datasheet card
    are appended, ingested, in their order, and discard both results; the
    master list card takes the first file of the event and ignores the
    others; an event without files changes nothing on either card. *)
Theorem cards_update_the_session
        (files : list (File.t * jsstring * jsstring)) (s : AppState.t) :
  let dropped := applyAll (datasheetsCard files) s in
  let chosen := applyAll (masterCard files) s in
  datasheets dropped = datasheets s ++ FileUpload.processFiles files
  /\ masterList dropped = masterList s
  /\ datasheets chosen = datasheets s
  /\ (files = [] -> dropped = s /\ chosen = s)
  /\ (forall first rest, files = first :: rest ->
        masterList chosen
        = Some (FileUpload.processFile (fst (fst first)) (snd (fst first)) (snd first))
        /\ checkResult chosen = None /\ result chosen = result s
        /\ checkResult dropped = None /\ result dropped = None).
Proof.
  intros dropped chosen. subst dropped chosen.
  destruct files as [|first rest].
  - cbn. rewrite app_nil_r.
    split; [reflexivity|]. split; [reflexivity|]. split; [reflexivity|].
    split; [intros _; split; reflexivity|]. intros first rest [=].
  - cbn - [FileUpload.processFile].
    split; [reflexivity|]. split; [reflexivity|]. split; [reflexivity|].
    split; [discriminate|]. intros first' rest' [= <- <-].
    split; [reflexivity|]. split; [reflexivity|]. split; [reflexivity|].
    split; reflexivity.
Qed.

End InputFacts.

(** ** The shape of the report *)

Section ReportFacts.
Import JS AnalysisTable.

(** X12.  [exportCSV] alerts exactly when the result has no group (the field
    missing, or the list empty), always with the same message, and a
    download is always the encoded report of a non-empty list of groups. *)
Theorem exportCSV_alerts_exactly_without_groups (result : AnalysisResult.t) :
  (exportCSV result = Alert noDataMessage
   <-> AnalysisResult.groups result = None \/ AnalysisResult.groups result = Some [])
  /\ (forall m, exportCSV result = Alert m -> m = noDataMessage)
  /\ (forall name ty bytes,
        exportCSV result = Download name ty bytes ->
        exists g rest, AnalysisResult.groups result = Some (g :: rest)
                       /\ bytes = utf8 (csvContent (g :: rest))).
Proof.
  unfold exportCSV. destruct (AnalysisResult.groups result) as [[|g rest]|];
    cbn [List.length Nat.eqb].
  - split; [split; auto|]. split; [now intros m [= <-]|discriminate].
  - split; [split; [discriminate|intros [H|H]; discriminate H]|].
    split; [discriminate|]. intros name ty bytes [= _ _ <-]. now exists g, rest.
  - split; [split; auto|]. split; [now intros m [= <-]|discriminate].
Qed.

Lemma rowsFrom_length (groups : list ComparisonGroup.t) (index : nat) :
  List.length (rowsFrom groups index)
  = (6 * List.length groups
     + list_sum (map (fun g => List.length (specRows g)) groups))%nat.
Proof.
  revert index. induction groups as [|g rest IH]; intros index; [reflexivity|].
  cbn [rowsFrom]. rewrite length_app, IH. unfold groupRows.
  rewrite !length_app. unfold list_sum.
  cbn [List.length titleRows map fold_right]. lia.
Qed.

(** X13.  The report has six rows for every group (three titles, the header, two
    empty rows) and one more for each of its specifications. *)
Theorem csvRows_count (groups : list ComparisonGroup.t) :
  List.length (csvRows groups)
  = (6 * List.length groups
     + list_sum (map (fun g => match ComparisonGroup.specs g with
                               | Some specs => List.length specs
                               | None => 0
                               end) groups))%nat.
Proof.
  unfold csvRows. rewrite rowsFrom_length. do 2 f_equal.
  apply map_ext. intros g. apply specRows_length.
Qed.

(** X14.  [getGroupLabel] gives the capital letters A to Z for the first twenty-six
    indices, different labels for different indices below 65536, and the
    same label again 65536 indices later. *)
Theorem getGroupLabel_letters (index : nat) :
  ((index < 26)%nat ->
   getGroupLabel index = [(65 + N.of_nat index)%N]
   /\ forallb (fun c => (65 <=? c)%N && (c <=? 90)%N) (getGroupLabel index) = true)
  /\ (forall other, (N.of_nat index < 65536)%N -> (N.of_nat other < 65536)%N ->
                    getGroupLabel index = getGroupLabel other -> index = other)
  /\ getGroupLabel (index + N.to_nat 65536) = getGroupLabel index.
Proof.
  unfold getGroupLabel, fromCharCode. split; [|split].
  - intros H. rewrite N.mod_small by lia. split; [reflexivity|].
    cbn [forallb]. rewrite andb_true_r. apply andb_true_iff.
    split; [apply N.leb_le|apply N.leb_le]; lia.
  - intros other Hi Ho H.
    assert (E : ((65 + N.of_nat index) mod 65536
                 = (65 + N.of_nat other) mod 65536)%N) by congruence.
    clear H.
    assert (Hcases : forall k, (k < 65536)%N ->
              ((65 + k) mod 65536
               = if (k <? 65471) then 65 + k else 65 + k - 65536)%N).
    { intros k Hk. destruct (N.ltb_spec k 65471).
      - apply N.mod_small. lia.
      - symmetry. apply (N.mod_unique _ _ 1); lia. }
    rewrite (Hcases _ Hi), (Hcases _ Ho) in E.
    destruct (N.ltb_spec (N.of_nat index) 65471);
      destruct (N.ltb_spec (N.of_nat other) 65471); lia.
  - f_equal. rewrite Nat2N.inj_add, N2Nat.id.
    replace (65 + (N.of_nat index + 65536))%N
      with (65 + N.of_nat index + 1 * 65536)%N by lia.
    now rewrite N.Div0.mod_add.
Qed.

End ReportFacts.

(** ** Reading the title and header rows back *)

Section ReadBackFacts.
Import JS AnalysisTable Report.

Lemma escapeQuotes_plain (s : jsstring) : forallb plain s = true -> escapeQuotes s = s.
Proof.
  induction s as [|c s IH]; [reflexivity|]. cbn [forallb]. intros H.
  apply andb_true_iff in H as [Hc H]. unfold plain in Hc.
  apply andb_true_iff in Hc as [_ Hc]. apply negb_true_iff in Hc.
  unfold escapeQuotes in *. cbn [flat_map]. rewrite Hc. cbn [app]. now rewrite IH.
Qed.

Lemma escapeQuotes_app (a b : jsstring) :
  escapeQuotes (a ++ b) = escapeQuotes a ++ escapeQuotes b.
Proof. apply flat_map_app. Qed.

Lemma getGroupLabel_plain (index : nat) :
  (index < 26)%nat -> forallb plain (getGroupLabel index) = true.
Proof.
  intros H. unfold getGroupLabel, fromCharCode. rewrite N.mod_small by lia.
  cbn [forallb]. rewrite andb_true_r. unfold plain, COMMA, DQUOTE.
  apply andb_true_iff. split; apply negb_true_iff, N.eqb_neq; lia.
Qed.

(** X15.  For the first twenty-six groups, each title row reads back as a CSV record
    of one field: the group title with the name of part A, the summary and
    the recommendation, whatever quotes and commas the name and the summary
    contain. *)
Theorem title_rows_read_back_as_single_fields
        (group : ComparisonGroup.t) (index : nat) :
  (index < 26)%nat ->
  map readCsvRow (titleRows group index)
  = [ Some [lit "GROUP " ++ getGroupLabel index ++ lit ": "
            ++ partOf group MappedParts.partA (lit "Part A") ++ lit " vs Substitutes"];
      Some [lit "Summary: " ++ orElse (ComparisonGroup.summary group) []];
      Some [lit "Recommendation: "
            ++ match ComparisonGroup.recommendation group with
               | Some r => Types.Recommendation_value r
               | None => lit "-"
               end] ].
Proof.
  intros H. unfold titleRows, readCsvRow. cbn [map].
  f_equal; [|f_equal; [|f_equal]].
  - rewrite <- (escapeQuotes_plain _ (getGroupLabel_plain H)) at 1.
    change (lit "GROUP ") with (escapeQuotes (lit "GROUP ")) at 1.
    change (lit ": ") with (escapeQuotes (lit ": ")) at 1.
    change (lit " vs Substitutes") with (escapeQuotes (lit " vs Substitutes")) at 1.
    rewrite <- !escapeQuotes_app. apply (read_quoted_last _ []).
  - change (lit "Summary: ") with (escapeQuotes (lit "Summary: ")) at 1.
    rewrite <- escapeQuotes_app. apply (read_quoted_last _ []).
  - set (r := match ComparisonGroup.recommendation group with
              | Some r => Types.Recommendation_value r
              | None => lit "-"
              end).
    assert (Hr : lit "Recommendation: " ++ r = escapeQuotes (lit "Recommendation: " ++ r)).
    { subst r. now destruct (ComparisonGroup.recommendation group) as [[| | |]|]. }
    rewrite Hr at 1. apply (read_quoted_last _ []).
Qed.

Lemma title_rows_witness :
  map readCsvRow (titleRows Samples.exportGroup 0)
  = [ Some [lit "GROUP A: NTTFS080N10 vs Substitutes"];
      Some [lit "Summary: B matches; C falls short on voltage."];
      Some [lit "Recommendation: B"] ].
Proof.
  apply (@title_rows_read_back_as_single_fields Samples.exportGroup 0). lia.
Defined.

Lemma bare_row_records (fields : list jsstring) :
  fields <> [] ->
  forallb (forallb bare) fields = true ->
  readReport (join (lit ",") fields) = Some [fields].
Proof.
  intros Hne Hb. unfold readReport.
  assert (Hrow : join (lit ",") fields = rowText (map (fun f => (false, f)) fields)).
  { unfold rowText. rewrite map_map. cbn [written fst snd]. now rewrite map_id. }
  rewrite Hrow, <- (app_nil_r (rowText _)).
  rewrite read_row; [| |  |exact I].
  - rewrite app_nil_r, rev_involutive, map_map. cbn [snd]. now rewrite map_id.
  - destruct fields; [contradiction|discriminate].
  - rewrite forallb_forall. intros c Hc. apply in_map_iff in Hc as (f & <- & Hf).
    unfold wellWritten. cbn [fst snd orb]. rewrite forallb_forall in Hb.
    now apply Hb.
Qed.

Lemma label_bare (index : nat) :
  (index < 26)%nat -> forallb bare (getGroupLabel index) = true.
Proof. intros H. apply getGroupLabel_bare. lia. Qed.

(** X16.  The header row is written without quotes.  For the first twenty-six
    groups it is a row of nine cells that reads back as one record of those
    nine cells, provided the three part names contain no comma, no quote, no
    line feed and no carriage return. *)
Theorem header_row_reads_back (group : ComparisonGroup.t) (index : nat) :
  (index < 26)%nat ->
  forallb bare (partOf group MappedParts.partA (lit "Part A")) = true ->
  forallb bare (partOf group MappedParts.partB (lit "Part B")) = true ->
  forallb bare (partOf group MappedParts.partC (lit "Part C")) = true ->
  readReport (join (lit ",") (headerCells group index)) = Some [headerCells group index]
  /\ List.length (headerCells group index) = 9%nat.
Proof.
  intros H HA HB HC. split; [|reflexivity].
  assert (Hn : bareNames group = true).
  { unfold bareNames. now rewrite HA, HB, HC. }
  destruct (@headerCells_fields group index (label_bare H) Hn) as [Hh Hb].
  rewrite Hh. apply bare_row_records; [discriminate|exact Hb].
Qed.

Lemma header_row_witness :
  readReport (join (lit ",") (headerCells Samples.exportGroup 0))
  = Some [[ lit "ID"; lit "Parameter"; lit "Unit"; lit "Spec A (NTTFS080N10)";
            lit "Spec A-1 (M1-SUB)"; lit "A-1 Result"; lit "Spec A-2 (Part C)";
            lit "A-2 Result"; lit "Comment" ]]
  /\ List.length (headerCells Samples.exportGroup 0) = 9%nat.
Proof.
  apply (@header_row_reads_back Samples.exportGroup 0); [lia|reflexivity..].
Defined.

(** X17.  A comma in the name of part A splits the header.  For the first
    twenty-six groups, with no quote and no line break in the two halves of
    the name and no comma, quote or line break in the other two names, the
    row reads back as one record of ten fields, the fourth cell cut in two at
    the comma. *)
Theorem a_comma_in_a_part_name_splits_the_header
        (group : ComparisonGroup.t) (index : nat) (a b : jsstring) :
  (index < 26)%nat ->
  partOf group MappedParts.partA (lit "Part A") = a ++ lit "," ++ b ->
  forallb bare a = true ->
  forallb bare b = true ->
  forallb bare (partOf group MappedParts.partB (lit "Part B")) = true ->
  forallb bare (partOf group MappedParts.partC (lit "Part C")) = true ->
  exists rest,
    readReport (join (lit ",") (headerCells group index))
    = Some [ [ lit "ID"; lit "Parameter"; lit "Unit";
               lit "Spec " ++ getGroupLabel index ++ lit " (" ++ a;
               b ++ lit ")" ] ++ rest ]
    /\ List.length rest = 5%nat.
Proof.
  intros H HA Ha Hb HB HC. pose proof (label_bare H) as Hl.
  exists (skipn 4 (headerCells group index)). split; [|reflexivity].
  assert (Hrow : join (lit ",") (headerCells group index)
                 = join (lit ",")
                     ([ lit "ID"; lit "Parameter"; lit "Unit";
                        lit "Spec " ++ getGroupLabel index ++ lit " (" ++ a;
                        b ++ lit ")" ] ++ skipn 4 (headerCells group index))).
  { unfold headerCells. rewrite HA.
    rewrite !escapeQuotes_append, (@escapeQuotes_bare _ Ha), (@escapeQuotes_bare _ Hb).
    cbn [skipn app join]. change (escapeQuotes (lit ",")) with (lit ",").
    rewrite <- !app_assoc. reflexivity. }
  rewrite Hrow. apply bare_row_records; [discriminate|].
  unfold headerCells. cbn [skipn app].
  rewrite !(@escapeQuotes_bare _ HB), !(@escapeQuotes_bare _ HC).
  cbn [forallb]. rewrite !forallb_app, Hl, Ha, Hb, HB, HC. reflexivity.
Qed.

Lemma comma_in_a_part_name_witness :
  exists rest,
    readReport (join (lit ",") (headerCells Scenarios.commaGroup 0))
    = Some [ [ lit "ID"; lit "Parameter"; lit "Unit"; lit "Spec A (BC847"; lit "215)" ]
             ++ rest ]
    /\ List.length rest = 5%nat.
Proof.
  apply (@a_comma_in_a_part_name_splits_the_header Scenarios.commaGroup 0
           (lit "BC847") (lit "215")); [lia|reflexivity..].
Defined.

End ReadBackFacts.

(** ** The completeness table *)

Section ChipFacts.
Import JS CompletenessCheck.

Lemma substituteChips_labels (groupLetter : jsstring) (subs : list CompletenessPart.t)
      (from : nat) :
  map label (substituteChips groupLetter subs from)
  = map (fun k => groupLetter ++ lit "-" ++ ofInteger (Z.of_nat k + 1))
        (seq from (List.length subs))
  /\ Forall (fun c => isSubstitute c = true) (substituteChips groupLetter subs from)
  /\ map shownName (substituteChips groupLetter subs from)
     = map (fun p => if truthy (CompletenessPart.partName p)
                     then CompletenessPart.partName p else lit "Unknown") subs.
Proof.
  revert from. induction subs as [|sub rest IH]; intros from.
  - repeat split. constructor.
  - destruct (IH (S from)) as (Hl & Hs & Hn).
    cbn [substituteChips map List.length seq]. rewrite Hl, Hn.
    split; [reflexivity|]. split; [|reflexivity].
    constructor; [|exact Hs].
    cbn [PartStatusChip isSubstitute]. apply includes_segment.
Qed.

Lemma includes_single (c d : N) : c <> d -> includes [c] [d] = false.
Proof.
  intros H. cbn [includes startsWith].
  destruct (N.eqb_spec d c); [congruence|reflexivity].
Qed.

(** X18.  In the completeness table the chip of the original carries the letter of
    its row, the same letter as in the report, and the chips of the
    substitutes carry that letter, a hyphen and their position counted from
    one; every substitute chip is styled as a substitute, the original chip
    of the first twenty-six rows is not, and the note for no substitutes is
    shown exactly for an empty list. *)
Theorem chips_are_labelled_by_row_and_position (row : CompletenessRow.t) (idx : nat) :
  let r := renderRow row idx in
  let letter := AnalysisTable.getGroupLabel idx in
  label (originalChip r) = letter
  /\ map label (substitutes r)
     = map (fun k => letter ++ lit "-" ++ ofInteger (Z.of_nat k + 1))
           (seq 0 (List.length (CompletenessRow.substitutes row)))
  /\ Forall (fun c => isSubstitute c = true) (substitutes r)
  /\ ((idx < 26)%nat -> isSubstitute (originalChip r) = false)
  /\ (noSubstitutesNote r = true <-> CompletenessRow.substitutes row = []).
Proof.
  intros r letter. subst r letter. unfold renderRow.
  cbn [originalChip substitutes noSubstitutesNote].
  destruct (substituteChips_labels (fromCharCode (65 + N.of_nat idx))
              (CompletenessRow.substitutes row) 0) as (Hl & Hs & _).
  split; [reflexivity|]. split; [exact Hl|]. split; [exact Hs|]. split.
  - intros H. cbn [PartStatusChip isSubstitute]. unfold fromCharCode.
    rewrite N.mod_small by lia. change (lit "-") with [45%N].
    apply includes_single. lia.
  - rewrite Nat.eqb_eq. apply length_zero_iff_nil.
Qed.

End ChipFacts.

(** ** Data URLs *)

Section FileReaderFacts.
Import JS FileReader.

Lemma split_nonempty (s : jsstring) (sep : N) : split s sep <> [].
Proof.
  induction s as [|c s IH]; cbn [split]; [discriminate|].
  destruct (c =? sep)%N; [discriminate|].
  destruct (split s sep); discriminate.
Qed.

Lemma split_app (s rest : jsstring) (sep : N) :
  forallb (fun c => negb (c =? sep)%N) s = true ->
  split (s ++ sep :: rest) sep = s :: split rest sep.
Proof.
  induction s as [|c s IH]; cbn [forallb app split]; intros H.
  - now rewrite N.eqb_refl.
  - apply andb_true_iff in H as [Hc H]. apply negb_true_iff in Hc.
    now rewrite Hc, IH.
Qed.

Lemma split_free (s : jsstring) (sep : N) :
  forallb (fun c => negb (c =? sep)%N) s = true -> split s sep = [s].
Proof.
  induction s as [|c s IH]; cbn [forallb split]; intros H; [reflexivity|].
  apply andb_true_iff in H as [Hc H]. apply negb_true_iff in Hc.
  now rewrite Hc, IH.
Qed.

(** [split] and [join] on a separator of one code unit undo each other. *)
Lemma split_and_join_are_inverse (sep : N) (s : jsstring) (cells : list jsstring) :
  join [sep] (split s sep) = s
  /\ (cells <> [] ->
      Forall (fun c => forallb (fun x => negb (x =? sep)%N) c = true) cells ->
      split (join [sep] cells) sep = cells).
Proof.
  split.
  - induction s as [|c s IH]; [reflexivity|]. cbn [split].
    destruct (N.eqb_spec c sep) as [->|Hc].
    + pose proof (split_nonempty s sep) as Hne.
      destruct (split s sep) as [|x xs]; [contradiction|].
      change (join [sep] ([] :: x :: xs)) with (sep :: join [sep] (x :: xs)).
      now rewrite IH.
    + pose proof (split_nonempty s sep) as Hne.
      destruct (split s sep) as [|x xs]; [contradiction|].
      rewrite <- IH. now destruct xs.
  - induction cells as [|x cells IH]; intros Hne Hall; [contradiction|].
    inversion Hall as [|? ? Hx Hrest]; subst.
    destruct cells as [|y rest].
    + cbn [join]. now apply split_free.
    + change (join [sep] (x :: y :: rest)) with (x ++ sep :: join [sep] (y :: rest)).
      rewrite split_app by assumption. f_equal. apply IH; [discriminate|assumption].
Qed.

(** X19.  [fileToBase64] on a data URL whose header holds no comma resolves to what
    follows the first comma, up to the next one: to the whole payload when it
    holds no comma, as base64 never does.  A result without any comma
    resolves to undefined. *)
Theorem fileToBase64_extracts_the_payload (header payload : jsstring) :
  forallb (fun c => negb (c =? 44)%N) header = true ->
  fileToBase64 (Loaded header) = Resolved None
  /\ fileToBase64 (Loaded (header ++ lit "," ++ payload))
     = Resolved (Some (hd [] (split payload 44)))
  /\ (forallb (fun c => negb (c =? 44)%N) payload = true ->
      fileToBase64 (Loaded (header ++ lit "," ++ payload)) = Resolved (Some payload)).
Proof.
  intros H. unfold fileToBase64. change (lit "," ++ payload) with (44%N :: payload).
  rewrite (@split_free header 44 H), (@split_app header payload 44 H).
  split; [reflexivity|]. cbn [nth_error].
  pose proof (split_nonempty payload 44) as Hne.
  split.
  - destruct (split payload 44); [contradiction|reflexivity].
  - intros Hp. now rewrite (@split_free payload 44 Hp).
Qed.

Lemma fileToBase64_witness :
  fileToBase64 (Loaded (Scenarios.dataUrlHeader ++ lit "," ++ Scenarios.payload))
  = Resolved (Some Scenarios.payload).
Proof.
  apply (@fileToBase64_extracts_the_payload Scenarios.dataUrlHeader Scenarios.payload);
    reflexivity.
Defined.

End FileReaderFacts.

(** ** Which ingested files are workbooks *)

Section KindFacts.
Import JS GeminiService FileUpload.

(** X20.  A file ingested by [processFile] is treated as a workbook by the service
    exactly when the browser type mentions sheet or the name ends in .xlsx or
    in .xls: the first two are the files tagged as spreadsheets, the third
    the legacy workbooks, which keep another tag. *)
Theorem ingested_file_is_a_workbook_iff (file : File.t) (base64 id : jsstring) :
  isExcel (processFile file base64 id)
  = includes (File.type file) (lit "sheet")
    || endsWith (File.name file) (lit ".xlsx")
    || endsWith (File.name file) (lit ".xls").
Proof.
  unfold isExcel, processFile.
  cbn [FileData.type FileData.file].
  destruct (includes (File.type file) (lit "sheet")) eqn:Hs;
    destruct (endsWith (File.name file) (lit ".xlsx")) eqn:Hx;
    cbn [orb]; try reflexivity.
  destruct (includes (File.type file) (lit "jpeg") || includes (File.type file) (lit "jpg"));
    [reflexivity|].
  destruct (includes (File.type file) (lit "png")); reflexivity.
Qed.

End KindFacts.

(** ** Fences that are not closed, and replies that are blank *)

Section FenceEdgeFacts.
Import JS JSON GeminiService Phase Tokens.

Lemma start_expects_letters (c : N) (m : mode) (ts : list token) :
  start c = Some (m, ts) -> expects_letters m.
Proof.
  unfold start.
  repeat match goal with
         | |- context [if ?b then _ else _] => destruct b
         end; intros [= <- <-]; cbn; repeat constructor; lia.
Qed.

(** No text that ends with a backtick is accepted by the lexer. *)
Lemma lex_backtick_end (s : jsstring) (m : mode) :
  expects_letters m -> lex m (s ++ [BACKTICK]) = None.
Proof.
  revert m. induction s as [|d r IH]; intros m Hm.
  - cbn [app lex]. destruct m; try reflexivity.
    + now destruct (valid_number (rev acc)).
    + destruct rest as [|e rest]; [reflexivity|].
      inversion Hm as [|? ? He _]; subst.
      destruct (N.eqb_spec BACKTICK e) as [<-|]; [|reflexivity].
      unfold BACKTICK in He. lia.
  - cbn [app lex]. destruct m.
    + destruct (start d) as [[m' tk]|] eqn:Hs; [|reflexivity].
      now rewrite (IH _ (@start_expects_letters _ _ _ Hs)).
    + destruct (d =? 34)%N; [now rewrite (IH Top I)|].
      destruct (d =? 92)%N; [now apply IH|].
      destruct (d <? 32)%N; [reflexivity|now apply IH].
    + destruct (unescape d); [now apply IH|].
      destruct (d =? 117)%N; [now apply IH|reflexivity].
    + destruct (hexval d); [|reflexivity].
      destruct k as [|[|k]]; [reflexivity| |]; now apply IH.
    + destruct (isNumChar d); [now apply IH|].
      destruct (valid_number (rev acc)); [|reflexivity].
      destruct (start d) as [[m' tk]|] eqn:Hs; [|reflexivity].
      now rewrite (IH _ (@start_expects_letters _ _ _ Hs)).
    + destruct rest as [|e rest]; [reflexivity|].
      destruct (d =? e)%N; [|reflexivity].
      inversion Hm as [|? ? _ Hrest]; subst.
      destruct rest as [|e' rest]; [now rewrite (IH Top I)|now apply IH].
Qed.

Lemma parse_backtick_end (s : jsstring) : parse (s ++ [BACKTICK]) = None.
Proof. unfold parse. now rewrite (@lex_backtick_end s Top I). Qed.

Lemma endsWith_inv (s p : jsstring) : endsWith s p = true -> exists r, s = r ++ p.
Proof.
  unfold endsWith. intros H. apply startsWith_inv in H as [r Hr].
  exists (rev r). rewrite <- (rev_involutive s), Hr, rev_app_distr.
  now rewrite rev_involutive.
Qed.

Lemma trimStart_app (a b : jsstring) :
  trimStart a <> [] -> trimStart (a ++ b) = trimStart a ++ b.
Proof.
  induction a as [|c a IH]; cbn [trimStart app]; intros H; [contradiction|].
  destruct (isWhiteSpace c); [now apply IH|reflexivity].
Qed.

Lemma parse_trimEnd (s : jsstring) (v : json) :
  parse s = Some v -> parse (trimEnd s) = Some v.
Proof.
  unfold parse. intros H. destruct (lex Top s) as [ts|] eqn:E; [|discriminate].
  now rewrite (@lex_trimEnd s Top ts I E).
Qed.

(** X21.  A reply that opens a json fence and never closes it is still read: the
    opening line is removed and the text after it parsed. *)
Theorem unterminated_fence_is_tolerated (s : jsstring) (v : json) :
  parse s = Some v -> parseResponse (fenceOpenLine ++ s) = Some v.
Proof.
  intros H. pose proof (@parse_trimEnd s v H) as Ht.
  assert (Hne : trimEnd s <> []).
  { intros E. rewrite E in Ht. discriminate. }
  assert (Htrim : trim (fenceOpenLine ++ s) = fenceOpenLine ++ trimEnd s).
  { unfold trim. change (trimStart (fenceOpenLine ++ s)) with (fenceOpenLine ++ s).
    unfold trimEnd in *. rewrite rev_app_distr, trimStart_app.
    - now rewrite rev_app_distr, rev_involutive.
    - intros E. apply Hne. now rewrite E. }
  unfold parseResponse. rewrite Htrim. unfold stripFence.
  unfold fenceOpenLine at 1. rewrite <- app_assoc, startsWith_app.
  rewrite removePrefix_app. unfold removeSuffix.
  destruct (endsWith (trimEnd s) fenceCloseLine) eqn:E; [|exact Ht].
  apply endsWith_inv in E as [r Hr]. rewrite Hr in Ht.
  change fenceCloseLine with ([LF; BACKTICK; BACKTICK] ++ [BACKTICK]) in Ht.
  rewrite app_assoc, parse_backtick_end in Ht. discriminate.
Qed.

Lemma unterminated_fence_witness :
  parseResponse (fenceOpenLine ++ Samples.inconsistentResponse)
  = Some Samples.inconsistentValue.
Proof.
  apply (@unterminated_fence_is_tolerated Samples.inconsistentResponse
           Samples.inconsistentValue).
  vm_compute. reflexivity.
Defined.

(** X22.  The fence is only removed with its line breaks.  A reply that opens the
    fence without a line feed right behind it keeps its backticks and is no
    JSON; so is a fenced reply whose closing backticks do not start a line. *)
Theorem a_fence_needs_its_line_breaks (t s : jsstring) :
  (startsWith (trim t) fenceOpen = true ->
   startsWith (trim t) fenceOpenLine = false ->
   parseResponse t = None)
  /\ (endsWith s [LF] = false ->
      parseResponse (fenceOpenLine ++ s ++ [BACKTICK; BACKTICK; BACKTICK]) = None).
Proof.
  split.
  - intros Ho Hl. unfold parseResponse, stripFence. rewrite Ho.
    unfold removePrefix. rewrite Hl.
    apply startsWith_inv in Ho as [r Hr]. rewrite Hr.
    unfold removeSuffix. destruct (endsWith (fenceOpen ++ r) fenceCloseLine);
      [|reflexivity].
    rewrite length_app. cbn [fenceOpen fenceCloseLine List.length app lit map
                             list_ascii_of_string].
    replace (7 + List.length r - 4)%nat with (S (2 + List.length r)) by lia.
    reflexivity.
  - intros Hs. unfold parseResponse.
    assert (Htrim : trim (fenceOpenLine ++ s ++ [BACKTICK; BACKTICK; BACKTICK])
                    = fenceOpenLine ++ s ++ [BACKTICK; BACKTICK; BACKTICK]).
    { change (fenceOpenLine ++ s ++ [BACKTICK; BACKTICK; BACKTICK])
        with (BACKTICK :: ([BACKTICK; BACKTICK] ++ lit "json" ++ [LF])
                ++ s ++ [BACKTICK; BACKTICK] ++ [BACKTICK]).
      rewrite !app_assoc. now apply trim_fixed. }
    rewrite Htrim. unfold stripFence. unfold fenceOpenLine at 1.
    rewrite <- app_assoc, startsWith_app, removePrefix_app.
    unfold removeSuffix.
    assert (He : endsWith (s ++ [BACKTICK; BACKTICK; BACKTICK]) fenceCloseLine = false).
    { unfold endsWith in *. rewrite rev_app_distr. cbn [rev app fenceCloseLine startsWith].
      cbn [rev app startsWith] in Hs. rewrite !N.eqb_refl. cbn [andb].
      destruct (rev s) as [|c rs]; [reflexivity|].
      now rewrite andb_true_r in *. }
    rewrite He.
    change (s ++ [BACKTICK; BACKTICK; BACKTICK])
      with (s ++ [BACKTICK; BACKTICK] ++ [BACKTICK]).
    rewrite app_assoc. apply parse_backtick_end.
Qed.

Lemma trimStart_blank (t : jsstring) : forallb isWhiteSpace t = true -> trimStart t = [].
Proof.
  induction t as [|c t IH]; [reflexivity|]. cbn [forallb trimStart].
  intros H. apply andb_true_iff in H as [Hc H]. now rewrite Hc, IH.
Qed.

(** X23.  A reply of white space only is not taken for a missing reply: it is
    truthy, trims to the empty text, and the phase fails with the SyntaxError
    of parsing the empty text. *)
Theorem a_blank_reply_is_a_syntax_error
        (w : World) (master : FileData.t) (filenames : list jsstring)
        (datasheets : list FileData.t) (req : Request) (t : jsstring) :
  t <> [] ->
  forallb isWhiteSpace t = true ->
  generateContent w req = GenReturns (Some t) ->
  parseResponse t = None
  /\ (generateCalls (snd (checkFileCompleteness master filenames w)) = [req] ->
      fst (checkFileCompleteness master filenames w)
      = Throw (ErrorObj (lit "Check Failed: " ++ syntaxErrorMessage w [])))
  /\ (generateCalls (snd (analyzeDatasheets master datasheets w)) = [req] ->
      fst (analyzeDatasheets master datasheets w)
      = Throw (ErrorObj (lit "AI Analysis Failed: " ++ syntaxErrorMessage w []))).
Proof.
  intros Hne Hb Hg.
  assert (Htrim : trim t = []).
  { unfold trim. now rewrite (@trimStart_blank t Hb). }
  assert (Hp : parseResponse t = None).
  { unfold parseResponse. now rewrite Htrim. }
  assert (Ht : truthy t = true) by now apply truthy_nonempty.
  split; [exact Hp|]. split; intros Hc.
  - rewrite (@check_after_call w master filenames req Hc), Hg.
    unfold outcome. now rewrite Ht, Hp, Htrim.
  - rewrite (@analysis_after_call w master datasheets req Hc), Hg.
    unfold outcome. now rewrite Ht, Hp, Htrim.
Qed.

Lemma blank_reply_witness :
  let w := Samples.answering Scenarios.blankReply None in
  fst (checkFileCompleteness Samples.masterPdf [lit "M1_datasheet.pdf"] w)
  = Throw (ErrorObj (lit "Check Failed: Unexpected token")).
Proof.
  intros w.
  apply (proj1 (proj2 (@a_blank_reply_is_a_syntax_error w Samples.masterPdf
                         [lit "M1_datasheet.pdf"] []
                         (checkRequest [lit "M1_datasheet.pdf"]
                            (PInline (lit "application/pdf") (lit "JVBERi0xLjQ=")))
                         Scenarios.blankReply
                         ltac:(discriminate) eq_refl eq_refl))).
  vm_compute. reflexivity.
Defined.

End FenceEdgeFacts.

(** ** The file names in the prompts *)

Section StringifyFacts.
Import JS JSON GeminiService Tokens.

Lemma hexval_hexDigit (n : N) : (n < 16)%N -> hexval (hexDigit n) = Some n.
Proof.
  intros H. unfold hexDigit, hexval, isDigit.
  destruct (N.ltb_spec n 10).
  - replace ((48 <=? 48 + n) && (48 + n <=? 57))%N with true.
    + f_equal. lia.
    + symmetry. apply andb_true_iff. split; apply N.leb_le; lia.
  - replace ((48 <=? 87 + n) && (87 + n <=? 57))%N with false.
    + replace ((97 <=? 87 + n) && (87 + n <=? 102))%N with true.
      * f_equal. lia.
      * symmetry. apply andb_true_iff. split; apply N.leb_le; lia.
    + symmetry. apply andb_false_iff. right. apply N.leb_gt. lia.
Qed.

Lemma hex4_value (c : N) :
  (c < 65536)%N ->
  ((((0 * 16 + c / 4096 mod 16) * 16 + c / 256 mod 16) * 16 + c / 16 mod 16) * 16
   + c mod 16 = c)%N.
Proof.
  intros H. zify. Z.to_euclidean_division_equations. lia.
Qed.

Lemma lex_hex4 (c : N) (acc r : jsstring) :
  (c < 65536)%N ->
  lex (InHex 4 0 acc) (hex4 c ++ r) = lex (InStr (c :: acc)) r.
Proof.
  intros H. unfold hex4. cbn [app lex].
  rewrite !hexval_hexDigit by (apply N.mod_upper_bound; discriminate).
  now rewrite (hex4_value H).
Qed.

Lemma lex_u_escape (c : N) (acc r : jsstring) :
  (c < 65536)%N ->
  lex (InStr acc) (BACKSLASH :: lit "u" ++ hex4 c ++ r) = lex (InStr (c :: acc)) r.
Proof.
  intros H. change (lit "u" ++ hex4 c ++ r) with (117%N :: hex4 c ++ r).
  cbn [lex]. change (BACKSLASH =? 34)%N with false. change (BACKSLASH =? 92)%N with true.
  cbn [lex]. change (unescape 117) with (@None N). change (117 =? 117)%N with true.
  cbv iota. now apply lex_hex4.
Qed.

Lemma lex_plain_unit (c : N) (acc r : jsstring) :
  (c =? 34)%N = false -> (c =? 92)%N = false -> (c <? 32)%N = false ->
  lex (InStr acc) (c :: r) = lex (InStr (c :: acc)) r.
Proof. intros H1 H2 H3. cbn [lex]. now rewrite H1, H2, H3. Qed.

Lemma u_escape_app (c : N) (q rest : jsstring) :
  (BACKSLASH :: lit "u" ++ hex4 c ++ q) ++ rest
  = BACKSLASH :: lit "u" ++ hex4 c ++ q ++ rest.
Proof. reflexivity. Qed.

(** The lexer reads a quoted string back as the string. *)
Lemma lex_quoteChars (n : nat) :
  forall (s acc rest : jsstring),
    (List.length s <= n)%nat ->
    lex (InStr acc) (quoteChars s ++ DQUOTE :: rest)
    = option_map (cons (TString (rev acc ++ s))) (lex Top rest).
Proof.
  induction n as [|n IH]; intros s acc rest Hlen.
  - destruct s; [|cbn in Hlen; lia]. cbn [quoteChars app lex].
    change (DQUOTE =? 34)%N with true. cbv iota. now rewrite app_nil_r.
  - destruct s as [|c r].
    { cbn [quoteChars app lex]. change (DQUOTE =? 34)%N with true. cbv iota.
      now rewrite app_nil_r. }
    cbn [List.length] in Hlen.
    assert (Hr : forall acc', lex (InStr (c :: acc')) (quoteChars r ++ DQUOTE :: rest)
                   = option_map (cons (TString (rev acc' ++ c :: r))) (lex Top rest)).
    { intros acc'. rewrite IH by lia. cbn [rev]. now rewrite <- app_assoc. }
    cbn [quoteChars].
    destruct (N.eqb_spec c 8) as [->|H8]; [apply Hr|].
    destruct (N.eqb_spec c 9) as [->|H9]; [apply Hr|].
    destruct (N.eqb_spec c 10) as [->|H10]; [apply Hr|].
    destruct (N.eqb_spec c 12) as [->|H12]; [apply Hr|].
    destruct (N.eqb_spec c 13) as [->|H13]; [apply Hr|].
    destruct (N.eqb_spec c 34) as [->|H34]; [apply Hr|].
    destruct (N.eqb_spec c 92) as [->|H92]; [apply Hr|].
    destruct (N.ltb_spec c 32) as [H32|H32].
    { rewrite u_escape_app, lex_u_escape by lia. apply Hr. }
    assert (Hplain : forall acc', lex (InStr acc') (c :: quoteChars r ++ DQUOTE :: rest)
                       = option_map (cons (TString (rev acc' ++ c :: r))) (lex Top rest)).
    { intros acc'. rewrite lex_plain_unit; [apply Hr| | |].
      - now apply N.eqb_neq.
      - now apply N.eqb_neq.
      - apply N.ltb_ge. lia. }
    destruct (isHighSurrogate c) eqn:Hh.
    { unfold isHighSurrogate in Hh. apply andb_true_iff in Hh as [Hh1 Hh2].
      apply N.leb_le in Hh1, Hh2.
      destruct r as [|d r'].
      - change ((BACKSLASH :: lit "u" ++ hex4 c) ++ DQUOTE :: rest)
          with (BACKSLASH :: lit "u" ++ hex4 c ++ quoteChars [] ++ DQUOTE :: rest).
        rewrite lex_u_escape by lia. apply Hr.
      - destruct (isLowSurrogate d) eqn:Hl.
        + unfold isLowSurrogate in Hl. apply andb_true_iff in Hl as [Hl1 Hl2].
          apply N.leb_le in Hl1, Hl2. cbn [app].
          rewrite !lex_plain_unit;
            try (apply N.eqb_neq; lia); try (apply N.ltb_ge; lia).
          cbn [List.length] in Hlen. rewrite IH by lia.
          cbn [rev]. now rewrite <- !app_assoc.
        + rewrite u_escape_app, lex_u_escape by lia. apply Hr. }
    destruct (isLowSurrogate c) eqn:Hl.
    { unfold isLowSurrogate in Hl. apply andb_true_iff in Hl as [Hl1 Hl2].
      apply N.leb_le in Hl1, Hl2.
      rewrite u_escape_app, lex_u_escape by lia. apply Hr. }
    apply Hplain.
Qed.

Lemma lex_quote (s rest : jsstring) :
  lex Top (quote s ++ rest) = option_map (cons (TString s)) (lex Top rest).
Proof.
  unfold quote. cbn [app lex]. change (start DQUOTE) with (Some (InStr [], @nil token)).
  cbv iota. rewrite <- app_assoc. cbn [app].
  rewrite (@lex_quoteChars (List.length s) s [] rest (le_n _)).
  now destruct (lex Top rest).
Qed.

Lemma lex_names (names : list jsstring) :
  lex Top (join (lit ",") (map quote names) ++ lit "]")
  = Some (nameTokens names ++ [TRBracket]).
Proof.
  induction names as [|x rest IH]; [reflexivity|].
  destruct rest as [|y rest].
  - cbn [map join nameTokens]. rewrite lex_quote. reflexivity.
  - change (join (lit ",") (map quote (x :: y :: rest)) ++ lit "]")
      with ((quote x ++ lit "," ++ join (lit ",") (map quote (y :: rest))) ++ lit "]").
    rewrite <- !app_assoc, lex_quote.
    change (lit "," ++ join (lit ",") (map quote (y :: rest)) ++ lit "]")
      with (44%N :: join (lit ",") (map quote (y :: rest)) ++ lit "]").
    cbn [lex]. change (start 44) with (Some (Top, [TComma])). cbv iota.
    rewrite IH. reflexivity.
Qed.

Lemma run_names (names : list jsstring) (x : jsstring) (es : list json) (b : bool) :
  run (ExpValue b) [FArray es] (nameTokens (x :: names) ++ [TRBracket])
  = Some (JArray (rev es ++ map JString (x :: names))).
Proof.
  revert x es b. induction names as [|y rest IH]; intros x es b.
  - cbn. reflexivity.
  - change (nameTokens (x :: y :: rest)) with (TString x :: TComma :: nameTokens (y :: rest)).
    cbn [app run pstep scalar push_value]. rewrite IH. cbn [rev map].
    now rewrite <- app_assoc.
Qed.

(** X24.  Both prompts contain the list of file names as [JSON.stringify] writes it,
    and that text parses back to the array of the names, whatever code units
    they contain. *)
Theorem the_prompts_carry_the_file_names (filenames : list jsstring) :
  parse (stringifyStrings filenames) = Some (JArray (map JString filenames))
  /\ includes (checkPrompt filenames) (stringifyStrings filenames) = true
  /\ includes (analysisPrompt filenames) (stringifyStrings filenames) = true.
Proof.
  split; [|split].
  - unfold parse, stringifyStrings.
    change (lit "[" ++ join (lit ",") (map quote filenames) ++ lit "]")
      with (91%N :: join (lit ",") (map quote filenames) ++ lit "]").
    cbn [lex]. change (start 91) with (Some (Top, [TLBracket])). cbv iota.
    rewrite lex_names. cbn [option_map app run pstep].
    destruct filenames as [|x rest]; [reflexivity|].
    apply (run_names rest x [] true).
  - unfold checkPrompt.
    match goal with
    | |- includes (join _ ?l) _ = true =>
        change (join [LF] l)
          with ((join [LF] (firstn 12 l) ++ [LF] ++ lit "    ")
                ++ stringifyStrings filenames ++ ([LF] ++ join [LF] (skipn 13 l)))
    end.
    apply includes_segment.
  - unfold analysisPrompt.
    match goal with
    | |- includes (join _ ?l) _ = true =>
        change (join [LF] l)
          with ((join [LF] (firstn 5 l) ++ [LF] ++ lit "    ")
                ++ stringifyStrings filenames ++ ([LF] ++ join [LF] (skipn 6 l)))
    end.
    apply includes_segment.
Qed.

End StringifyFacts.
